(** * pydeck example notebooks: Conway's Game of Life and the Introduction

    A shallow embedding of the code cells of
    [bindings/python/pydeck/examples/Conway's Game of Life.ipynb] and
    [bindings/python/pydeck/examples/Introduction.ipynb].

    - Python lists that the notebooks mutate (boards and their rows) and the
      pydeck objects live in an explicit heap and are passed around by
      reference; lists that are only built and handed on (colours, records)
      are values.
    - The module-level names of a notebook live in a dictionary of globals.
      The names that [def] and [import] statements bind (the notebook's
      functions, and the modules [random], [time], [pandas] and [pydeck]) are
      resolved in the model itself: a call of [process_life] in a cell is the
      function of the first cell.  What is stated of a cell is therefore
      stated of the cell run in a session in which the cells that define the
      functions and modules it uses have run.
    - [random.choice] reads from an explicit stream of draws.
    - Exceptions are an error result.
    - Printing, sleeping and the calls to the widget are appended to a log of
      effects; calls of [get], [assign] and [count_neighbors] are appended to
      a log of calls, which serves to count work.

    Every notebook function is a computation in the monad [M] below.  The
    file first gives the model, then the definitions in which the properties
    are stated, then the lemmas and the properties C1 to C10, and last
    further properties of the same code, X1 to X17, with their lemmas. *)

From Stdlib Require Import ZArith Lia.
From stdpp Require Import base list strings gmap pretty.

Open Scope Z_scope.

(** ** Python values, objects and the interpreter state *)

Inductive exn :=
| IndexError | ZeroDivisionError | NameError | TypeError | AttributeError.

Inductive result (A : Type) :=
| Ok (a : A)
| Raise (e : exn).
Arguments Ok {A} a.
Arguments Raise {A} e.

Abbreviation loc := nat (only parsing).

(** Immutable values.  [VDec m e] is the float written [m * 10^e] (a float
    literal such as [0.01], or the quotient [x / 1000.0] of an int);
    [VRef l] is a reference to a heap object. *)
#[warnings="-register-all"]
Inductive pyval :=
| VNone
| VBool (b : bool)
| VInt (z : Z)
| VDec (m e : Z)
| VStr (s : string)
| VList (vs : list pyval)
| VDict (kvs : list (string * pyval))
| VRef (l : loc).

(** Mutable objects: a row of a board (a list of ints), a board (a list of
    references to rows) and an instance of a class with its attribute
    dictionary. *)
Inductive pyobj :=
| ObjRow (cells : list Z)
| ObjBoard (rows : list loc)
| ObjInstance (cls : string) (attrs : gmap string pyval).

(** Calls of the notebook's board functions, logged for counting work. *)
Inductive call :=
| CallGet (board : loc) (x y : Z)
| CallAssign (board : loc) (x y v : Z)
| CallCount (board : loc) (x y : Z).

(** What the notebook does to the outside world: a print statement with
    its argument, [clear_output], [time.sleep] and the two calls that hand
    the deck to the widget. *)
Inductive effect :=
| Printed (s : string)
| Cleared
| Slept (seconds : pyval)
| Shown (json : pyval)
| Refreshed (json : pyval).

(** The state of module [random]: the stream of draws and how many of them
    have been consumed. *)
Record rng := Rng { draws : nat → nat; used : nat }.

Record world := World {
  w_heap : list pyobj;
  w_globals : gmap string pyval;
  w_rng : rng;
  w_calls : list call;
  w_out : list effect
}.

Definition set_heap (h : list pyobj) (w : world) : world :=
  World h (w_globals w) (w_rng w) (w_calls w) (w_out w).
Definition set_globals (g : gmap string pyval) (w : world) : world :=
  World (w_heap w) g (w_rng w) (w_calls w) (w_out w).
Definition set_rng (r : rng) (w : world) : world :=
  World (w_heap w) (w_globals w) r (w_calls w) (w_out w).
Definition set_calls (c : list call) (w : world) : world :=
  World (w_heap w) (w_globals w) (w_rng w) c (w_out w).
Definition set_out (o : list effect) (w : world) : world :=
  World (w_heap w) (w_globals w) (w_rng w) (w_calls w) o.

(** ** The monad of notebook computations *)

Definition M (A : Type) : Type := world → result A * world.

Definition ret {A} (a : A) : M A := λ w, (Ok a, w).
Definition raise {A} (e : exn) : M A := λ w, (Raise e, w).
Definition bind {A B} (m : M A) (k : A → M B) : M B :=
  λ w, match m w with
       | (Ok a, w') => k a w'
       | (Raise e, w') => (Raise e, w')
       end.

Notation "x <- c ;; k" := (bind c (λ x, k))
  (at level 100, c at next level, right associativity).
Notation "c ;;; k" := (bind c (λ _, k))
  (at level 100, right associativity).

(** [for x in xs: body] *)
Fixpoint for_each {A} (xs : list A) (body : A → M unit) : M unit :=
  match xs with
  | [] => ret tt
  | x :: xs' => body x ;;; for_each xs' body
  end.

(** [[f(x) for x in xs]] *)
Fixpoint list_comp {A B} (xs : list A) (f : A → M B) : M (list B) :=
  match xs with
  | [] => ret []
  | x :: xs' => v <- f x ;; vs <- list_comp xs' f ;; ret (v :: vs)
  end.

(** ** Python primitives used by the notebooks *)

(** [range(a, b)] of Python 2: the list [a, a+1, ..., b-1]. *)
Definition py_range (a b : Z) : list Z :=
  map (λ i : nat, a + Z.of_nat i) (seq 0 (Z.to_nat (b - a))).

(** [[v] * n] *)
Definition py_repeat (v : Z) (n : Z) : list Z := replicate (Z.to_nat n) v.

(** [sum(xs)] *)
Definition py_sum (xs : list Z) : Z := fold_left Z.add xs 0.

(** The position that subscript [i] denotes in a list of length [n]:
    negative subscripts count from the end, anything else out of range is
    an [IndexError]. *)
Definition py_index (n : nat) (i : Z) : option nat :=
  if (0 <=? i) && (i <? Z.of_nat n) then Some (Z.to_nat i)
  else if (i <? 0) && (- Z.of_nat n <=? i) then Some (Z.to_nat (i + Z.of_nat n))
  else None.

(** [a % b] on ints: the remainder has the sign of the divisor. *)
Definition py_mod (a b : Z) : M Z :=
  if b =? 0 then raise ZeroDivisionError else ret (a mod b).

(** [len(l)] of a list object. *)
Definition py_len (l : loc) : M Z :=
  λ w, match w_heap w !! l with
       | Some (ObjRow cells) => (Ok (Z.of_nat (length cells)), w)
       | Some (ObjBoard rows) => (Ok (Z.of_nat (length rows)), w)
       | _ => (Raise TypeError, w)
       end.

(** [board[i]] *)
Definition getitem_board (board : loc) (i : Z) : M loc :=
  λ w, match w_heap w !! board with
       | Some (ObjBoard rows) =>
           match py_index (length rows) i with
           | Some k => match rows !! k with
                       | Some r => (Ok r, w)
                       | None => (Raise IndexError, w)
                       end
           | None => (Raise IndexError, w)
           end
       | _ => (Raise TypeError, w)
       end.

(** [row[i]] *)
Definition getitem_row (row : loc) (i : Z) : M Z :=
  λ w, match w_heap w !! row with
       | Some (ObjRow cells) =>
           match py_index (length cells) i with
           | Some k => match cells !! k with
                       | Some v => (Ok v, w)
                       | None => (Raise IndexError, w)
                       end
           | None => (Raise IndexError, w)
           end
       | _ => (Raise TypeError, w)
       end.

(** [row[i] = v]: the row object is updated in place. *)
Definition setitem_row (row : loc) (i : Z) (v : Z) : M unit :=
  λ w, match w_heap w !! row with
       | Some (ObjRow cells) =>
           match py_index (length cells) i with
           | Some k => (Ok tt, set_heap (<[row := ObjRow (<[k := v]> cells)]> (w_heap w)) w)
           | None => (Raise IndexError, w)
           end
       | _ => (Raise TypeError, w)
       end.

(** A new object, at the next free location. *)
Definition alloc (o : pyobj) : M loc :=
  λ w, (Ok (length (w_heap w)), set_heap (w_heap w ++ [o]) w).

(** [board.append(row)]: the board object is updated in place. *)
Definition append_board (board : loc) (row : loc) : M unit :=
  λ w, match w_heap w !! board with
       | Some (ObjBoard rows) =>
           (Ok tt, set_heap (<[board := ObjBoard (rows ++ [row])]> (w_heap w)) w)
       | _ => (Raise TypeError, w)
       end.

(** [random.choice(seq)]: one draw selects a position of [seq]. *)
Definition random_choice (choices : list Z) : M Z :=
  λ w, let g := w_rng w in
       match choices !! (draws g (used g) mod length choices)%nat with
       | Some v => (Ok v, set_rng (Rng (draws g) (S (used g))) w)
       | None => (Raise IndexError, w)
       end.

Definition log_call (c : call) : M unit :=
  λ w, (Ok tt, set_calls (w_calls w ++ [c]) w).

Definition emit (e : effect) : M unit :=
  λ w, (Ok tt, set_out (w_out w ++ [e]) w).

(** A loop that threads a local variable: [for x in xs: s = body(x, s)]. *)
Fixpoint for_fold {A S} (xs : list A) (s : S) (body : A → S → M S) : M S :=
  match xs with
  | [] => ret s
  | x :: xs' => s' <- body x s ;; for_fold xs' s' body
  end.

(** [range(a, b, step)] of Python 2 for a positive step. *)
Definition py_range_step (a b step : Z) : list Z :=
  map (λ i : nat, a + step * Z.of_nat i) (seq 0 (Z.to_nat ((b - a + step - 1) / step))).

(** Reading and binding a module-level name. *)
Definition load (name : string) : M pyval :=
  λ w, match w_globals w !! name with
       | Some v => (Ok v, w)
       | None => (Raise NameError, w)
       end.

Definition store (name : string) (v : pyval) : M unit :=
  λ w, (Ok tt, set_globals (<[name := v]> (w_globals w)) w).

Definition as_ref (v : pyval) : M loc :=
  match v with
  | VRef l => ret l
  | _ => raise TypeError
  end.

(** An int read from a name. *)
Definition as_int (v : pyval) : M Z :=
  match v with
  | VInt z => ret z
  | _ => raise TypeError
  end.

(** [obj.name = v]: the attribute dictionary of the instance is updated in
    place; list objects have no settable attributes. *)
Definition setattr (obj : loc) (name : string) (v : pyval) : M unit :=
  λ w, match w_heap w !! obj with
       | Some (ObjInstance cls attrs) =>
           (Ok tt, set_heap (<[obj := ObjInstance cls (<[name := v]> attrs)]> (w_heap w)) w)
       | _ => (Raise AttributeError, w)
       end.

(** The items that [for item in l] visits when the body does not change [l]. *)
Definition iter_board (board : loc) : M (list loc) :=
  λ w, match w_heap w !! board with
       | Some (ObjBoard rows) => (Ok rows, w)
       | _ => (Raise TypeError, w)
       end.

Definition iter_row (row : loc) : M (list Z) :=
  λ w, match w_heap w !! row with
       | Some (ObjRow cells) => (Ok cells, w)
       | _ => (Raise TypeError, w)
       end.

(** [print(s),], [clear_output(wait=True)] and [time.sleep(t)]. *)
Definition print (s : string) : M unit := emit (Printed s).
Definition clear_output : M unit := emit Cleared.
Definition sleep (seconds : pyval) : M unit := emit (Slept seconds).

Definition newline : string := String (Ascii.ascii_of_nat 10) EmptyString.

(** [pd.DataFrame(rows, columns=cols).to_dict(orient='records')]: one
    dictionary per row, keyed by the column names. *)
Definition to_records (cols : list string) (rows : list (list pyval)) : pyval :=
  VList (map (λ row, VDict (zip cols row)) rows).

(** ** The Game of Life cell *)

Module Life.

(** [new_board(x, y, num_live_cells=2, num_dead_cells=3)] *)
Definition new_board (x y : Z) (num_live_cells num_dead_cells : Z) : M loc :=
  board <- alloc (ObjBoard []) ;;
  for_each (py_range 0 y) (λ i,
    cells <- list_comp (py_range 0 x) (λ _,
               random_choice (py_repeat 0 num_dead_cells ++ py_repeat 1 num_live_cells)) ;;
    row <- alloc (ObjRow cells) ;;
    append_board board row) ;;;
  ret board.

(** [get(board, x, y)] *)
Definition get (board : loc) (x y : Z) : M Z :=
  log_call (CallGet board x y) ;;;
  h <- py_len board ;;
  yi <- py_mod y h ;;
  row <- getitem_board board yi ;;
  row0 <- getitem_board board 0 ;;
  wd <- py_len row0 ;;
  xi <- py_mod x wd ;;
  getitem_row row xi.

(** [assign(board, x, y, value)] *)
Definition assign (board : loc) (x y : Z) (value : Z) : M unit :=
  log_call (CallAssign board x y value) ;;;
  h <- py_len board ;;
  yi <- py_mod y h ;;
  row <- getitem_board board yi ;;
  row0 <- getitem_board board 0 ;;
  wd <- py_len row0 ;;
  xi <- py_mod x wd ;;
  setitem_row row xi value.

(** [count_neighbors(board, x, y)] *)
Definition count_neighbors (board : loc) (x y : Z) : M Z :=
  log_call (CallCount board x y) ;;;
  a1 <- get board (x - 1) y ;;
  a2 <- get board (x + 1) y ;;
  a3 <- get board x (y - 1) ;;
  a4 <- get board x (y + 1) ;;
  a5 <- get board (x + 1) (y + 1) ;;
  a6 <- get board (x + 1) (y - 1) ;;
  a7 <- get board (x - 1) (y + 1) ;;
  a8 <- get board (x - 1) (y - 1) ;;
  ret (py_sum [a1; a2; a3; a4; a5; a6; a7; a8]).

(** The branch of [process_life] for one cell: the value assigned to the
    next board. *)
Definition next_state (num_neighbors : Z) (is_alive : bool) : Z :=
  if (num_neighbors <? 2) && is_alive then 0
  else if (2 <=? num_neighbors) && (num_neighbors <=? 3) && is_alive then 1
  else if (3 <? num_neighbors) && is_alive then 0
  else if (num_neighbors =? 3) && negb is_alive then 1
  else 0.

(** [process_life(board)] *)
Definition process_life (board : loc) : M loc :=
  row0 <- getitem_board board 0 ;;
  wd <- py_len row0 ;;
  ht <- py_len board ;;
  next_board <- new_board wd ht 2 3 ;;
  n <- py_len board ;;
  for_each (py_range 0 n) (λ y,
    row <- getitem_board board y ;;
    m <- py_len row ;;
    for_each (py_range 0 m) (λ x,
      num_neighbors <- count_neighbors board x y ;;
      c <- get board x y ;;
      let is_alive := c =? 1 in
      if (num_neighbors <? 2) && is_alive then assign next_board x y 0
      else if (2 <=? num_neighbors) && (num_neighbors <=? 3) && is_alive then assign next_board x y 1
      else if (3 <? num_neighbors) && is_alive then assign next_board x y 0
      else if (num_neighbors =? 3) && negb is_alive then assign next_board x y 1
      else assign next_board x y 0)) ;;;
  ret next_board.

End Life.

(** ** The pydeck objects the notebooks use *)

Module Pydeck.

(** Modelled from the spec: the classes [Layer], [ViewState], [View],
    [LightSettings] and [Deck] of package [pydeck] are not among the
    notebook sources.  The spec calls them declarative configuration objects
    that are opaque carriers of what they were constructed with, so a
    constructor allocates an instance whose attributes are its arguments. *)
Definition new_object (cls : string) (kwargs : list (string * pyval)) : M loc :=
  alloc (ObjInstance cls (list_to_map kwargs)).

Definition Layer (type : string) (data : pyval) (kwargs : list (string * pyval)) : M loc :=
  new_object "Layer" (("type", VStr type) :: ("data", data) :: kwargs).

Definition ViewState (kwargs : list (string * pyval)) : M loc :=
  new_object "ViewState" kwargs.

Definition View (type : string) (controller : bool) : M loc :=
  new_object "View" [("type", VStr type); ("controller", VBool controller)].

Definition LightSettings (kwargs : list (string * pyval)) : M loc :=
  new_object "LightSettings" kwargs.

Definition Deck (kwargs : list (string * pyval)) : M loc :=
  new_object "Deck" kwargs.

(** Modelled from the spec: the serializer of [pydeck] is not among the
    notebook sources.  A configuration object becomes the JSON object of its
    attributes (for a layer: its type tag and its free-form properties);
    lists and dictionaries are serialized item by item. *)
Fixpoint json_of (depth : nat) (h : list pyobj) (v : pyval) : pyval :=
  match depth with
  | O => VNone
  | S depth' =>
      match v with
      | VRef l =>
          match h !! l with
          | Some (ObjInstance _ attrs) =>
              VDict (map (λ kv, (kv.1, json_of depth' h kv.2)) (map_to_list attrs))
          | _ => VNone
          end
      | VList vs => VList (map (json_of depth' h) vs)
      | VDict kvs => VDict (map (λ kv, (kv.1, json_of depth' h kv.2)) kvs)
      | _ => v
      end
  end.

Definition json_depth : nat := 16.

Definition attr (attrs : gmap string pyval) (name : string) : pyval :=
  default VNone (attrs !! name).

(** Modelled from the spec: [Deck.to_json] is not among the notebook
    sources.  The JSON sent to the widget is an object with the keys
    [initialViewState], [layers] (a list of layer descriptors) and [views]. *)
Definition deck_json (h : list pyobj) (attrs : gmap string pyval) : pyval :=
  VDict [("initialViewState", json_of json_depth h (attr attrs "initial_view_state"));
         ("layers", json_of json_depth h (attr attrs "layers"));
         ("views", json_of json_depth h (attr attrs "views"))].

Definition to_json (deck : loc) : M pyval :=
  λ w, match w_heap w !! deck with
       | Some (ObjInstance _ attrs) => (Ok (deck_json (w_heap w) attrs), w)
       | _ => (Raise AttributeError, w)
       end.

(** Modelled from the spec: [Deck.show] and [Deck.update] are not among the
    notebook sources.  [show] renders the configuration through the widget;
    [update] is the refresh call, which sends the current configuration to
    the widget and changes no configuration object. *)
Definition show (deck : loc) : M unit :=
  json <- to_json deck ;; emit (Shown json).

Definition update (deck : loc) : M unit :=
  json <- to_json deck ;; emit (Refreshed json).

End Pydeck.

(** ** The remaining cells of the Game of Life notebook *)

Module Conway.
Import Life Pydeck.

(** [draw_board(board)] *)
Definition draw_board (board : loc) : M unit :=
  rows <- iter_board board ;;
  for_each rows (λ row,
    cells <- iter_row row ;;
    for_each cells (λ col,
      if col =? 1 then print "*" else print "-") ;;;
    print newline).

(** The loop body and the loop of the text demo. *)
Definition text_demo_body (i : Z) : M unit :=
  store "i" (VInt i) ;;;
  print ("Iteration " +:+ pretty i) ;;;
  b <- load "board" ;; b <- as_ref b ;;
  nb <- process_life b ;;
  store "board" (VRef nb) ;;;
  b <- load "board" ;; b <- as_ref b ;;
  draw_board b ;;;
  clear_output ;;;
  sleep (VDec 5 (-2)).

Definition text_demo_loop : M unit :=
  for_each (py_range 1 101) text_demo_body.

(** The text demo cell. *)
Definition text_demo : M unit :=
  b <- new_board 20 20 2 3 ;;
  store "board" (VRef b) ;;;
  text_demo_loop.

Definition PINK : pyval := VList [VInt 155; VInt 155; VInt 255; VInt 245].
Definition PURPLE : pyval := VList [VInt 255; VInt 155; VInt 255; VInt 245].
Definition BLACK : pyval := VList [VInt 0; VInt 0; VInt 0; VInt 255].

(** [convert_board_to_df(board)] of the first pydeck cell. *)
Definition convert_board_to_df (board : loc) : M pyval :=
  row0 <- getitem_board board 0 ;;
  wd <- py_len row0 ;;
  rows <- for_fold (py_range 0 wd) [] (λ x rows,
    ht <- py_len board ;;
    for_fold (py_range 0 ht) rows (λ y rows,
      row <- getitem_board board y ;;
      c <- getitem_row row x ;;
      color <- (if negb (c =? 0) then load "PURPLE" else load "PINK") ;;
      ret (rows ++ [[VList [VDec x (-3); VDec y (-3)]; color]]))) ;;
  ret (to_records ["position"; "color"] rows).

(** The first pydeck cell: the board, its layer, the deck and the widget. *)
Definition pydeck_cell : M unit :=
  store "PINK" PINK ;;;
  store "PURPLE" PURPLE ;;;
  b <- new_board 30 30 2 3 ;;
  store "board" (VRef b) ;;;
  b <- load "board" ;; b <- as_ref b ;;
  records <- convert_board_to_df b ;;
  store "records" records ;;;
  records <- load "records" ;;
  layer <- Layer "PointCloudLayer" records
             [("get_position", VStr "position"); ("get_color", VStr "color");
              ("get_radius", VInt 40)] ;;
  store "layer" (VRef layer) ;;;
  view_state <- ViewState [("latitude", VDec 1 (-2)); ("longitude", VDec 1 (-2));
                           ("zoom", VInt 13); ("bearing", VInt 44); ("pitch", VInt 45)] ;;
  store "view_state" (VRef view_state) ;;;
  layer <- load "layer" ;;
  view_state <- load "view_state" ;;
  r <- Deck [("layers", VList [layer]); ("initial_view_state", view_state);
             ("map_style", VStr EmptyString)] ;;
  store "r" (VRef r) ;;;
  r <- load "r" ;; r <- as_ref r ;;
  show r.

(** The loop body and the loop that play the game in the widget. *)
Definition animation_body (i : Z) : M unit :=
  store "i" (VInt i) ;;;
  b <- load "board" ;; b <- as_ref b ;;
  nb <- process_life b ;;
  store "board" (VRef nb) ;;;
  b <- load "board" ;; b <- as_ref b ;;
  records <- convert_board_to_df b ;;
  store "records" records ;;;
  records <- load "records" ;;
  layer <- load "layer" ;; layer <- as_ref layer ;;
  setattr layer "data" records ;;;
  r <- load "r" ;; r <- as_ref r ;;
  update r ;;;
  sleep (VDec 1 (-1)).

Definition NUM_ITERATIONS : Z := 100.

Definition animation_loop : M unit :=
  store "NUM_ITERATIONS" (VInt NUM_ITERATIONS) ;;;
  for_each (py_range 0 NUM_ITERATIONS) animation_body.

(** [convert_board_to_df(board, iteration)] of the stacked-iterations cell. *)
Definition convert_board_to_df_3d (board : loc) (iteration : Z) : M pyval :=
  row0 <- getitem_board board 0 ;;
  wd <- py_len row0 ;;
  rows <- for_fold (py_range 0 wd) [] (λ x rows,
    ht <- py_len board ;;
    for_fold (py_range 0 ht) rows (λ y rows,
      row <- getitem_board board y ;;
      c <- getitem_row row x ;;
      color <- (if negb (c =? 0) then load "PURPLE" else load "TRANSPARENT") ;;
      ret (rows ++ [[VList [VDec x (-3); VDec y (-3); VInt (iteration * 1000)]; color]]))) ;;
  ret (to_records ["position"; "color"] rows).

(** The loop body and the cell that stack the iterations.  The list that
    [records.extend] grows in place is referred to by the name [records]
    only, so the call is the rebinding of that name to the longer list. *)
Definition stack_body (i : Z) : M unit :=
  store "i" (VInt i) ;;;
  b <- load "board" ;; b <- as_ref b ;;
  nb <- process_life b ;;
  store "board" (VRef nb) ;;;
  records <- load "records" ;;
  b <- load "board" ;; b <- as_ref b ;;
  i <- load "i" ;; i <- as_int i ;;
  more <- convert_board_to_df_3d b i ;;
  match records, more with
  | VList old, VList new => store "records" (VList (old ++ new))
  | _, _ => raise TypeError
  end.

Definition stack_cell : M unit :=
  store "BLACK" BLACK ;;;
  store "NUM_ITERATIONS" (VInt 2) ;;;
  b <- new_board 20 20 2 3 ;;
  store "board" (VRef b) ;;;
  b <- load "board" ;; b <- as_ref b ;;
  records <- convert_board_to_df_3d b 0 ;;
  store "records" records ;;;
  n <- load "NUM_ITERATIONS" ;; n <- as_int n ;;
  for_each (py_range 1 n) stack_body ;;;
  records <- load "records" ;;
  layer <- load "layer" ;; layer <- as_ref layer ;;
  setattr layer "data" records ;;;
  records <- load "records" ;;
  layer <- Layer "PointCloudLayer" records
             [("get_position", VStr "position"); ("get_color", VStr "color");
              ("get_radius", VInt 5)] ;;
  store "layer" (VRef layer) ;;;
  view_state <- ViewState [("latitude", VDec 1 (-2)); ("longitude", VDec 1 (-2));
                           ("zoom", VInt 13); ("bearing", VInt 44); ("pitch", VInt 45)] ;;
  store "view_state" (VRef view_state) ;;;
  layer <- load "layer" ;;
  view_state <- load "view_state" ;;
  r <- Deck [("layers", VList [layer]); ("initial_view_state", view_state);
             ("map_style", VStr EmptyString)] ;;
  store "r" (VRef r) ;;;
  r <- load "r" ;; r <- as_ref r ;;
  show r.

(** The module-level names that the cells of the notebook bind. *)
Definition notebook_names : list string :=
  ["random"; "new_board"; "get"; "assign"; "count_neighbors"; "process_life";
   "clear_output"; "time"; "draw_board"; "board"; "i";
   "np"; "pd"; "deck"; "PINK"; "PURPLE"; "convert_board_to_df"; "records";
   "layer"; "view_state"; "r"; "NUM_ITERATIONS"; "BLACK"].

End Conway.

(** ** The cells of the Introduction notebook *)

Module Intro.
Import Pydeck.

Definition UK_ACCIDENTS_DATA : pyval :=
  VStr "https://raw.githubusercontent.com/uber-common/deck.gl-data/master/examples/3d-heatmap/heatmap-data.csv".

(** "Set up a deck.gl configuration" *)
Definition setup_cell : M unit :=
  store "UK_ACCIDENTS_DATA" UK_ACCIDENTS_DATA ;;;
  data <- load "UK_ACCIDENTS_DATA" ;;
  layer <- Layer "HexagonLayer" data
             [("elevation_scale", VInt 50);
              ("elevation_range", VList [VInt 0; VInt 3000]);
              ("extruded", VBool true); ("coverage", VInt 1)] ;;
  store "layer" (VRef layer) ;;;
  view_state <- ViewState [("longitude", VDec (-1415) (-3)); ("latitude", VDec 522323 (-4));
                           ("zoom", VDec 66 (-1)); ("min_zoom", VInt 5);
                           ("max_zoom", VInt 15); ("pitch", VDec 405 (-1));
                           ("bearing", VDec (-27396) (-3))] ;;
  store "view_state" (VRef view_state) ;;;
  layer <- load "layer" ;;
  view_state <- load "view_state" ;;
  r <- Deck [("layers", VList [layer]); ("initial_view_state", view_state)] ;;
  store "r" (VRef r) ;;;
  r <- load "r" ;; r <- as_ref r ;;
  show r.

(** "Render an update to the visualization" *)
Definition update_cell : M unit :=
  layer <- load "layer" ;; layer <- as_ref layer ;;
  setattr layer "elevation_range" (VList [VInt 0; VInt 1000]) ;;;
  r <- load "r" ;; r <- as_ref r ;;
  update r.

(** "Support updates over time" *)
Definition update_body (i : Z) : M unit :=
  store "i" (VInt i) ;;;
  layer <- load "layer" ;; layer <- as_ref layer ;;
  i <- load "i" ;;
  setattr layer "elevation_range" (VList [VInt 0; i]) ;;;
  r <- load "r" ;; r <- as_ref r ;;
  update r ;;;
  sleep (VDec 1 (-1)).

Definition update_loop : M unit :=
  for_each (py_range_step 0 10000 1000) update_body.

(** "Example of other specifiable attributes" *)
Definition attributes_cell : M unit :=
  layer <- Layer "HexagonLayer" UK_ACCIDENTS_DATA
             [("elevation_scale", VInt 50);
              ("elevation_range", VList [VInt 0; VInt 3000]);
              ("extruded", VBool true); ("coverage", VInt 1)] ;;
  store "layer" (VRef layer) ;;;
  lights <- LightSettings
              [("lights_position",
                VList [VDec (-144528) (-6); VDec 49739968 (-6); VInt 8000;
                       VDec (-3807751) (-6); VDec 54104682 (-6); VInt 10000]);
               ("ambient_ratio", VDec 7 (-1)); ("diffuse_ratio", VDec 6 (-1))] ;;
  store "lights" (VRef lights) ;;;
  layer <- load "layer" ;; layer <- as_ref layer ;;
  lights <- load "lights" ;;
  setattr layer "light_settings" lights ;;;
  view_state <- ViewState [("longitude", VDec (-1415) (-3)); ("latitude", VDec 522323 (-4));
                           ("zoom", VDec 66 (-1)); ("min_zoom", VInt 5);
                           ("max_zoom", VInt 15); ("pitch", VDec 405 (-1));
                           ("bearing", VDec (-27396) (-3))] ;;
  store "view_state" (VRef view_state) ;;;
  view <- View "MapView" true ;;
  store "view" (VRef view) ;;;
  layer <- load "layer" ;;
  view_state <- load "view_state" ;;
  view <- load "view" ;;
  r <- Deck [("layers", VList [layer]); ("initial_view_state", view_state);
             ("views", VList [view])] ;;
  store "r" (VRef r).

(** The last cell: [r.show()] *)
Definition show_cell : M unit :=
  r <- load "r" ;; r <- as_ref r ;;
  show r.

End Intro.

(** ** Boards as values

    [read_board h b] is the matrix of ints that the board object at [b]
    denotes in heap [h]; [cell_opt] is the subscript expression
    [board[y % len(board)][x % len(board[0])]] on such a matrix. *)

Definition read_row (h : list pyobj) (l : loc) : option (list Z) :=
  match h !! l with
  | Some (ObjRow cells) => Some cells
  | _ => None
  end.

Definition board_rows (h : list pyobj) (b : loc) : option (list loc) :=
  match h !! b with
  | Some (ObjBoard rows) => Some rows
  | _ => None
  end.

Definition read_board (h : list pyobj) (b : loc) : option (list (list Z)) :=
  match h !! b with
  | Some (ObjBoard rows) => mapM (read_row h) rows
  | _ => None
  end.

Definition height (B : list (list Z)) : nat := length B.

Definition width (B : list (list Z)) : nat :=
  match B with
  | [] => 0%nat
  | row0 :: _ => length row0
  end.

(** A rectangular board with at least one cell. *)
Definition rectangular (B : list (list Z)) : Prop :=
  (0 < height B)%nat ∧ (0 < width B)%nat ∧ Forall (λ row, length row = width B) B.

(** All cells are 0 (dead) or 1 (alive). *)
Definition binary (B : list (list Z)) : Prop :=
  Forall (Forall (λ c, c = 0 ∨ c = 1)) B.

Global Instance rectangular_dec B : Decision (rectangular B).
Proof. unfold rectangular. apply _. Defined.

Global Instance binary_dec B : Decision (binary B).
Proof. unfold binary. apply _. Defined.

(** Decidable side conditions on concrete boards are settled by evaluation. *)
Ltac by_decide := refine (bool_decide_unpack _ _); vm_compute; exact I.

Definition cell_opt (B : list (list Z)) (x y : Z) : option Z :=
  row ← B !! Z.to_nat (y mod Z.of_nat (height B));
  row !! Z.to_nat (x mod Z.of_nat (width B)).

Definition cell (B : list (list Z)) (x y : Z) : Z := default 0 (cell_opt B x y).

(** The eight subscript expressions of [count_neighbors], in its order. *)
Definition neighbour_offsets : list (Z * Z) :=
  [(-1, 0); (1, 0); (0, -1); (0, 1); (1, 1); (1, -1); (-1, 1); (-1, -1)].

Definition neighbour_cells (B : list (list Z)) (x y : Z) : list Z :=
  map (λ d, cell B (x + d.1) (y + d.2)) neighbour_offsets.

Definition neighbour_sum (B : list (list Z)) (x y : Z) : Z :=
  py_sum (neighbour_cells B x y).

(** The calls that [count_neighbors(b, x, y)] logs. *)
Definition count_calls (b : loc) (x y : Z) : list call :=
  CallCount b x y :: map (λ d, CallGet b (x + d.1) (y + d.2)) neighbour_offsets.

(** ** Definitions used to state the properties *)

(** The board object at [b] has the row objects [rows], which hold [B]. *)
Definition board_at (h : list pyobj) (b : loc) (rows : list loc)
    (B : list (list Z)) : Prop :=
  h !! b = Some (ObjBoard rows) ∧
  Forall2 (λ l row, h !! l = Some (ObjRow row)) rows B.

(** The value that [process_life] assigns at [(x, y)]. *)
Definition next_cell (B : list (list Z)) (x y : Z) : Z :=
  Life.next_state (neighbour_sum B x y) (cell B x y =? 1).

Definition step_row (B : list (list Z)) (y : nat) : list Z :=
  map (λ x : nat, next_cell B (Z.of_nat x) (Z.of_nat y)) (seq 0 (width B)).

Definition life_step (B : list (list Z)) : list (list Z) :=
  map (step_row B) (seq 0 (height B)).

(** [next_board[y][x] = v] on a matrix. *)
Definition set_cell (NB : list (list Z)) (x y : nat) (v : Z) : list (list Z) :=
  alter (<[x := v]>) y NB.

(** The calls logged while [process_life] handles cell [(x, y)]. *)
Definition cell_calls (b nb : loc) (B : list (list Z)) (x y : Z) : list call :=
  count_calls b x y ++ [CallGet b x y; CallAssign nb x y (next_cell B x y)].

Definition row_calls (b nb : loc) (B : list (list Z)) (y : nat) : list call :=
  flat_map (λ x : nat, cell_calls b nb B (Z.of_nat x) (Z.of_nat y)) (seq 0 (width B)).

Definition life_calls (b nb : loc) (B : list (list Z)) : list call :=
  flat_map (row_calls b nb B) (seq 0 (height B)).

(** The heap after [process_life] has allocated its scratch board on top of
    heap [h]: the board object, then one object per row. *)
Definition next_heap (h : list pyobj) (ht : nat) (NB : list (list Z)) : list pyobj :=
  h ++ ObjBoard (seq (S (length h)) ht) :: (ObjRow <$> NB).

Definition dims (NB : list (list Z)) (ht wd : nat) : Prop :=
  length NB = ht ∧ Forall (λ row, length row = wd) NB.

(** All cell positions of a [ht] by [wd] board, row by row. *)
Definition cells_of (ht wd : nat) : list (Z * Z) :=
  flat_map (λ y : nat, map (λ x : nat, (Z.of_nat x, Z.of_nat y)) (seq 0 wd)) (seq 0 ht).

(** The positions that the logged calls assigned on board [nb]. *)
Definition assigned (nb : loc) (cs : list call) : list (Z * Z) :=
  omap (λ c, match c with
             | CallAssign b x y _ => if decide (b = nb) then Some (x, y) else None
             | _ => None
             end) cs.

(** The positions whose neighbours the logged calls counted on board [b]. *)
Definition counted (b : loc) (cs : list call) : list (Z * Z) :=
  omap (λ c, match c with
             | CallCount b' x y => if decide (b' = b) then Some (x, y) else None
             | _ => None
             end) cs.

(** *** Moore neighbours, in the words of the claim

    The distinct positions among the eight wrapped neighbour positions of
    (x, y), the position (x, y) itself left out, and the number of live
    cells among them. *)
Definition moore_positions (B : list (list Z)) (x y : Z) : list (Z * Z) :=
  (λ d, ((x + d.1) mod Z.of_nat (width B), (y + d.2) mod Z.of_nat (height B)))
    <$> neighbour_offsets.

Definition moore_neighbours (B : list (list Z)) (x y : Z) : list (Z * Z) :=
  filter (λ p, p ≠ (x mod Z.of_nat (width B), y mod Z.of_nat (height B)))
         (remove_dups (moore_positions B x y)).

Definition live_moore_neighbours (B : list (list Z)) (x y : Z) : Z :=
  Z.of_nat (length (filter (λ p, cell B p.1 p.2 = 1) (moore_neighbours B x y))).

(** The two [convert_board_to_df] functions differ in the name they read for
    a dead cell and in the position they give a record. *)
Definition convert_with (other : string) (position : Z → Z → pyval)
    (board : loc) : M pyval :=
  row0 <- getitem_board board 0 ;;
  wd <- py_len row0 ;;
  rows <- for_fold (py_range 0 wd) [] (λ x rows,
    ht <- py_len board ;;
    for_fold (py_range 0 ht) rows (λ y rows,
      row <- getitem_board board y ;;
      c <- getitem_row row x ;;
      color <- (if negb (c =? 0) then load "PURPLE" else load other) ;;
      ret (rows ++ [[position x y; color]]))) ;;
  ret (to_records ["position"; "color"] rows).

(** The record of one cell, when the name of its colour is bound. *)
Definition cell_record (g : gmap string pyval) (other : string)
    (position : Z → Z → pyval) (B : list (list Z)) (x y : nat) : option (list pyval) :=
  color ← (if negb (cell B (Z.of_nat x) (Z.of_nat y) =? 0)
           then g !! "PURPLE" else g !! other);
  Some [position (Z.of_nat x) (Z.of_nat y); color].

Definition records_of (g : gmap string pyval) (other : string)
    (position : Z → Z → pyval) (B : list (list Z)) : option pyval :=
  rss ← mapM (λ x, mapM (cell_record g other position B x) (seq 0 (height B)))
             (seq 0 (width B));
  Some (to_records ["position"; "color"] (concat rss)).

(** The records that the first [convert_board_to_df] builds for a board. *)
Definition board_records (B : list (list Z)) : pyval :=
  to_records ["position"; "color"]
    (flat_map (λ x : nat,
       map (λ y : nat,
              [VList [VDec (Z.of_nat x) (-3); VDec (Z.of_nat y) (-3)];
               if negb (cell B (Z.of_nat x) (Z.of_nat y) =? 0)
               then Conway.PURPLE else Conway.PINK])
           (seq 0 (height B)))
       (seq 0 (width B))).

(** The instance at a location, if there is one. *)
Definition inst (h : list pyobj) (l : loc) : option (string * gmap string pyval) :=
  match h !! l with
  | Some (ObjInstance cls attrs) => Some (cls, attrs)
  | _ => None
  end.

(** What [draw_board] prints for a board. *)
Definition drawing (B : list (list Z)) : list effect :=
  flat_map (λ row, map (λ col, Printed (if col =? 1 then "*" else "-")) row
                   ++ [Printed newline]) B.

(** What one round of the text demo prints. *)
Definition text_events (i : Z) (B : list (list Z)) : list effect :=
  Printed ("Iteration " +:+ pretty i) :: drawing B ++ [Cleared; Slept (VDec 5 (-2))].

(** What one round of the animation sends to the widget: the deck with the
    records of the current board as the data of its layer. *)
Definition refresh_events (h0 : list pyobj) (l : loc)
    (lattrs dattrs : gmap string pyval) (B : list (list Z)) : list effect :=
  [Refreshed (Pydeck.deck_json
              (<[l := ObjInstance "Layer" (<["data" := board_records B]> lattrs)]> h0)
              dattrs);
   Slept (VDec 1 (-1))].

(** *** One generation on any board, errors included

    What the reading functions return on a matrix of any shape, and what
    [process_life] does with it: the result, the cells it writes on the
    scratch board in order, and the calls it logs. *)

Definition get_result (B : list (list Z)) (x y : Z) : result Z :=
  if Z.of_nat (height B) =? 0 then Raise ZeroDivisionError
  else match B !! Z.to_nat (y mod Z.of_nat (height B)) with
       | None => Raise IndexError
       | Some row =>
           if Z.of_nat (width B) =? 0 then Raise ZeroDivisionError
           else match row !! Z.to_nat (x mod Z.of_nat (width B)) with
                | Some v => Ok v
                | None => Raise IndexError
                end
       end.

Fixpoint gets_result (B : list (list Z)) (b : loc) (ps : list (Z * Z))
    : result (list Z) * list call :=
  match ps with
  | [] => (Ok [], [])
  | p :: ps' =>
      match get_result B p.1 p.2 with
      | Raise e => (Raise e, [CallGet b p.1 p.2])
      | Ok v =>
          match gets_result B b ps' with
          | (Ok vs, cs) => (Ok (v :: vs), CallGet b p.1 p.2 :: cs)
          | (Raise e, cs) => (Raise e, CallGet b p.1 p.2 :: cs)
          end
      end
  end.

(** The arguments of the eight [get] calls of [count_neighbors]. *)
Definition neighbour_args (x y : Z) : list (Z * Z) :=
  [(x - 1, y); (x + 1, y); (x, y - 1); (x, y + 1);
   (x + 1, y + 1); (x + 1, y - 1); (x - 1, y + 1); (x - 1, y - 1)].

Definition count_result (B : list (list Z)) (b : loc) (x y : Z)
    : result Z * list call :=
  match gets_result B b (neighbour_args x y) with
  | (Ok vs, cs) => (Ok (py_sum vs), CallCount b x y :: cs)
  | (Raise e, cs) => (Raise e, CallCount b x y :: cs)
  end.

(** The value that the loop body assigns at [(x, y)], if it gets there. *)
Definition cell_result (B : list (list Z)) (b : loc) (x y : Z)
    : result Z * list call :=
  match count_result B b x y with
  | (Raise e, cs) => (Raise e, cs)
  | (Ok n, cs) =>
      match get_result B x y with
      | Raise e => (Raise e, cs ++ [CallGet b x y])
      | Ok c => (Ok (Life.next_state n (c =? 1)), cs ++ [CallGet b x y])
      end
  end.

(** A write on the scratch board: column, row, value. *)
Definition apply_writes (ws : list (nat * nat * Z)) (NB : list (list Z))
    : list (list Z) :=
  fold_left (λ NB w, set_cell NB w.1.1 w.1.2 w.2) ws NB.

Fixpoint row_result (B : list (list Z)) (b nb : loc) (y : nat) (xs : list nat)
    : result unit * list (nat * nat * Z) * list call :=
  match xs with
  | [] => (Ok tt, [], [])
  | x :: xs' =>
      match cell_result B b (Z.of_nat x) (Z.of_nat y) with
      | (Raise e, cs) => (Raise e, [], cs)
      | (Ok v, cs) =>
          match row_result B b nb y xs' with
          | (res, ws, cs') =>
              (res, ((x mod width B)%nat, y, v) :: ws,
               cs ++ CallAssign nb (Z.of_nat x) (Z.of_nat y) v :: cs')
          end
      end
  end.

Fixpoint board_result (B : list (list Z)) (b nb : loc) (ys : list nat)
    : result unit * list (nat * nat * Z) * list call :=
  match ys with
  | [] => (Ok tt, [], [])
  | y :: ys' =>
      match row_result B b nb y (seq 0 (length (default [] (B !! y)))) with
      | (Raise e, ws, cs) => (Raise e, ws, cs)
      | (Ok _, ws, cs) =>
          match board_result B b nb ys' with
          | (res, ws', cs') => (res, ws ++ ws', cs ++ cs')
          end
      end
  end.

(** The cell at column [j] of row [y] of a matrix. *)
Definition cell_at (NB : list (list Z)) (j y : nat) : option Z :=
  row ← NB !! y; row !! j.

(** The value last written at column [j] of row [y], if any. *)
Fixpoint last_write (ws : list (nat * nat * Z)) (j y : nat) : option Z :=
  match ws with
  | [] => None
  | w :: ws' =>
      match last_write ws' j y with
      | Some v => Some v
      | None => if decide (w.1.1 = j ∧ w.1.2 = y) then Some w.2 else None
      end
  end.

(** *** Definitions for the further properties

    Fresh boards: the entries that [new_board] chooses from, and the board
    that a stream of draws selects. *)

(** The list [[0] * num_dead_cells + [1] * num_live_cells] that [new_board]
    draws its cells from. *)
Definition pool (num_live_cells num_dead_cells : Z) : list Z :=
  py_repeat 0 num_dead_cells ++ py_repeat 1 num_live_cells.

(** The entry of [choices] that the draw [n] selects. *)
Definition drawn (choices : list Z) (n : nat) : Z :=
  default 0 (choices !! (n mod length choices)%nat).

(** The matrix that [new_board] fills from the draws [d], starting at draw
    number [u]: row after row, each row from left to right. *)
Definition random_board (choices : list Z) (d : nat → nat) (u wd ht : nat)
    : list (list Z) :=
  map (λ j : nat, map (λ i : nat, drawn choices (d (u + j * wd + i)%nat)) (seq 0 wd))
      (seq 0 ht).

(** The matrix that the rows [rows] denote after the row object at [l] has
    become [new_row]: every row of the board that is this object shows it. *)
Definition rows_after (rows : list loc) (B : list (list Z)) (l : loc)
    (new_row : list Z) : list (list Z) :=
  zip_with (λ li rowi, if decide (li = l) then new_row else rowi) rows B.

(** The boards on which [process_life] returns: at least one row, no row
    shorter than the first one and, when the first row is empty, no cell at
    all. *)
Definition steppable (B : list (list Z)) : Prop :=
  B ≠ [] ∧ Forall (λ row, (width B ≤ length row)%nat) B ∧
  (width B = 0%nat → Forall (λ row, row = []) B).

(** The board moved by [(dx, dy)] on the torus: its cell at (x, y) is the
    cell of [B] at (x + dx, y + dy). *)
Definition shift_board (dx dy : Z) (B : list (list Z)) : list (list Z) :=
  map (λ y : nat,
         map (λ x : nat, cell B (Z.of_nat x + dx) (Z.of_nat y + dy)) (seq 0 (width B)))
      (seq 0 (height B)).

(** The number of asterisks and of line ends among printed items, and the
    number of cells equal to 1 on a board. *)
Definition is_print_of (s : string) (e : effect) : bool :=
  match e with
  | Printed s' => bool_decide (s' = s)
  | _ => false
  end.

Definition count_printed (s : string) (out : list effect) : nat :=
  length (filter (λ e, is_print_of s e) out).

Definition live_cells (B : list (list Z)) : nat :=
  length (filter (λ c, c = 1) (concat B)).

(** The records of a board whose colour names are bound to [purple] and
    [other]: column after column. *)
Definition records_with (purple other : pyval) (position : Z → Z → pyval)
    (B : list (list Z)) : pyval :=
  to_records ["position"; "color"]
    (flat_map (λ x : nat,
       map (λ y : nat,
              [position (Z.of_nat x) (Z.of_nat y);
               if negb (cell B (Z.of_nat x) (Z.of_nat y) =? 0) then purple else other])
           (seq 0 (height B)))
       (seq 0 (width B))).

(** *** Records of a board of any shape, errors included *)

(** A function applied to the items of a list in order, up to the first
    error. *)
Fixpoint mapR {A C} (f : A → result C) (l : list A) : result (list C) :=
  match l with
  | [] => Ok []
  | a :: l' =>
      match f a with
      | Raise e => Raise e
      | Ok v =>
          match mapR f l' with
          | Ok vs => Ok (v :: vs)
          | Raise e => Raise e
          end
      end
  end.

(** The row that [convert_board_to_df] appends for the cell [board[y][x]]. *)
Definition record_result (g : gmap string pyval) (other : string)
    (position : Z → Z → pyval) (B : list (list Z)) (x y : nat)
    : result (list pyval) :=
  match B !! y with
  | None => Raise IndexError
  | Some row =>
      match row !! x with
      | None => Raise IndexError
      | Some c =>
          match (if negb (c =? 0) then g !! "PURPLE" else g !! other) with
          | Some color => Ok [position (Z.of_nat x) (Z.of_nat y); color]
          | None => Raise NameError
          end
      end
  end.

Definition convert_result (g : gmap string pyval) (other : string)
    (position : Z → Z → pyval) (B : list (list Z)) : result pyval :=
  match B with
  | [] => Raise IndexError
  | _ :: _ =>
      match mapR (λ x, mapR (record_result g other position B x) (seq 0 (height B)))
                 (seq 0 (width B)) with
      | Ok rss => Ok (to_records ["position"; "color"] (concat rss))
      | Raise e => Raise e
      end
  end.

(** The position that the second [convert_board_to_df] gives a record, and
    the records it builds for a board at an iteration. *)
Definition stacked_position (iteration : Z) (x y : Z) : pyval :=
  VList [VDec x (-3); VDec y (-3); VInt (iteration * 1000)].

Definition stacked_records (purple transparent : pyval) (iteration : Z)
    (B : list (list Z)) : list pyval :=
  map (λ row, VDict (zip ["position"; "color"] row))
    (flat_map (λ x : nat,
       map (λ y : nat,
              [stacked_position iteration (Z.of_nat x) (Z.of_nat y);
               if negb (cell B (Z.of_nat x) (Z.of_nat y) =? 0)
               then purple else transparent])
           (seq 0 (height B)))
       (seq 0 (width B))).

(** The attributes of the layer and of the deck that the first pydeck cell
    of the Game of Life constructs. *)
Definition cloud_layer_attrs (records : pyval) : gmap string pyval :=
  list_to_map [("type", VStr "PointCloudLayer"); ("data", records);
               ("get_position", VStr "position"); ("get_color", VStr "color");
               ("get_radius", VInt 40)].

Definition cloud_deck_attrs (layer view_state : loc) : gmap string pyval :=
  list_to_map [("layers", VList [VRef layer]); ("initial_view_state", VRef view_state);
               ("map_style", VStr EmptyString)].

(** What one round of the loop of the Introduction sends to the widget: the
    deck whose layer has the elevation range [[0, i]], then the pause. *)
Definition elevation_events (h0 : list pyobj) (l : loc)
    (lattrs dattrs : gmap string pyval) (i : Z) : list effect :=
  [Refreshed (Pydeck.deck_json
              (<[l := ObjInstance "Layer"
                        (<["elevation_range" := VList [VInt 0; VInt i]]> lattrs)]> h0)
              dattrs);
   Slept (VDec 1 (-1))].

(** The attributes of the objects that the cells of the Introduction
    construct. *)
Definition hexagon_layer_attrs : gmap string pyval :=
  list_to_map [("type", VStr "HexagonLayer"); ("data", Intro.UK_ACCIDENTS_DATA);
               ("elevation_scale", VInt 50);
               ("elevation_range", VList [VInt 0; VInt 3000]);
               ("extruded", VBool true); ("coverage", VInt 1)].

Definition uk_view_state_attrs : gmap string pyval :=
  list_to_map [("longitude", VDec (-1415) (-3)); ("latitude", VDec 522323 (-4));
               ("zoom", VDec 66 (-1)); ("min_zoom", VInt 5);
               ("max_zoom", VInt 15); ("pitch", VDec 405 (-1));
               ("bearing", VDec (-27396) (-3))].

Definition uk_lights_attrs : gmap string pyval :=
  list_to_map [("lights_position",
                VList [VDec (-144528) (-6); VDec 49739968 (-6); VInt 8000;
                       VDec (-3807751) (-6); VDec 54104682 (-6); VInt 10000]);
               ("ambient_ratio", VDec 7 (-1)); ("diffuse_ratio", VDec 6 (-1))].

(** ** Sample boards and worlds, on which the statements are run *)

Module Samples.
Import Conway.

(** A 3 by 3 torus with a vertical blinker, used to run the statements. *)
Definition blinker_heap : list pyobj :=
  [ObjRow [0; 1; 0]; ObjRow [0; 1; 0]; ObjRow [0; 1; 0]; ObjBoard [0; 1; 2]%nat].

Definition blinker : list (list Z) := [[0; 1; 0]; [0; 1; 0]; [0; 1; 0]].

Definition blinker_world : world :=
  World blinker_heap ∅ (Rng (λ n, (3 * n + 1)%nat) 0) [] [].

(** The blinker board together with a layer and a deck that shows it. *)
Definition demo_layer_attrs : gmap string pyval :=
  list_to_map [("type", VStr "PointCloudLayer"); ("data", VList []);
               ("get_position", VStr "position"); ("get_color", VStr "color");
               ("get_radius", VInt 40)].

Definition demo_deck_attrs : gmap string pyval :=
  list_to_map [("layers", VList [VRef 4%nat]); ("initial_view_state", VNone)].

Definition demo_world : world :=
  World (blinker_heap
           ++ [ObjInstance "Layer" demo_layer_attrs; ObjInstance "Deck" demo_deck_attrs])
        (list_to_map [("board", VRef 3%nat); ("layer", VRef 4%nat); ("r", VRef 5%nat);
                      ("PINK", PINK); ("PURPLE", PURPLE); ("BLACK", BLACK)])
        (Rng (λ n, n) 0) [] [].

(** A ragged board: the second row is shorter than the first. *)
Definition ragged : list (list Z) := [[1; 0]; [1]].

Definition ragged_world : world :=
  World [ObjRow [1; 0]; ObjRow [1]; ObjBoard [0; 1]%nat]
        (list_to_map [("PINK", Conway.PINK); ("PURPLE", Conway.PURPLE)])
        (Rng (λ n, n) 0) [] [].

(** The blinker moved one column to the left. *)
Definition shifted_blinker_world : world :=
  World [ObjRow [1; 0; 0]; ObjRow [1; 0; 0]; ObjRow [1; 0; 0]; ObjBoard [0; 1; 2]%nat]
        ∅ (Rng (λ n, n) 0) [] [].

(** The demo world with the name [TRANSPARENT] bound as well. *)
Definition stack_world : world :=
  set_globals (<["TRANSPARENT" := VList [VInt 0; VInt 0; VInt 0; VInt 0]]>
                 (w_globals demo_world)) demo_world.

End Samples.

(** * Lemmas

    ** The primitives *)

Section primitives.
Context (h : list pyobj) (g : gmap string pyval) (r : rng)
          (c : list call) (o : list effect).

Lemma bind_Ok {A B} (m : M A) (k : A → M B) w a w' :
  m w = (Ok a, w') → bind m k w = k a w'.
Proof. intros E. unfold bind. by rewrite E. Qed.

Lemma bind_Raise {A B} (m : M A) (k : A → M B) w e w' :
  m w = (Raise e, w') → bind m k w = (Raise e, w').
Proof. intros E. unfold bind. by rewrite E. Qed.

Lemma py_index_in (n : nat) (i : Z) :
  0 ≤ i < Z.of_nat n → py_index n i = Some (Z.to_nat i).
Proof.
  intros Hi. unfold py_index.
  destruct (Z.leb_spec 0 i); [|lia].
  destruct (Z.ltb_spec i (Z.of_nat n)); [done|lia].
Qed.

Lemma py_mod_ok (a b : Z) w : b ≠ 0 → py_mod a b w = (Ok (a mod b), w).
Proof. intros Hb. unfold py_mod. by destruct (Z.eqb_spec b 0). Qed.

Lemma py_len_board b rows :
  h !! b = Some (ObjBoard rows) →
  py_len b (World h g r c o) = (Ok (Z.of_nat (length rows)), World h g r c o).
Proof. intros E. unfold py_len. simpl. by rewrite E. Qed.

Lemma py_len_row l cells :
  h !! l = Some (ObjRow cells) →
  py_len l (World h g r c o) = (Ok (Z.of_nat (length cells)), World h g r c o).
Proof. intros E. unfold py_len. simpl. by rewrite E. Qed.

Lemma getitem_board_ok b rows i l :
  h !! b = Some (ObjBoard rows) → 0 ≤ i → rows !! Z.to_nat i = Some l →
  getitem_board b i (World h g r c o) = (Ok l, World h g r c o).
Proof.
  intros E Hi El. unfold getitem_board. simpl. rewrite E.
  apply lookup_lt_Some in El as Hlt.
  rewrite py_index_in by lia. by rewrite El.
Qed.

Lemma getitem_row_ok l cells i v :
  h !! l = Some (ObjRow cells) → 0 ≤ i → cells !! Z.to_nat i = Some v →
  getitem_row l i (World h g r c o) = (Ok v, World h g r c o).
Proof.
  intros E Hi El. unfold getitem_row. simpl. rewrite E.
  apply lookup_lt_Some in El as Hlt.
  rewrite py_index_in by lia. by rewrite El.
Qed.

Lemma setitem_row_ok l cells i v :
  h !! l = Some (ObjRow cells) → 0 ≤ i < Z.of_nat (length cells) →
  setitem_row l i v (World h g r c o)
  = (Ok tt, World (<[l := ObjRow (<[Z.to_nat i := v]> cells)]> h) g r c o).
Proof.
  intros E Hi. unfold setitem_row. simpl. rewrite E.
  by rewrite py_index_in by lia.
Qed.

End primitives.

(** Stepping through a computation, one bind at a time. *)
Ltac simpl_world :=
  unfold set_globals, set_out, set_heap, set_calls, set_rng;
  cbn [w_heap w_globals w_rng w_calls w_out].

Ltac step_prim :=
  erewrite bind_Ok
    by (unfold store, print, sleep, clear_output, emit; reflexivity);
  simpl_world.

Ltac step_with tac := erewrite bind_Ok by tac; simpl_world.

Lemma read_board_Some h b B :
  read_board h b = Some B ↔ ∃ rows, board_at h b rows B.
Proof.
  unfold read_board, board_at. split.
  - destruct (h !! b) as [[| rows |]|] eqn:E; try done.
    intros HM. exists rows. split; [done|].
    apply mapM_Some in HM. eapply Forall2_impl; [exact HM|].
    intros l row. unfold read_row. by destruct (h !! l) as [[]|]; intros [= ->].
  - intros (rows & -> & HF). apply mapM_Some.
    eapply Forall2_impl; [exact HF|].
    intros l row E. unfold read_row. by rewrite E.
Qed.

Lemma rectangular_row B k row :
  rectangular B → B !! k = Some row → length row = width B.
Proof.
  intros (_ & _ & HF) E. rewrite Forall_lookup in HF. by eapply HF.
Qed.

Lemma rectangular_head B :
  rectangular B → ∃ row0, B !! 0%nat = Some row0 ∧ length row0 = width B.
Proof.
  intros (HH & _ & _). destruct B as [|row0 B]; [simpl in HH; lia|].
  by exists row0.
Qed.

Lemma cell_opt_Some B x y :
  rectangular B → cell_opt B x y = Some (cell B x y).
Proof.
  intros HR. unfold cell. destruct HR as (HH & HW & HF).
  unfold cell_opt.
  assert (0 ≤ y mod Z.of_nat (height B) < Z.of_nat (height B)) as Hy
    by (apply Z.mod_pos_bound; lia).
  assert (0 ≤ x mod Z.of_nat (width B) < Z.of_nat (width B)) as Hx
    by (apply Z.mod_pos_bound; lia).
  destruct (lookup_lt_is_Some_2 B (Z.to_nat (y mod Z.of_nat (height B))))
    as [row Erow]; [unfold height in *; lia|].
  rewrite Erow. simpl.
  rewrite Forall_lookup in HF. specialize (HF _ _ Erow).
  destruct (lookup_lt_is_Some_2 row (Z.to_nat (x mod Z.of_nat (width B))))
    as [v Ev]; [lia|].
  by rewrite Ev.
Qed.

(** ** Reading a board *)

Module LifeFacts.
Import Life.

Section reading.
Context (h : list pyobj) (g : gmap string pyval) (r : rng) (o : list effect).

(** [get] reads [board[y % len(board)][x % len(board[0])]] and changes
    nothing but the call log. *)
Lemma get_run c b B x y :
  read_board h b = Some B → rectangular B →
  get b x y (World h g r c o)
  = (Ok (cell B x y), World h g r (c ++ [CallGet b x y]) o).
Proof.
  intros HB HR. apply read_board_Some in HB as (rows & Eb & HF).
  pose proof (cell_opt_Some B x y HR) as Ecell.
  unfold cell_opt in Ecell.
  pose proof HR as (HH & HW & _).
  pose proof (Forall2_length _ _ _ HF) as Hlen. unfold height in *.
  assert (0 ≤ y mod Z.of_nat (length B) < Z.of_nat (length B)) as Hy
    by (apply Z.mod_pos_bound; lia).
  assert (0 ≤ x mod Z.of_nat (width B) < Z.of_nat (width B)) as Hx
    by (apply Z.mod_pos_bound; lia).
  destruct (B !! Z.to_nat (y mod Z.of_nat (length B))) as [row|] eqn:Erow;
    [|done]. simpl in Ecell.
  destruct (Forall2_lookup_r _ _ _ _ _ HF Erow) as (l & El & Hl).
  destruct (rectangular_head B HR) as (row0 & Erow0 & Hlen0).
  destruct (Forall2_lookup_r _ _ _ _ _ HF Erow0) as (l0 & El0 & Hl0).
  unfold get.
  erewrite bind_Ok by reflexivity. simpl.
  erewrite bind_Ok by (by apply py_len_board).
  rewrite Hlen.
  erewrite bind_Ok by (apply py_mod_ok; lia).
  erewrite bind_Ok by (eapply getitem_board_ok; [done|lia|done]).
  erewrite bind_Ok by (eapply getitem_board_ok; [done|lia|done]).
  erewrite bind_Ok by (by apply py_len_row).
  rewrite Hlen0.
  erewrite bind_Ok by (apply py_mod_ok; lia).
  eapply getitem_row_ok; [done|lia|done].
Qed.

(** [count_neighbors] sums the eight wrapped neighbour cells. *)
Lemma count_neighbors_run c b B x y :
  read_board h b = Some B → rectangular B →
  count_neighbors b x y (World h g r c o)
  = (Ok (neighbour_sum B x y), World h g r (c ++ count_calls b x y) o).
Proof.
  intros HB HR. unfold count_neighbors.
  erewrite bind_Ok by reflexivity. simpl.
  do 8 (erewrite bind_Ok by (by eapply get_run)).
  unfold ret, neighbour_sum, neighbour_cells, count_calls. simpl.
  rewrite <- !(assoc_L (++)). simpl.
  repeat f_equal; lia.
Qed.

End reading.

End LifeFacts.

(** ** Lists: the loops of [process_life] as folds *)

Section folds.
Context {A : Type}.

Lemma alter_insert_lookup (f : A → A) (l : list A) i x :
  l !! i = Some x → alter f i l = <[i := f x]> l.
Proof.
  revert i. induction l as [|a l IH]; intros [|i] E; simplify_eq/=; [done|].
  f_equal. by apply IH.
Qed.

Lemma fold_insert_seq (f : nat → A) (n : nat) (row : list A) :
  (n ≤ length row)%nat →
  fold_left (λ r x, <[x := f x]> r) (seq 0 n) row = map f (seq 0 n) ++ drop n row.
Proof.
  induction n as [|n IH]; intros Hn; [by rewrite drop_0|].
  rewrite seq_S, fold_left_app, map_app. simpl.
  rewrite IH by lia.
  destruct (lookup_lt_is_Some_2 row n) as [a Ea]; [lia|].
  rewrite (drop_S _ _ _ Ea).
  rewrite insert_app_r_alt by (rewrite length_map, length_seq; lia).
  rewrite length_map, length_seq, Nat.sub_diag. simpl.
  by rewrite <- (assoc_L (++)).
Qed.

Lemma fold_alter_same (F : nat → A → A) (y : nat) (xs : list nat) (l : list A) :
  fold_left (λ l x, alter (F x) y l) xs l
  = alter (λ a, fold_left (λ a x, F x a) xs a) y l.
Proof.
  revert l. induction xs as [|x xs IH]; intros l; simpl.
  - by rewrite list_alter_id.
  - rewrite IH. by rewrite list_alter_alter_eq.
Qed.

End folds.

Lemma fold_set_cell_rows (f : nat → nat → Z) (ht wd n : nat) (NB : list (list Z)) :
  dims NB ht wd → (n ≤ ht)%nat →
  fold_left (λ NB y, fold_left (λ NB x, set_cell NB x y (f x y)) (seq 0 wd) NB)
            (seq 0 n) NB
  = map (λ y, map (λ x, f x y) (seq 0 wd)) (seq 0 n) ++ drop n NB.
Proof.
  intros [HL HF]. induction n as [|n IH]; intros Hn; [by rewrite drop_0|].
  rewrite seq_S, fold_left_app, map_app. simpl.
  rewrite IH by lia. unfold set_cell.
  rewrite (fold_alter_same (λ x, <[x := f x n]>)).
  destruct (lookup_lt_is_Some_2 NB n) as [row Erow]; [lia|].
  rewrite Forall_lookup in HF. specialize (HF _ _ Erow).
  rewrite alter_app_r_alt by (rewrite length_map, length_seq; lia).
  rewrite length_map, length_seq, Nat.sub_diag.
  rewrite (drop_S _ _ _ Erow). simpl.
  rewrite fold_insert_seq by lia.
  rewrite drop_ge by lia. rewrite (right_id_L [] (++)).
  by rewrite <- (assoc_L (++)).
Qed.

Lemma fold_set_cell_all (f : nat → nat → Z) (ht wd : nat) (NB : list (list Z)) :
  dims NB ht wd →
  fold_left (λ NB y, fold_left (λ NB x, set_cell NB x y (f x y)) (seq 0 wd) NB)
            (seq 0 ht) NB
  = map (λ y, map (λ x, f x y) (seq 0 wd)) (seq 0 ht).
Proof.
  intros HD. rewrite (fold_set_cell_rows f ht wd ht NB HD) by lia.
  destruct HD as [HL _]. rewrite drop_ge by lia. by rewrite (right_id_L [] (++)).
Qed.

Lemma set_cell_dims NB ht wd x y v :
  dims NB ht wd → dims (set_cell NB x y v) ht wd.
Proof.
  intros [HL HF]. unfold set_cell. split; [by rewrite length_alter|].
  apply Forall_lookup. intros i row E.
  rewrite Forall_lookup in HF.
  destruct (decide (y = i)) as [->|Hne].
  - rewrite list_lookup_alter_eq in E.
    destruct (NB !! i) as [row0|] eqn:E0; simplify_eq/=.
    rewrite length_insert. by eapply HF.
  - rewrite list_lookup_alter_ne in E by done. by eapply HF.
Qed.

Lemma dims_rectangular NB ht wd :
  dims NB ht wd → (0 < ht)%nat → (0 < wd)%nat →
  rectangular NB ∧ height NB = ht ∧ width NB = wd.
Proof.
  intros [HL HF] Hh Hw. unfold rectangular, height.
  destruct NB as [|row0 NB]; [simpl in HL; lia|].
  simpl. apply Forall_cons in HF as HF'. destruct HF' as [H0 _].
  rewrite H0. by repeat split; try lia.
Qed.

Lemma py_range_0 (n : nat) : py_range 0 (Z.of_nat n) = map Z.of_nat (seq 0 n).
Proof.
  unfold py_range. rewrite Z.sub_0_r, Nat2Z.id.
  apply map_ext. intros; lia.
Qed.

(** ** The scratch board on the heap *)

Section scratch.
Context (h : list pyobj).

Lemma read_board_ext ext b B :
  read_board h b = Some B → read_board (h ++ ext) b = Some B.
Proof.
  rewrite !read_board_Some. intros (rows & Eb & HF). exists rows. split.
  - by apply lookup_app_l_Some.
  - eapply Forall2_impl; [exact HF|]. intros l row E. by apply lookup_app_l_Some.
Qed.

Lemma next_heap_old ht NB l o :
  h !! l = Some o → next_heap h ht NB !! l = Some o.
Proof. intros E. unfold next_heap. by apply lookup_app_l_Some. Qed.

Lemma next_heap_board ht NB :
  next_heap h ht NB !! length h = Some (ObjBoard (seq (S (length h)) ht)).
Proof. unfold next_heap. by apply list_lookup_middle. Qed.

Lemma next_heap_row ht NB y row :
  NB !! y = Some row → next_heap h ht NB !! (S (length h) + y)%nat = Some (ObjRow row).
Proof.
  intros E. unfold next_heap.
  rewrite lookup_app_r by lia.
  replace (S (length h) + y - length h)%nat with (S y) by lia. simpl.
  by rewrite list_lookup_fmap, E.
Qed.

Lemma next_heap_board_at ht NB :
  length NB = ht →
  board_at (next_heap h ht NB) (length h) (seq (S (length h)) ht) NB.
Proof.
  intros HL. split; [apply next_heap_board|].
  apply Forall2_same_length_lookup. split; [by rewrite length_seq|].
  intros i l row El Erow. apply lookup_seq in El as [-> _].
  by apply next_heap_row.
Qed.

Lemma next_heap_set_cell ht NB x y v row :
  NB !! y = Some row →
  <[(S (length h) + y)%nat := ObjRow (<[x := v]> row)]> (next_heap h ht NB)
  = next_heap h ht (set_cell NB x y v).
Proof.
  intros E. unfold next_heap, set_cell.
  rewrite insert_app_r_alt by lia.
  replace (S (length h) + y - length h)%nat with (S y) by lia. simpl.
  rewrite (alter_insert_lookup _ _ _ _ E).
  by rewrite list_fmap_insert.
Qed.

Lemma next_heap_length ht NB :
  length (next_heap h ht NB) = (S (length h) + length NB)%nat.
Proof. unfold next_heap. rewrite length_app. simpl. rewrite length_fmap. lia. Qed.

Lemma next_heap_append ht NB cells :
  length NB = ht →
  <[length h := ObjBoard (seq (S (length h)) ht ++ [length (next_heap h ht NB)])]>
    (next_heap h ht NB ++ [ObjRow cells])
  = next_heap h (S ht) (NB ++ [cells]).
Proof.
  intros HL. rewrite next_heap_length. unfold next_heap.
  rewrite seq_S, fmap_app, HL.
  rewrite <- (assoc_L (++)).
  rewrite insert_app_r_alt by lia. by rewrite Nat.sub_diag.
Qed.

End scratch.

Module LifeRuns.
Import Life LifeFacts.

Section runs.
Context (g : gmap string pyval) (o : list effect).

(** [assign] overwrites one cell of one row object, in place. *)
Lemma assign_run h r c b rows B x y v :
  board_at h b rows B → rectangular B →
  ∃ l row,
    rows !! Z.to_nat (y mod Z.of_nat (height B)) = Some l ∧
    B !! Z.to_nat (y mod Z.of_nat (height B)) = Some row ∧
    assign b x y v (World h g r c o)
    = (Ok tt,
       World (<[l := ObjRow (<[Z.to_nat (x mod Z.of_nat (width B)) := v]> row)]> h)
             g r (c ++ [CallAssign b x y v]) o).
Proof.
  intros [Eb HF] HR.
  pose proof HR as (HH & HW & _).
  pose proof (Forall2_length _ _ _ HF) as Hlen. unfold height in *.
  assert (0 ≤ y mod Z.of_nat (length B) < Z.of_nat (length B)) as Hy
    by (apply Z.mod_pos_bound; lia).
  assert (0 ≤ x mod Z.of_nat (width B) < Z.of_nat (width B)) as Hx
    by (apply Z.mod_pos_bound; lia).
  destruct (lookup_lt_is_Some_2 B (Z.to_nat (y mod Z.of_nat (length B))))
    as [row Erow]; [lia|].
  destruct (Forall2_lookup_r _ _ _ _ _ HF Erow) as (l & El & Hl).
  destruct (rectangular_head B HR) as (row0 & Erow0 & Hlen0).
  destruct (Forall2_lookup_r _ _ _ _ _ HF Erow0) as (l0 & El0 & Hl0).
  pose proof (rectangular_row _ _ _ HR Erow) as Hlenrow.
  exists l, row. split; [done|]. split; [done|].
  unfold assign.
  erewrite bind_Ok by reflexivity. simpl.
  erewrite bind_Ok by (by apply py_len_board).
  rewrite Hlen.
  erewrite bind_Ok by (apply py_mod_ok; lia).
  erewrite bind_Ok by (eapply getitem_board_ok; [done|lia|done]).
  erewrite bind_Ok by (eapply getitem_board_ok; [done|lia|done]).
  erewrite bind_Ok by (by apply py_len_row).
  rewrite Hlen0.
  erewrite bind_Ok by (apply py_mod_ok; lia).
  apply setitem_row_ok; [done|lia].
Qed.

(** The five branches of [process_life] all assign [next_state]. *)
Lemma branches_next_state nb x y n (alive : bool) :
  (if (n <? 2) && alive then assign nb x y 0
   else if (2 <=? n) && (n <=? 3) && alive then assign nb x y 1
   else if (3 <? n) && alive then assign nb x y 0
   else if (n =? 3) && negb alive then assign nb x y 1
   else assign nb x y 0)
  = assign nb x y (next_state n alive).
Proof. unfold next_state. by repeat case_match. Qed.

(** [assign] on the scratch board, for a position inside the board. *)
Lemma assign_scratch h r c ht wd NB (x y : nat) v :
  dims NB ht wd → (x < wd)%nat → (y < ht)%nat →
  assign (length h) (Z.of_nat x) (Z.of_nat y) v (World (next_heap h ht NB) g r c o)
  = (Ok tt, World (next_heap h ht (set_cell NB x y v)) g r
                  (c ++ [CallAssign (length h) (Z.of_nat x) (Z.of_nat y) v]) o).
Proof.
  intros HD Hx Hy.
  destruct (dims_rectangular _ _ _ HD) as (HR & HH & HW); [lia..|].
  destruct HD as [HL HF].
  destruct (assign_run (next_heap h ht NB) r c (length h) _ NB
              (Z.of_nat x) (Z.of_nat y) v (next_heap_board_at h ht NB HL) HR)
    as (l & row & El & Erow & ->).
  rewrite HH, HW in *.
  rewrite Z.mod_small in * by lia. rewrite !Nat2Z.id in *.
  apply lookup_seq in El as [-> _].
  by rewrite (next_heap_set_cell _ _ _ _ _ _ _ Erow).
Qed.

Lemma random_choice_run h r c choices :
  choices ≠ [] →
  ∃ v, v ∈ choices ∧
    random_choice choices (World h g r c o)
    = (Ok v, World h g (Rng (draws r) (S (used r))) c o).
Proof.
  intros Hne. unfold random_choice. simpl.
  destruct (lookup_lt_is_Some_2 choices (draws r (used r) mod length choices)%nat)
    as [v Ev].
  { apply Nat.mod_upper_bound. by destruct choices. }
  exists v. rewrite Ev. split; [|done]. by eapply list_elem_of_lookup_2.
Qed.

Lemma random_cells_run h d c choices (xs : list Z) u :
  choices ≠ [] →
  ∃ cells, length cells = length xs ∧ Forall (λ v, v ∈ choices) cells ∧
    list_comp xs (λ _, random_choice choices) (World h g (Rng d u) c o)
    = (Ok cells, World h g (Rng d (u + length xs)%nat) c o).
Proof.
  intros Hne. revert u. induction xs as [|x xs IH]; intros u; simpl.
  - exists []. rewrite Nat.add_0_r. by repeat split.
  - destruct (random_choice_run h (Rng d u) c choices Hne) as (v & Hv & E).
    destruct (IH (S u)) as (cells & HL & HF & E').
    exists (v :: cells). split; [simpl; lia|]. split; [by constructor|].
    erewrite bind_Ok by exact E. simpl.
    erewrite bind_Ok by exact E'. unfold ret.
    by replace (u + S (length xs))%nat with (S u + length xs)%nat by lia.
Qed.

(** The loop of [new_board]: each round appends one fresh row of [wd]
    random cells to the board at [length h]. *)
Lemma new_board_rows h d c wd choices (ys : list Z) :
  choices ≠ [] →
  ∀ k NB u, dims NB k wd →
  ∃ R, dims R (length ys) wd ∧ Forall (Forall (λ v, v ∈ choices)) R ∧
    for_each ys (λ _,
      cells <- list_comp (py_range 0 (Z.of_nat wd)) (λ _, random_choice choices) ;;
      row <- alloc (ObjRow cells) ;;
      append_board (length h) row)
      (World (next_heap h k NB) g (Rng d u) c o)
    = (Ok tt, World (next_heap h (k + length ys) (NB ++ R)) g
                    (Rng d (u + length ys * wd)%nat) c o).
Proof.
  intros Hne. induction ys as [|y ys IH]; intros k NB u HD; simpl.
  - exists []. rewrite !Nat.add_0_r, (right_id_L [] (++)).
    by repeat split.
  - destruct (random_cells_run (next_heap h k NB) d c choices
                (py_range 0 (Z.of_nat wd)) u Hne) as (cells & HL & HF & E).
    rewrite py_range_0, length_map, length_seq in HL.
    rewrite py_range_0, length_map, length_seq in E.
    destruct HD as [HLN HFN].
    destruct (IH (S k) (NB ++ [cells]) (u + wd)%nat) as (R & [HLR HFR] & HB & E').
    { split; [rewrite length_app; simpl; lia|].
      apply Forall_app. split; [done|]. by repeat constructor. }
    exists (cells :: R). split; [split; [simpl; lia|by constructor]|].
    split; [by constructor|].
    erewrite bind_Ok.
    2:{ erewrite bind_Ok by (rewrite py_range_0; exact E).
        erewrite bind_Ok by reflexivity.
        unfold append_board. simpl.
        rewrite (lookup_app_l_Some _ _ _ _ (next_heap_board h k NB)).
        unfold set_heap. simpl.
        rewrite (next_heap_append h k NB cells HLN). reflexivity. }
    rewrite E'.
    replace (S k + length ys)%nat with (k + S (length ys))%nat by lia.
    replace (u + wd + length ys * wd)%nat with (u + (wd + length ys * wd))%nat by lia.
    by rewrite <- (assoc_L (++)).
Qed.

(** [new_board] allocates the board object at the next free location and
    its rows right after it. *)
Lemma new_board_run h r c (wd ht : nat) live dead :
  py_repeat 0 dead ++ py_repeat 1 live ≠ [] →
  ∃ R, dims R ht wd ∧
    Forall (Forall (λ v, v ∈ py_repeat 0 dead ++ py_repeat 1 live)) R ∧
    new_board (Z.of_nat wd) (Z.of_nat ht) live dead (World h g r c o)
    = (Ok (length h), World (next_heap h ht R) g
                            (Rng (draws r) (used r + ht * wd)%nat) c o).
Proof.
  intros Hne. unfold new_board.
  erewrite bind_Ok by reflexivity. simpl.
  destruct (new_board_rows h (draws r) c wd _ (py_range 0 (Z.of_nat ht)) Hne
              0%nat [] (used r)) as (R & HD & HB & E).
  { by split. }
  rewrite py_range_0, length_map, length_seq in HD.
  exists R. split; [done|]. split; [done|].
  destruct r as [d u]. simpl in *.
  erewrite bind_Ok by exact E.
  by rewrite py_range_0, length_map, length_seq.
Qed.

Section loops.
Context (h : list pyobj) (b : loc) (B : list (list Z)).
Context (HB : read_board h b = Some B) (HR : rectangular B).

  (** The inner loop of [process_life], over the cells [xs] of row [y]. *)
Lemma row_loop_run (r : rng) (y : nat) (xs : list nat) :
      (y < height B)%nat → Forall (λ x, x < width B)%nat xs →
      ∀ NB c, dims NB (height B) (width B) →
      for_each (map Z.of_nat xs) (λ x,
        num_neighbors <- count_neighbors b x (Z.of_nat y) ;;
        c <- get b x (Z.of_nat y) ;;
        let is_alive := c =? 1 in
        if (num_neighbors <? 2) && is_alive then assign (length h) x (Z.of_nat y) 0
        else if (2 <=? num_neighbors) && (num_neighbors <=? 3) && is_alive
             then assign (length h) x (Z.of_nat y) 1
        else if (3 <? num_neighbors) && is_alive then assign (length h) x (Z.of_nat y) 0
        else if (num_neighbors =? 3) && negb is_alive then assign (length h) x (Z.of_nat y) 1
        else assign (length h) x (Z.of_nat y) 0)
        (World (next_heap h (height B) NB) g r c o)
      = (Ok tt,
         World (next_heap h (height B)
                  (fold_left (λ NB x, set_cell NB x y
                                (next_cell B (Z.of_nat x) (Z.of_nat y))) xs NB))
               g r
               (c ++ flat_map (λ x : nat, cell_calls b (length h) B (Z.of_nat x) (Z.of_nat y)) xs)
               o).
    Proof.
      intros Hy. induction xs as [|x xs IH]; intros Hxs NB c HD; simpl.
      - by rewrite (right_id_L [] (++)).
      - apply Forall_cons in Hxs as [Hx Hxs].
        pose proof (read_board_ext h (ObjBoard (seq (S (length h)) (height B))
                                      :: (ObjRow <$> NB)) b B HB) as HB'.
        fold (next_heap h (height B) NB) in HB'.
        erewrite bind_Ok.
        2:{ erewrite bind_Ok by (by eapply count_neighbors_run).
            erewrite bind_Ok by (by eapply get_run).
            simpl. rewrite branches_next_state.
            by apply (assign_scratch h r _ (height B) (width B)). }
        rewrite IH by (done || by apply set_cell_dims).
        unfold cell_calls, next_cell. by rewrite <- !(assoc_L (++)).
    Qed.

  (** The outer loop of [process_life], over the rows [ys]. *)
Lemma board_loop_run (r : rng) (ys : list nat) :
      Forall (λ y, y < height B)%nat ys →
      ∀ NB c, dims NB (height B) (width B) →
      for_each (map Z.of_nat ys) (λ y,
        row <- getitem_board b y ;;
        m <- py_len row ;;
        for_each (py_range 0 m) (λ x,
          num_neighbors <- count_neighbors b x y ;;
          c <- get b x y ;;
          let is_alive := c =? 1 in
          if (num_neighbors <? 2) && is_alive then assign (length h) x y 0
          else if (2 <=? num_neighbors) && (num_neighbors <=? 3) && is_alive
               then assign (length h) x y 1
          else if (3 <? num_neighbors) && is_alive then assign (length h) x y 0
          else if (num_neighbors =? 3) && negb is_alive then assign (length h) x y 1
          else assign (length h) x y 0))
        (World (next_heap h (height B) NB) g r c o)
      = (Ok tt,
         World (next_heap h (height B)
                  (fold_left (λ NB y,
                     fold_left (λ NB x, set_cell NB x y
                                  (next_cell B (Z.of_nat x) (Z.of_nat y)))
                               (seq 0 (width B)) NB) ys NB))
               g r (c ++ flat_map (row_calls b (length h) B) ys) o).
    Proof.
      induction ys as [|y ys IH]; intros Hys NB c HD; simpl.
      - by rewrite (right_id_L [] (++)).
      - apply Forall_cons in Hys as [Hy Hys].
        pose proof HB as HB0. apply read_board_Some in HB0 as (rows & Eb & HF).
        destruct (lookup_lt_is_Some_2 B y) as [row Erow]; [done|].
        destruct (Forall2_lookup_r _ _ _ _ _ HF Erow) as (l & El & Hl).
        pose proof (rectangular_row _ _ _ HR Erow) as Hlen.
        erewrite bind_Ok.
        2:{ erewrite bind_Ok.
            2:{ eapply getitem_board_ok; [by apply next_heap_old|lia|].
                by rewrite Nat2Z.id. }
            erewrite bind_Ok by (apply py_len_row; by apply next_heap_old).
            rewrite Hlen, py_range_0.
            apply row_loop_run; [done| |done].
            apply Forall_forall. intros x Hx. apply list_elem_of_In, in_seq in Hx. lia. }
        rewrite IH; [|done|].
        + unfold row_calls at 2. by rewrite <- (assoc_L (++)).
        + clear -HD. induction (seq 0 (width B)) as [|x xs IHx] in NB, HD |- *;
            simpl; [done|]. apply IHx. by apply set_cell_dims.
    Qed.

  (** [process_life] in full: where the new board lives, what it holds,
      how many draws were consumed and which calls were made. *)
Lemma process_life_run (r : rng) c :
      process_life b (World h g r c o)
      = (Ok (length h),
         World (next_heap h (height B) (life_step B)) g
               (Rng (draws r) (used r + height B * width B)%nat)
               (c ++ life_calls b (length h) B) o).
    Proof.
      pose proof HB as HB0. apply read_board_Some in HB0 as (rows & Eb & HF).
      destruct (rectangular_head B HR) as (row0 & Erow0 & Hlen0).
      destruct (Forall2_lookup_r _ _ _ _ _ HF Erow0) as (l0 & El0 & Hl0).
      pose proof (Forall2_length _ _ _ HF) as Hlen.
      destruct (new_board_run h r c (width B) (height B) 2 3) as (R & HD & _ & E);
        [done|].
      unfold process_life.
      erewrite bind_Ok by (eapply getitem_board_ok; [done|lia|done]).
      erewrite bind_Ok by (by apply py_len_row).
      erewrite bind_Ok by (by apply py_len_board).
      rewrite Hlen0, Hlen. fold (height B).
      erewrite bind_Ok by exact E.
      erewrite bind_Ok by (apply py_len_board; by apply next_heap_old).
      rewrite Hlen. fold (height B). rewrite py_range_0.
      erewrite bind_Ok.
      2:{ apply board_loop_run; [|done].
          apply Forall_forall. intros y Hy. apply list_elem_of_In, in_seq in Hy. lia. }
      unfold ret, life_calls.
      by rewrite (fold_set_cell_all (λ x y, next_cell B (Z.of_nat x) (Z.of_nat y))
                    (height B) (width B) R HD).
    Qed.

End loops.
End runs.

End LifeRuns.

(** ** The next generation as a matrix *)

Lemma cell_shift B x y dx dy :
  cell B (x mod Z.of_nat (width B) + dx) (y mod Z.of_nat (height B) + dy)
  = cell B (x + dx) (y + dy).
Proof.
  unfold cell, cell_opt. by rewrite !Zplus_mod_idemp_l.
Qed.

Lemma cell_wrap B x y :
  cell B (x mod Z.of_nat (width B)) (y mod Z.of_nat (height B)) = cell B x y.
Proof.
  rewrite <- (Z.add_0_r (x mod _)), <- (Z.add_0_r (y mod _)), cell_shift.
  by rewrite !Z.add_0_r.
Qed.

Lemma neighbour_sum_wrap B x y :
  neighbour_sum B (x mod Z.of_nat (width B)) (y mod Z.of_nat (height B))
  = neighbour_sum B x y.
Proof.
  unfold neighbour_sum, neighbour_cells. f_equal.
  apply map_ext. intros d. apply cell_shift.
Qed.

Lemma next_cell_wrap B x y :
  next_cell B (x mod Z.of_nat (width B)) (y mod Z.of_nat (height B)) = next_cell B x y.
Proof. unfold next_cell. by rewrite neighbour_sum_wrap, cell_wrap. Qed.

Lemma life_step_dims B : dims (life_step B) (height B) (width B).
Proof.
  unfold life_step. split; [by rewrite length_map, length_seq|].
  apply Forall_forall. intros row Hrow.
  apply list_elem_of_In, in_map_iff in Hrow as (y & <- & _).
  unfold step_row. by rewrite length_map, length_seq.
Qed.

Lemma life_step_lookup B (x y : nat) :
  (x < width B)%nat → (y < height B)%nat →
  ∃ row, life_step B !! y = Some row ∧
         row !! x = Some (next_cell B (Z.of_nat x) (Z.of_nat y)).
Proof.
  intros Hx Hy. exists (step_row B y). unfold life_step, step_row.
  split.
  - change (map ?f ?l) with (f <$> l).
    by rewrite list_lookup_fmap, lookup_seq_lt.
  - change (map ?f ?l) with (f <$> l).
    by rewrite list_lookup_fmap, lookup_seq_lt.
Qed.

Lemma cell_life_step B x y :
  rectangular B → cell (life_step B) x y = next_cell B x y.
Proof.
  intros HR. pose proof HR as (HH & HW & _).
  destruct (dims_rectangular _ _ _ (life_step_dims B) HH HW) as (_ & EH & EW).
  unfold cell, cell_opt. rewrite EH, EW.
  assert (0 ≤ y mod Z.of_nat (height B) < Z.of_nat (height B)) as Hy
    by (apply Z.mod_pos_bound; lia).
  assert (0 ≤ x mod Z.of_nat (width B) < Z.of_nat (width B)) as Hx
    by (apply Z.mod_pos_bound; lia).
  destruct (life_step_lookup B (Z.to_nat (x mod Z.of_nat (width B)))
              (Z.to_nat (y mod Z.of_nat (height B)))) as (row & -> & E); [lia..|].
  simpl. rewrite E. simpl. rewrite !Z2Nat.id by lia. apply next_cell_wrap.
Qed.

Lemma next_state_binary n alive : Life.next_state n alive = 0 ∨ Life.next_state n alive = 1.
Proof. unfold Life.next_state. repeat case_match; auto. Qed.

Lemma life_step_binary B : binary (life_step B).
Proof.
  unfold binary, life_step, step_row.
  apply Forall_forall. intros row Hrow.
  apply list_elem_of_In, in_map_iff in Hrow as (y & <- & _).
  apply Forall_forall. intros v Hv.
  apply list_elem_of_In, in_map_iff in Hv as (x & <- & _).
  apply next_state_binary.
Qed.

Lemma cell_binary B x y : rectangular B → binary B → cell B x y = 0 ∨ cell B x y = 1.
Proof.
  intros HR HBin. pose proof (cell_opt_Some B x y HR) as E.
  unfold cell_opt in E.
  destruct (B !! Z.to_nat (y mod Z.of_nat (height B))) as [row|] eqn:Erow; [|done].
  simpl in E. unfold binary in HBin. rewrite Forall_lookup in HBin.
  specialize (HBin _ _ Erow). rewrite Forall_lookup in HBin. by eapply HBin.
Qed.

Lemma read_next_board h ht NB :
  length NB = ht → read_board (next_heap h ht NB) (length h) = Some NB.
Proof. intros HL. apply read_board_Some. eexists. by apply next_heap_board_at. Qed.

(** ** Counting the work of one generation *)

Lemma omap_flat_map {A B C} (f : B → option C) (k : A → list B) (l : list A) :
  omap f (flat_map k l) = flat_map (λ a, omap f (k a)) l.
Proof.
  induction l as [|a l IH]; simpl; [done|]. by rewrite omap_app, IH.
Qed.

Lemma flat_map_singleton {A B} (f : A → B) (l : list A) :
  flat_map (λ a, [f a]) l = map f l.
Proof. induction l as [|a l IH]; simpl; [done|]. by rewrite IH. Qed.

Lemma length_flat_map_const {A B} (k : A → list B) (l : list A) n :
  (∀ a, length (k a) = n) → length (flat_map k l) = (length l * n)%nat.
Proof.
  intros Hk. induction l as [|a l IH]; simpl; [done|].
  by rewrite length_app, Hk, IH.
Qed.

Lemma life_calls_assigned b nb B :
  assigned nb (life_calls b nb B) = cells_of (height B) (width B).
Proof.
  unfold assigned, life_calls, cells_of, row_calls.
  rewrite omap_flat_map. apply flat_map_ext. intros y.
  rewrite omap_flat_map. rewrite <- flat_map_singleton.
  apply flat_map_ext. intros x.
  unfold cell_calls, count_calls. simpl. by case_decide.
Qed.

Lemma life_calls_counted b nb B :
  counted b (life_calls b nb B) = cells_of (height B) (width B).
Proof.
  unfold counted, life_calls, cells_of, row_calls.
  rewrite omap_flat_map. apply flat_map_ext. intros y.
  rewrite omap_flat_map. rewrite <- flat_map_singleton.
  apply flat_map_ext. intros x.
  unfold cell_calls, count_calls. simpl. by case_decide.
Qed.

Lemma life_calls_length b nb B :
  length (life_calls b nb B) = (11 * (height B * width B))%nat.
Proof.
  unfold life_calls.
  rewrite (length_flat_map_const _ _ (width B * 11)%nat).
  - rewrite length_seq. lia.
  - intros y. unfold row_calls.
    rewrite (length_flat_map_const _ _ 11%nat); [by rewrite length_seq|done].
Qed.

Lemma life_calls_assign_value b nb B x y :
  (x, y) ∈ cells_of (height B) (width B) →
  CallAssign nb x y (next_cell B x y) ∈ life_calls b nb B.
Proof.
  unfold cells_of, life_calls, row_calls.
  rewrite !list_elem_of_In, !in_flat_map.
  intros (j & Hj & Hin). apply in_map_iff in Hin as (i & [= <- <-] & Hi).
  exists j. split; [done|]. apply in_flat_map. exists i. split; [done|].
  unfold cell_calls. apply in_or_app. right. right. by left.
Qed.

Lemma cells_of_length ht wd : length (cells_of ht wd) = (ht * wd)%nat.
Proof.
  unfold cells_of. rewrite (length_flat_map_const _ _ wd).
  - by rewrite length_seq.
  - intros y. by rewrite length_map, length_seq.
Qed.

Lemma elem_of_cells_of ht wd x y :
  (x, y) ∈ cells_of ht wd ↔ 0 ≤ x < Z.of_nat wd ∧ 0 ≤ y < Z.of_nat ht.
Proof.
  unfold cells_of. rewrite list_elem_of_In, in_flat_map. split.
  - intros (j & Hj & Hin). apply in_map_iff in Hin as (i & [= <- <-] & Hi).
    apply in_seq in Hj, Hi. lia.
  - intros [Hx Hy]. exists (Z.to_nat y). split; [apply in_seq; lia|].
    apply in_map_iff. exists (Z.to_nat x). split; [|apply in_seq; lia].
    f_equal; lia.
Qed.

Lemma cells_of_NoDup ht wd : NoDup (cells_of ht wd).
Proof.
  unfold cells_of. induction ht as [|ht IH]; [constructor|].
  rewrite seq_S, flat_map_app. simpl. rewrite (right_id_L [] (++)).
  apply NoDup_app. split; [done|]. split.
  - intros [x y] Hin Hin'. apply elem_of_cells_of in Hin as [_ Hy].
    apply list_elem_of_In, in_map_iff in Hin' as (i & [= <- <-] & _). lia.
  - change (map ?f ?l) with (f <$> l). apply NoDup_fmap_2_strong; [|apply NoDup_seq].
    intros i j _ _ [= E]. lia.
Qed.

Lemma remove_dups_NoDup {A} `{EqDecision A} (l : list A) :
  NoDup l → remove_dups l = l.
Proof.
  induction 1 as [|a l Ha _ IH]; simpl; [done|].
  rewrite IH. by destruct (decide_rel elem_of a l).
Qed.

Lemma filter_all {A} (P : A → Prop) `{∀ a, Decision (P a)} (l : list A) :
  Forall P l → filter P l = l.
Proof.
  induction 1 as [|a l Ha _ IH]; [done|].
  by rewrite filter_cons_True, IH.
Qed.

Lemma length_filter_fmap {A B} (f : A → B) (P : B → Prop) `{∀ b, Decision (P b)}
    (l : list A) :
  length (filter P (f <$> l)) = length (filter (λ a, P (f a)) l).
Proof.
  induction l as [|a l IH]; [done|]. rewrite fmap_cons, !filter_cons.
  destruct (decide (P (f a))); simpl; by rewrite IH.
Qed.

Lemma py_sum_binary (l : list Z) :
  Forall (λ c, c = 0 ∨ c = 1) l →
  py_sum l = Z.of_nat (length (filter (λ c, c = 1) l)).
Proof.
  unfold py_sum. intros HF.
  enough (∀ a, fold_left Z.add l a = a + Z.of_nat (length (filter (λ c, c = 1) l)))
    as E by (by rewrite E).
  induction HF as [|c l Hc _ IH]; intros a; simpl; [lia|].
  rewrite IH, filter_cons. destruct Hc as [-> | ->]; case_decide; simpl; lia.
Qed.

Lemma mod_offset_inj n x a b :
  3 ≤ n → -1 ≤ a ≤ 1 → -1 ≤ b ≤ 1 → (x + a) mod n = (x + b) mod n → a = b.
Proof.
  intros Hn Ha Hb E.
  pose proof (Z.div_mod (x + a) n ltac:(lia)) as Ea.
  pose proof (Z.div_mod (x + b) n ltac:(lia)) as Eb.
  rewrite E in Ea.
  remember ((x + a) / n - (x + b) / n) as k eqn:Ek.
  assert (a - b = n * k) as Hd by (subst k; lia).
  assert (k = 0) as -> by nia. lia.
Qed.

Lemma neighbour_offsets_range d :
  d ∈ neighbour_offsets → -1 ≤ d.1 ≤ 1 ∧ -1 ≤ d.2 ≤ 1 ∧ d ≠ (0, 0).
Proof.
  unfold neighbour_offsets. rewrite !elem_of_cons, elem_of_nil.
  intros Hd. repeat destruct Hd as [-> | Hd]; try done; simpl;
    (split; [lia|split; [lia|congruence]]).
Qed.

Lemma moore_positions_NoDup B x y :
  (3 ≤ width B)%nat → (3 ≤ height B)%nat → NoDup (moore_positions B x y).
Proof.
  intros HW HH. unfold moore_positions.
  apply NoDup_fmap_2_strong; [|by_decide].
  intros [a1 a2] [b1 b2] Ha Hb [= E1 E2].
  apply neighbour_offsets_range in Ha as (? & ? & _).
  apply neighbour_offsets_range in Hb as (? & ? & _). simpl in *.
  f_equal.
  - apply (mod_offset_inj (Z.of_nat (width B)) x a1 b1); [lia..|exact E1].
  - apply (mod_offset_inj (Z.of_nat (height B)) y a2 b2); [lia..|exact E2].
Qed.

Lemma moore_neighbours_all B x y :
  (3 ≤ width B)%nat → (3 ≤ height B)%nat →
  moore_neighbours B x y = moore_positions B x y.
Proof.
  intros HW HH. unfold moore_neighbours.
  rewrite remove_dups_NoDup by (by apply moore_positions_NoDup).
  apply (filter_all _). unfold moore_positions.
  apply Forall_fmap, Forall_forall. intros [d1 d2] Hd. simpl.
  apply neighbour_offsets_range in Hd as (? & ? & Hne). simpl in *.
  intros [= E1 E2]. apply Hne.
  rewrite <- (Z.add_0_r x) in E1 at 2. rewrite <- (Z.add_0_r y) in E2 at 2.
  f_equal.
  - apply (mod_offset_inj (Z.of_nat (width B)) x d1 0); [lia..|exact E1].
  - apply (mod_offset_inj (Z.of_nat (height B)) y d2 0); [lia..|exact E2].
Qed.

Lemma neighbour_cells_binary B x y :
  rectangular B → binary B → Forall (λ c, c = 0 ∨ c = 1) (neighbour_cells B x y).
Proof.
  intros HR HBin. unfold neighbour_cells.
  change (map ?f ?l) with (f <$> l). apply Forall_fmap, Forall_forall.
  intros d _. simpl. by apply cell_binary.
Qed.

Lemma neighbour_sum_bounds B x y :
  rectangular B → binary B → 0 ≤ neighbour_sum B x y ≤ 8.
Proof.
  intros HR HBin. unfold neighbour_sum.
  rewrite py_sum_binary by (by apply neighbour_cells_binary).
  pose proof (length_filter (λ c, c = 1) (neighbour_cells B x y)) as Hle.
  assert (length (neighbour_cells B x y) = 8%nat) as E8 by reflexivity.
  rewrite E8 in Hle. lia.
Qed.

Lemma neighbour_sum_moore B x y :
  rectangular B → binary B → (3 ≤ width B)%nat → (3 ≤ height B)%nat →
  neighbour_sum B x y = live_moore_neighbours B x y.
Proof.
  intros HR HBin HW HH. unfold neighbour_sum, live_moore_neighbours.
  rewrite py_sum_binary by (by apply neighbour_cells_binary).
  rewrite moore_neighbours_all by done.
  unfold neighbour_cells, moore_positions. change (map ?f ?l) with (f <$> l).
  rewrite !length_filter_fmap. do 2 f_equal.
  apply list_filter_iff. intros d. simpl.
  rewrite <- (Z.add_0_r ((x + d.1) mod _)), <- (Z.add_0_r ((y + d.2) mod _)).
  rewrite cell_shift. by rewrite !Z.add_0_r.
Qed.

(** ** One generation on a board of any shape *)

Lemma width_head B row0 : B !! 0%nat = Some row0 → width B = length row0.
Proof. destruct B; by intros [= ->]. Qed.

Lemma getitem_row_out h g r c o l cells i :
  h !! l = Some (ObjRow cells) → 0 ≤ i → cells !! Z.to_nat i = None →
  getitem_row l i (World h g r c o) = (Raise IndexError, World h g r c o).
Proof.
  intros E Hi En. unfold getitem_row. simpl. rewrite E.
  destruct (py_index (length cells) i) as [k|] eqn:Ek; [|done].
  unfold py_index in Ek.
  destruct ((0 <=? i) && (i <? Z.of_nat (length cells))) eqn:E1.
  - injection Ek as <-. by rewrite En.
  - destruct ((i <? 0) && (- Z.of_nat (length cells) <=? i)) eqn:E2; [|done].
    apply andb_true_iff in E2 as [E2 _]. apply Z.ltb_lt in E2. lia.
Qed.

Section any_board.
Context (h : list pyobj) (g : gmap string pyval) (o : list effect).
Context (b : loc) (B : list (list Z)).
Context (HB : read_board h b = Some B).

Lemma get_run_any r c x y :
  Life.get b x y (World h g r c o)
  = (get_result B x y, World h g r (c ++ [CallGet b x y]) o).
Proof.
  pose proof HB as HB0. apply read_board_Some in HB0 as (rows & Eb & HF).
  pose proof (Forall2_length _ _ _ HF) as Hlen.
  unfold Life.get, get_result, height.
  erewrite bind_Ok by reflexivity. simpl.
  erewrite bind_Ok by (by apply py_len_board). rewrite Hlen.
  destruct (Z.eqb_spec (Z.of_nat (length B)) 0) as [H0|H0].
  { erewrite bind_Raise; [done|]. unfold py_mod. by rewrite H0. }
  assert (0 ≤ y mod Z.of_nat (length B) < Z.of_nat (length B)) as Hy
    by (apply Z.mod_pos_bound; lia).
  destruct (lookup_lt_is_Some_2 B (Z.to_nat (y mod Z.of_nat (length B))))
    as [row Erow]; [lia|].
  destruct (Forall2_lookup_r _ _ _ _ _ HF Erow) as (l & El & Hl).
  destruct (lookup_lt_is_Some_2 B 0%nat) as [row0 Erow0]; [lia|].
  destruct (Forall2_lookup_r _ _ _ _ _ HF Erow0) as (l0 & El0 & Hl0).
  rewrite Erow, (width_head B row0 Erow0).
  erewrite bind_Ok by (apply py_mod_ok; lia).
  erewrite bind_Ok by (eapply getitem_board_ok; [done|lia|done]).
  erewrite bind_Ok by (eapply getitem_board_ok; [done|lia|done]).
  erewrite bind_Ok by (by apply py_len_row).
  destruct (Z.eqb_spec (Z.of_nat (length row0)) 0) as [W0|W0].
  { erewrite bind_Raise; [done|]. unfold py_mod. by rewrite W0. }
  assert (0 ≤ x mod Z.of_nat (length row0)) as Hx
    by (apply Z.mod_pos_bound; lia).
  erewrite bind_Ok by (apply py_mod_ok; lia).
  destruct (row !! Z.to_nat (x mod Z.of_nat (length row0))) as [v|] eqn:Ev.
  - by eapply getitem_row_ok.
  - by eapply getitem_row_out.
Qed.

Lemma bind_get {A} r c x y (k : Z → M A) :
  bind (Life.get b x y) k (World h g r c o)
  = match get_result B x y with
    | Ok v => k v (World h g r (c ++ [CallGet b x y]) o)
    | Raise e => (Raise e, World h g r (c ++ [CallGet b x y]) o)
    end.
Proof. unfold bind. rewrite get_run_any. by destruct (get_result B x y). Qed.

Lemma count_neighbors_run_any r c x y :
  Life.count_neighbors b x y (World h g r c o)
  = ((count_result B b x y).1, World h g r (c ++ (count_result B b x y).2) o).
Proof.
  unfold Life.count_neighbors, count_result, neighbour_args.
  erewrite bind_Ok by reflexivity. simpl_world.
  cbn [gets_result fst snd].
  repeat (rewrite bind_get;
          match goal with
          | |- context [get_result B ?a ?b] => destruct (get_result B a b)
          end;
          [|cbn [fst snd]; by rewrite <- ?(assoc_L (++))]).
  cbn [fst snd]. unfold ret. by rewrite <- ?(assoc_L (++)).
Qed.

Lemma get_result_Ok x y v :
  get_result B x y = Ok v → (0 < height B)%nat ∧ (0 < width B)%nat.
Proof.
  unfold get_result. intros E. repeat case_match; simplify_eq; lia.
Qed.
End any_board.

Lemma bind_run {A C} (m : M A) (k : A → M C) w res w' :
  m w = (res, w') →
  bind m k w = match res with Ok a => k a w' | Raise e => (Raise e, w') end.
Proof. intros E. unfold bind. by rewrite E. Qed.

Lemma assign_scratch_any h g o r c ht wd NB (x y : nat) v :
  dims NB ht wd → (0 < wd)%nat → (y < ht)%nat →
  Life.assign (length h) (Z.of_nat x) (Z.of_nat y) v
    (World (next_heap h ht NB) g r c o)
  = (Ok tt, World (next_heap h ht (set_cell NB (x mod wd) y v)) g r
                  (c ++ [CallAssign (length h) (Z.of_nat x) (Z.of_nat y) v]) o).
Proof.
  intros HD Hw Hy.
  destruct (dims_rectangular _ _ _ HD) as (HR & HH & HW); [lia..|].
  destruct HD as [HL HF].
  destruct (LifeRuns.assign_run g o (next_heap h ht NB) r c (length h) _ NB
              (Z.of_nat x) (Z.of_nat y) v (next_heap_board_at h ht NB HL) HR)
    as (l & row & El & Erow & ->).
  rewrite HH, HW in *.
  rewrite (Z.mod_small (Z.of_nat y)) in * by lia.
  rewrite <- Nat2Z.inj_mod in *. rewrite !Nat2Z.id in *.
  apply lookup_seq in El as [-> _].
  by rewrite (next_heap_set_cell _ _ _ _ _ _ _ Erow).
Qed.

Section any_loops.
Context (h : list pyobj) (g : gmap string pyval) (o : list effect).
Context (b : loc) (B : list (list Z)).
Context (HB : read_board h b = Some B).

Lemma cell_body_any r c NB (x y : nat) :
  dims NB (height B) (width B) → (y < height B)%nat →
  (num_neighbors <- Life.count_neighbors b (Z.of_nat x) (Z.of_nat y) ;;
   c <- Life.get b (Z.of_nat x) (Z.of_nat y) ;;
   let is_alive := c =? 1 in
   if (num_neighbors <? 2) && is_alive
   then Life.assign (length h) (Z.of_nat x) (Z.of_nat y) 0
   else if (2 <=? num_neighbors) && (num_neighbors <=? 3) && is_alive
        then Life.assign (length h) (Z.of_nat x) (Z.of_nat y) 1
   else if (3 <? num_neighbors) && is_alive
        then Life.assign (length h) (Z.of_nat x) (Z.of_nat y) 0
   else if (num_neighbors =? 3) && negb is_alive
        then Life.assign (length h) (Z.of_nat x) (Z.of_nat y) 1
   else Life.assign (length h) (Z.of_nat x) (Z.of_nat y) 0)
    (World (next_heap h (height B) NB) g r c o)
  = match cell_result B b (Z.of_nat x) (Z.of_nat y) with
    | (Ok v, cs) =>
        (Ok tt,
         World (next_heap h (height B) (set_cell NB (x mod width B) y v)) g r
               (c ++ cs ++ [CallAssign (length h) (Z.of_nat x) (Z.of_nat y) v]) o)
    | (Raise e, cs) => (Raise e, World (next_heap h (height B) NB) g r (c ++ cs) o)
    end.
Proof.
  intros HD Hy.
  pose proof (read_board_ext h (ObjBoard (seq (S (length h)) (height B))
                                :: (ObjRow <$> NB)) b B HB) as HB'.
  fold (next_heap h (height B) NB) in HB'.
  unfold cell_result.
  erewrite bind_run by (by apply count_neighbors_run_any).
  destruct (count_result B b (Z.of_nat x) (Z.of_nat y)) as [[n|e] cs];
    cbn [fst snd]; [|done].
  rewrite (bind_get _ _ _ _ _ HB').
  destruct (get_result B (Z.of_nat x) (Z.of_nat y)) as [v|e] eqn:Eget.
  - apply get_result_Ok in Eget as [_ HW].
    cbn zeta. rewrite LifeRuns.branches_next_state.
    rewrite (assign_scratch_any h g o r _ (height B) (width B)) by done.
    by rewrite <- !(assoc_L (++)).
  - by rewrite <- !(assoc_L (++)).
Qed.

Lemma row_loop_any r (y : nat) (xs : list nat) :
  (y < height B)%nat →
  ∀ NB c, dims NB (height B) (width B) →
  for_each (map Z.of_nat xs) (λ x,
    num_neighbors <- Life.count_neighbors b x (Z.of_nat y) ;;
    c <- Life.get b x (Z.of_nat y) ;;
    let is_alive := c =? 1 in
    if (num_neighbors <? 2) && is_alive then Life.assign (length h) x (Z.of_nat y) 0
    else if (2 <=? num_neighbors) && (num_neighbors <=? 3) && is_alive
         then Life.assign (length h) x (Z.of_nat y) 1
    else if (3 <? num_neighbors) && is_alive then Life.assign (length h) x (Z.of_nat y) 0
    else if (num_neighbors =? 3) && negb is_alive
         then Life.assign (length h) x (Z.of_nat y) 1
    else Life.assign (length h) x (Z.of_nat y) 0)
    (World (next_heap h (height B) NB) g r c o)
  = ((row_result B b (length h) y xs).1.1,
     World (next_heap h (height B)
              (apply_writes (row_result B b (length h) y xs).1.2 NB)) g r
           (c ++ (row_result B b (length h) y xs).2) o).
Proof.
  intros Hy. induction xs as [|x xs IH]; intros NB c HD.
  - simpl. by rewrite (right_id_L [] (++)).
  - cbn [map for_each row_result].
    pose proof (cell_body_any r c NB x y HD Hy) as Ebody.
    destruct (cell_result B b (Z.of_nat x) (Z.of_nat y)) as [[v|e] cs];
      cbn [fst snd]; [|by erewrite bind_Raise by exact Ebody].
    erewrite bind_Ok by exact Ebody.
    rewrite IH by (by apply set_cell_dims).
    destruct (row_result B b (length h) y xs) as [[res ws] cs'].
    cbn [fst snd apply_writes fold_left].
    by rewrite <- !(assoc_L (++)).
Qed.

Lemma board_loop_any r (ys : list nat) :
  Forall (λ y, y < height B)%nat ys →
  ∀ NB c, dims NB (height B) (width B) →
  for_each (map Z.of_nat ys) (λ y,
    row <- getitem_board b y ;;
    m <- py_len row ;;
    for_each (py_range 0 m) (λ x,
      num_neighbors <- Life.count_neighbors b x y ;;
      c <- Life.get b x y ;;
      let is_alive := c =? 1 in
      if (num_neighbors <? 2) && is_alive then Life.assign (length h) x y 0
      else if (2 <=? num_neighbors) && (num_neighbors <=? 3) && is_alive
           then Life.assign (length h) x y 1
      else if (3 <? num_neighbors) && is_alive then Life.assign (length h) x y 0
      else if (num_neighbors =? 3) && negb is_alive then Life.assign (length h) x y 1
      else Life.assign (length h) x y 0))
    (World (next_heap h (height B) NB) g r c o)
  = ((board_result B b (length h) ys).1.1,
     World (next_heap h (height B)
              (apply_writes (board_result B b (length h) ys).1.2 NB)) g r
           (c ++ (board_result B b (length h) ys).2) o).
Proof.
  induction ys as [|y ys IH]; intros Hys NB c HD.
  - simpl. by rewrite (right_id_L [] (++)).
  - apply Forall_cons in Hys as [Hy Hys].
    pose proof HB as HB0. apply read_board_Some in HB0 as (rows & Eb & HF).
    destruct (lookup_lt_is_Some_2 B y) as [row Erow]; [done|].
    destruct (Forall2_lookup_r _ _ _ _ _ HF Erow) as (l & El & Hl).
    cbn [map for_each board_result]. rewrite Erow. cbn [default from_option id].
    erewrite bind_run.
    2:{ erewrite bind_Ok.
        2:{ eapply getitem_board_ok; [by apply next_heap_old|lia|].
            by rewrite Nat2Z.id. }
        erewrite bind_Ok by (apply py_len_row; by apply next_heap_old).
        rewrite py_range_0. by apply row_loop_any. }
    destruct (row_result B b (length h) y (seq 0 (length row))) as [[[[]|e] ws] cs];
      cbn [fst snd]; [|done].
    rewrite IH; [|done|].
    + destruct (board_result B b (length h) ys) as [[res ws'] cs'].
      cbn [fst snd]. unfold apply_writes. rewrite fold_left_app.
      by rewrite <- !(assoc_L (++)).
    + clear -HD. unfold apply_writes.
      induction ws as [|w ws IHw] in NB, HD |- *; simpl; [done|].
      apply IHw. by apply set_cell_dims.
Qed.

(** [process_life] on a board of any shape: the result does not depend on
    the state of the random generator, which only shows in the scratch
    board [R] that the writes are applied to. *)
Lemma process_life_any r c :
  ∃ R, dims R (height B) (width B) ∧
    Life.process_life b (World h g r c o)
    = match B with
      | [] => (Raise IndexError, World h g r c o)
      | _ :: _ =>
          (match (board_result B b (length h) (seq 0 (height B))).1.1 with
           | Ok _ => Ok (length h)
           | Raise e => Raise e
           end,
           World (next_heap h (height B)
                    (apply_writes (board_result B b (length h) (seq 0 (height B))).1.2 R))
                 g (Rng (draws r) (used r + height B * width B)%nat)
                 (c ++ (board_result B b (length h) (seq 0 (height B))).2) o)
      end.
Proof.
  pose proof HB as HB0. apply read_board_Some in HB0 as (rows & Eb & HF).
  pose proof (Forall2_length _ _ _ HF) as Hlen.
  destruct (LifeRuns.new_board_run g o h r c (width B) (height B) 2 3)
    as (R & HD & _ & E); [done|].
  exists R. split; [done|].
  unfold Life.process_life.
  destruct (decide (length B = 0)%nat) as [H0|H0].
  { destruct B; [|done]. apply Forall2_nil_inv_r in HF as ->.
    erewrite bind_Raise; [done|].
    unfold getitem_board. simpl. by rewrite Eb. }
  destruct (lookup_lt_is_Some_2 B 0%nat) as [row0' Erow0]; [lia|].
  destruct (Forall2_lookup_r _ _ _ _ _ HF Erow0) as (l0 & El0 & Hl0).
  erewrite bind_Ok by (eapply getitem_board_ok; [done|lia|done]).
  erewrite bind_Ok by (by apply py_len_row).
  erewrite bind_Ok by (by apply py_len_board).
  rewrite <- (width_head B row0' Erow0), Hlen. fold (height B).
  erewrite bind_Ok by exact E.
  erewrite bind_Ok by (apply py_len_board; by apply next_heap_old).
  rewrite Hlen. fold (height B). rewrite py_range_0.
  erewrite bind_run.
  2:{ apply board_loop_any; [|done].
      apply Forall_forall. intros y Hy. apply list_elem_of_In, in_seq in Hy. lia. }
  destruct B as [|? ?]; [done|].
  by destruct (board_result _ b (length h) _) as [[[[]|e] ws] cs].
Qed.
End any_loops.

(** ** Writes that cover the scratch board *)

Lemma set_cell_cell_at NB ht wd x y v j y' :
  dims NB ht wd → (x < wd)%nat → (y < ht)%nat →
  cell_at (set_cell NB x y v) j y'
  = if decide (x = j ∧ y = y') then Some v else cell_at NB j y'.
Proof.
  intros [HL HF] Hx Hy. unfold cell_at, set_cell.
  destruct (lookup_lt_is_Some_2 NB y) as [row Erow]; [lia|].
  rewrite Forall_lookup in HF. specialize (HF _ _ Erow).
  destruct (decide (y = y')) as [<-|Hne].
  - rewrite list_lookup_alter_eq, Erow. simpl.
    destruct (decide (x = j)) as [<-|Hnx].
    + rewrite decide_True by done. apply list_lookup_insert_eq. lia.
    + rewrite decide_False by (intros [? _]; done).
      by apply list_lookup_insert_ne.
  - rewrite list_lookup_alter_ne by done.
    by rewrite decide_False by (intros [_ ?]; done).
Qed.

Lemma apply_writes_dims ws NB ht wd :
  dims NB ht wd → dims (apply_writes ws NB) ht wd.
Proof.
  unfold apply_writes. revert NB. induction ws as [|w ws IH]; intros NB HD;
    simpl; [done|]. apply IH. by apply set_cell_dims.
Qed.

Lemma apply_writes_cell_at ws ht wd :
  Forall (λ w : nat * nat * Z, w.1.1 < wd ∧ w.1.2 < ht)%nat ws →
  ∀ NB j y, dims NB ht wd →
  cell_at (apply_writes ws NB) j y
  = match last_write ws j y with
    | Some v => Some v
    | None => cell_at NB j y
    end.
Proof.
  induction 1 as [|[[x y0] v] ws [Hx Hy] _ IH]; intros NB j y HD; [done|].
  change (apply_writes (((x, y0), v) :: ws) NB)
    with (apply_writes ws (set_cell NB x y0 v)).
  rewrite IH by (by apply set_cell_dims). cbn [last_write fst snd].
  destruct (last_write ws j y); [done|].
  rewrite (set_cell_cell_at NB ht wd) by done.
  by destruct (decide (x = j ∧ y0 = y)).
Qed.

Lemma matrix_eq NB1 NB2 ht wd :
  dims NB1 ht wd → dims NB2 ht wd →
  (∀ j y, (j < wd)%nat → (y < ht)%nat → cell_at NB1 j y = cell_at NB2 j y) →
  NB1 = NB2.
Proof.
  intros [HL1 HF1] [HL2 HF2] Hcells. apply list_eq. intros y.
  destruct (decide (y < ht)%nat) as [Hy|Hy].
  - destruct (lookup_lt_is_Some_2 NB1 y) as [row1 E1]; [lia|].
    destruct (lookup_lt_is_Some_2 NB2 y) as [row2 E2]; [lia|].
    rewrite E1, E2. f_equal.
    rewrite Forall_lookup in HF1. rewrite Forall_lookup in HF2.
    specialize (HF1 _ _ E1). specialize (HF2 _ _ E2).
    apply list_eq. intros j.
    destruct (decide (j < wd)%nat) as [Hj|Hj].
    + specialize (Hcells j y Hj Hy). unfold cell_at in Hcells.
      by rewrite E1, E2 in Hcells.
    + by rewrite !lookup_ge_None_2 by lia.
  - by rewrite !lookup_ge_None_2 by lia.
Qed.

Lemma last_write_elem ws j y v :
  (j, y, v) ∈ ws → is_Some (last_write ws j y).
Proof.
  induction ws as [|w ws IH]; [by intros ?%elem_of_nil|].
  intros [Hw|Hin]%elem_of_cons; cbn [last_write fst snd].
  - subst w. cbn [fst snd]. destruct (last_write ws j y); [by eexists|].
    rewrite decide_True by done. by eexists.
  - destruct (IH Hin) as [v' ->]. by eexists.
Qed.

Lemma apply_writes_covered ws NB1 NB2 ht wd :
  dims NB1 ht wd → dims NB2 ht wd →
  Forall (λ w : nat * nat * Z, w.1.1 < wd ∧ w.1.2 < ht)%nat ws →
  (∀ j y, (j < wd)%nat → (y < ht)%nat → ∃ v, (j, y, v) ∈ ws) →
  apply_writes ws NB1 = apply_writes ws NB2.
Proof.
  intros HD1 HD2 Hrange Hcover.
  apply (matrix_eq _ _ ht wd); [by apply apply_writes_dims..|].
  intros j y Hj Hy. rewrite !(apply_writes_cell_at ws ht wd) by done.
  destruct (Hcover j y Hj Hy) as [v Hv].
  by destruct (last_write_elem ws j y v Hv) as [v' ->].
Qed.

Lemma gets_result_Ok B b ps vs :
  (gets_result B b ps).1 = Ok vs →
  ∀ p, p ∈ ps → ∃ v, get_result B p.1 p.2 = Ok v.
Proof.
  revert vs. induction ps as [|q ps IH]; intros vs E p Hp;
    [by apply elem_of_nil in Hp|].
  cbn [gets_result] in E.
  destruct (get_result B q.1 q.2) as [v|e] eqn:Eq; [|done].
  destruct (gets_result B b ps) as [[vs'|e] cs]; [|done].
  apply elem_of_cons in Hp as [->|Hp]; [by exists v|].
  by eapply IH.
Qed.

Lemma cell_result_Ok B b x y v cs :
  cell_result B b x y = (Ok v, cs) →
  (0 < height B)%nat ∧ (0 < width B)%nat ∧ ∃ u, get_result B x (y + 1) = Ok u.
Proof.
  unfold cell_result, count_result. intros E.
  destruct (gets_result B b (neighbour_args x y)) as [[vs|e] cs'] eqn:Eg; [|done].
  destruct (gets_result_Ok B b _ vs (f_equal fst Eg) (x, y + 1)) as [u Eu].
  { unfold neighbour_args. set_solver. }
  destruct (get_result_Ok B _ _ _ Eu) as [HH HW]. eauto.
Qed.

Section coverage.
Context (B : list (list Z)) (b nb : loc).

Lemma row_result_Ok y xs :
  (row_result B b nb y xs).1.1 = Ok tt →
  Forall (λ w : nat * nat * Z, w.1.1 < width B ∧ w.1.2 = y)%nat
         (row_result B b nb y xs).1.2 ∧
  ∀ x, x ∈ xs →
    ∃ v cs, cell_result B b (Z.of_nat x) (Z.of_nat y) = (Ok v, cs) ∧
            ((x mod width B)%nat, y, v) ∈ (row_result B b nb y xs).1.2.
Proof.
  induction xs as [|x xs IH]; intros E.
  - split; [constructor|]. by intros x ?%elem_of_nil.
  - cbn [row_result] in *.
    destruct (cell_result B b (Z.of_nat x) (Z.of_nat y)) as [[v|e] cs] eqn:Ec;
      [|done].
    destruct (row_result B b nb y xs) as [[res ws] cs'].
    cbn [fst snd] in *. destruct (IH E) as [Hrange Hin].
    apply cell_result_Ok in Ec as Hdims. destruct Hdims as (_ & HW & _).
    split.
    + constructor; [|done]. cbn [fst snd]. split; [|done].
      apply Nat.mod_upper_bound. lia.
    + intros x' [->|Hx']%elem_of_cons.
      * exists v, cs. split; [done|]. by left.
      * destruct (Hin x' Hx') as (v' & cs'' & E' & Hw).
        exists v', cs''. split; [done|]. by right.
Qed.

Lemma board_result_Ok ys :
  (board_result B b nb ys).1.1 = Ok tt →
  Forall (λ y, y < height B)%nat ys →
  Forall (λ w : nat * nat * Z, w.1.1 < width B ∧ w.1.2 < height B)%nat
         (board_result B b nb ys).1.2 ∧
  ∀ y x, y ∈ ys → (x < length (default [] (B !! y)))%nat →
    ∃ v cs, cell_result B b (Z.of_nat x) (Z.of_nat y) = (Ok v, cs) ∧
            ((x mod width B)%nat, y, v) ∈ (board_result B b nb ys).1.2.
Proof.
  induction ys as [|y ys IH]; intros E Hys.
  - split; [constructor|]. by intros y x ?%elem_of_nil.
  - apply Forall_cons in Hys as [Hy Hys]. cbn [board_result] in *.
    pose proof (row_result_Ok y (seq 0 (length (default [] (B !! y))))) as Hrow.
    destruct (row_result B b nb y (seq 0 (length (default [] (B !! y)))))
      as [[[[]|e] ws] cs]; [|done].
    destruct (board_result B b nb ys) as [[res ws'] cs'].
    cbn [fst snd] in *. destruct (IH E Hys) as [Hrange Hin].
    destruct (Hrow eq_refl) as [Hrange_row Hin_row].
    split.
    + apply Forall_app. split; [|done].
      eapply Forall_impl; [exact Hrange_row|]. intros w [? ->]. done.
    + intros y' x [->|Hy']%elem_of_cons Hx.
      * destruct (Hin_row x) as (v & cs'' & E' & Hw).
        { apply list_elem_of_In, in_seq. lia. }
        exists v, cs''. split; [done|]. apply elem_of_app. by left.
      * destruct (Hin y' x Hy' Hx) as (v & cs'' & E' & Hw).
        exists v, cs''. split; [done|]. apply elem_of_app. by right.
Qed.

(** If the loops run to the end, no row is shorter than the first one, and
    every position of the scratch board is written. *)
Lemma board_result_covers :
  (board_result B b nb (seq 0 (height B))).1.1 = Ok tt →
  Forall (λ w : nat * nat * Z, w.1.1 < width B ∧ w.1.2 < height B)%nat
         (board_result B b nb (seq 0 (height B))).1.2 ∧
  ∀ j y, (j < width B)%nat → (y < height B)%nat →
    ∃ v, (j, y, v) ∈ (board_result B b nb (seq 0 (height B))).1.2.
Proof.
  intros E.
  destruct (board_result_Ok (seq 0 (height B)) E) as [Hrange Hin].
  { apply Forall_forall. intros y Hy. apply list_elem_of_In, in_seq in Hy. lia. }
  split; [done|].
  assert (∀ y, (y < height B)%nat →
               (width B ≤ length (default [] (B !! y)))%nat) as Hlong.
  { induction y as [|y IHy]; intros Hy.
    - destruct B as [|row0 B']; [simpl in Hy; lia|]. by simpl.
    - specialize (IHy ltac:(lia)).
      destruct (decide (width B = 0)%nat) as [->|HW]; [lia|].
      destruct (Hin y (width B - 1)%nat) as (v & cs & Ec & _).
      { apply list_elem_of_In, in_seq. lia. }
      { lia. }
      apply cell_result_Ok in Ec as (_ & _ & u & Eu).
      unfold get_result in Eu. fold (height B) in Eu.
      repeat case_match; simplify_eq.
      match goal with
      | H1 : B !! _ = Some ?row, H2 : ?row !! _ = Some _ |- _ =>
          apply lookup_lt_Some in H2;
          rewrite Z.mod_small in H1 by (unfold height in *; lia);
          rewrite Z.mod_small in H2 by lia;
          replace (Z.to_nat (Z.of_nat y + 1)) with (S y) in H1 by lia;
          rewrite H1; cbn [default from_option id]; lia
      end. }
  intros j y Hj Hy.
  destruct (Hin y j) as (v & cs & _ & Hw).
  { apply list_elem_of_In, in_seq. lia. }
  { specialize (Hlong y Hy). lia. }
  rewrite Nat.mod_small in Hw by done. by exists v.
Qed.
End coverage.

(** * The claims about the Game of Life *)

Module LifeClaims.
Import Life LifeFacts LifeRuns Samples.

(** C1. On a non-empty rectangular board of 0/1 cells, the cell at (x, y) of
    [process_life(board)] follows the four rules with respect to
    n = [count_neighbors(board, x, y)]: a live cell with n < 2 dies, a live
    cell with n = 2 or n = 3 lives on, a live cell with n > 3 dies, a dead
    cell with n = 3 becomes alive, and in every other case the cell is 0. *)
Theorem process_life_rules (w : world) (b : loc) (B : list (list Z)) (x y : Z) :
  read_board (w_heap w) b = Some B → rectangular B → binary B →
  ∃ nb w' n c v,
    process_life b w = (Ok nb, w') ∧
    (count_neighbors b x y w).1 = Ok n ∧
    (get b x y w).1 = Ok c ∧
    (get nb x y w').1 = Ok v ∧
    (c = 0 ∨ c = 1) ∧
    (c = 1 → n < 2 → v = 0) ∧
    (c = 1 → n = 2 ∨ n = 3 → v = 1) ∧
    (c = 1 → n > 3 → v = 0) ∧
    (c = 0 → n = 3 → v = 1) ∧
    (c = 0 → n ≠ 3 → v = 0).
Proof.
  destruct w as [h g r c o]. simpl. intros HB HR HBin.
  pose proof HR as (HH & HW & _).
  destruct (life_step_dims B) as [HL HF].
  destruct (dims_rectangular _ _ _ (life_step_dims B) HH HW) as (HR' & _ & _).
  eexists _, _, (neighbour_sum B x y), (cell B x y), (next_cell B x y).
  split; [by apply process_life_run|].
  rewrite (count_neighbors_run h g r o c b B x y HB HR).
  rewrite (get_run h g r o c b B x y HB HR).
  rewrite (get_run _ _ _ _ _ _ _ x y (read_next_board h _ _ HL) HR').
  rewrite (cell_life_step B x y HR). simpl.
  do 3 (split; [done|]). split; [by apply cell_binary|].
  unfold next_cell, next_state.
  repeat split; intros -> Hn; simpl;
    repeat match goal with
           | |- context [?a <? ?b] => destruct (Z.ltb_spec a b)
           | |- context [?a <=? ?b] => destruct (Z.leb_spec a b)
           | |- context [?a =? ?b] => destruct (Z.eqb_spec a b)
           end; simpl; lia.
Qed.

Lemma process_life_rules_witness :
  ∃ nb w' n c v,
    process_life 3%nat blinker_world = (Ok nb, w') ∧
    (count_neighbors 3%nat 0 1 blinker_world).1 = Ok n ∧
    (get 3%nat 0 1 blinker_world).1 = Ok c ∧
    (get nb 0 1 w').1 = Ok v ∧
    (c = 0 ∨ c = 1) ∧
    (c = 1 → n < 2 → v = 0) ∧
    (c = 1 → n = 2 ∨ n = 3 → v = 1) ∧
    (c = 1 → n > 3 → v = 0) ∧
    (c = 0 → n = 3 → v = 1) ∧
    (c = 0 → n ≠ 3 → v = 0).
Proof.
  apply (process_life_rules blinker_world 3%nat blinker 0 1).
  - reflexivity.
  - by_decide.
  - by_decide.
Defined.

(** C4. On a non-empty rectangular 0/1 board of height h and width w,
    [process_life] returns a board of the same height and width whose cells
    are all 0 or 1; that board is a new object, and every object that was on
    the heap before the call, the input board and its rows among them, is
    unchanged. *)
Theorem process_life_shape (w : world) (b : loc) (B : list (list Z)) :
  read_board (w_heap w) b = Some B → rectangular B → binary B →
  ∃ nb w' NB,
    process_life b w = (Ok nb, w') ∧
    read_board (w_heap w') nb = Some NB ∧
    height NB = height B ∧ width NB = width B ∧
    rectangular NB ∧ binary NB ∧
    nb ≠ b ∧ w_heap w !! nb = None ∧
    w_heap w `prefix_of` w_heap w' ∧
    read_board (w_heap w') b = Some B.
Proof.
  destruct w as [h g r c o]. simpl. intros HB HR _.
  pose proof HR as (HH & HW & _).
  destruct (life_step_dims B) as [HL HF].
  destruct (dims_rectangular _ _ _ (life_step_dims B) HH HW) as (HR' & EH & EW).
  eexists _, _, (life_step B).
  split; [by apply process_life_run|]. simpl.
  split; [by apply read_next_board|].
  do 3 (split; [done|]). split; [apply life_step_binary|].
  apply read_board_Some in HB as HB'. destruct HB' as (rows & Eb & _).
  apply lookup_lt_Some in Eb.
  split; [lia|]. split; [by apply lookup_ge_None_2|].
  split; [by eexists|]. by apply read_board_ext.
Qed.

Lemma process_life_shape_witness :
  ∃ nb w' NB,
    process_life 3%nat blinker_world = (Ok nb, w') ∧
    read_board (w_heap w') nb = Some NB ∧
    height NB = height blinker ∧ width NB = width blinker ∧
    rectangular NB ∧ binary NB ∧
    nb ≠ 3%nat ∧ w_heap blinker_world !! nb = None ∧
    w_heap blinker_world `prefix_of` w_heap w' ∧
    read_board (w_heap w') 3%nat = Some blinker.
Proof.
  apply (process_life_shape blinker_world 3%nat blinker).
  - reflexivity.
  - by_decide.
  - by_decide.
Defined.

(** C5. [process_life] is deterministic although its scratch board is filled
    at random. Run on the same board, of any shape, with any two states of
    the random generator, it ends in the same way (the same returned object
    or the same exception) after the same calls; when it returns, it leaves
    the same heap, so the returned board has the same contents. On a
    non-empty rectangular board it does return, and each cell of the scratch
    board is overwritten by exactly one [assign] call. *)
Theorem process_life_deterministic (w : world) (b : loc) (B : list (list Z))
    (r1 r2 : rng) :
  read_board (w_heap w) b = Some B →
  (process_life b (set_rng r1 w)).1 = (process_life b (set_rng r2 w)).1 ∧
  w_calls (process_life b (set_rng r1 w)).2
    = w_calls (process_life b (set_rng r2 w)).2 ∧
  (∀ nb, (process_life b (set_rng r1 w)).1 = Ok nb →
     w_heap (process_life b (set_rng r1 w)).2
       = w_heap (process_life b (set_rng r2 w)).2 ∧
     read_board (w_heap (process_life b (set_rng r1 w)).2) nb
       = read_board (w_heap (process_life b (set_rng r2 w)).2) nb) ∧
  (rectangular B →
     ∃ nb NB calls,
       (process_life b (set_rng r1 w)).1 = Ok nb ∧
       read_board (w_heap (process_life b (set_rng r1 w)).2) nb = Some NB ∧
       w_calls (process_life b (set_rng r1 w)).2 = w_calls w ++ calls ∧
       assigned nb calls = cells_of (height B) (width B) ∧
       NoDup (cells_of (height B) (width B))).
Proof.
  destruct w as [h g r c o]. unfold set_rng. cbn [w_heap w_globals w_calls w_out].
  intros HB.
  assert (
    (process_life b (World h g r1 c o)).1 = (process_life b (World h g r2 c o)).1 ∧
    w_calls (process_life b (World h g r1 c o)).2
      = w_calls (process_life b (World h g r2 c o)).2 ∧
    (∀ nb, (process_life b (World h g r1 c o)).1 = Ok nb →
       w_heap (process_life b (World h g r1 c o)).2
         = w_heap (process_life b (World h g r2 c o)).2)) as (Hres & Hcalls & Hheap).
  { destruct (process_life_any h g o b B HB r1 c) as (R1 & HD1 & E1).
    destruct (process_life_any h g o b B HB r2 c) as (R2 & HD2 & E2).
    rewrite E1, E2. destruct B as [|row0 B']; [done|].
    cbn [fst snd w_heap w_calls]. do 2 (split; [done|]).
    intros nb Hnb.
    destruct (board_result_covers (row0 :: B') b (length h)) as [Hrange Hcover].
    { by destruct (board_result (row0 :: B') b (length h)
                     (seq 0 (height (row0 :: B')))).1.1 as [[]|]. }
    f_equal.
    by apply (apply_writes_covered _ _ _ (height (row0 :: B')) (width (row0 :: B'))). }
  split; [done|]. split; [done|]. split.
  { intros nb Hnb. split; [exact (Hheap nb Hnb)|]. by rewrite (Hheap nb Hnb). }
  intros HR. destruct (life_step_dims B) as [HL HF].
  exists (length h), (life_step B), (life_calls b (length h) B).
  rewrite !(process_life_run g o h b B HB HR). cbn [fst snd w_heap w_calls].
  split; [done|]. split; [by apply read_next_board|].
  split; [done|]. split; [apply life_calls_assigned|apply cells_of_NoDup].
Qed.

Lemma process_life_deterministic_witness :
  (process_life 3%nat (set_rng (Rng (λ n, n) 0) blinker_world)).1
    = (process_life 3%nat (set_rng (Rng (λ n, (n + 3)%nat) 7) blinker_world)).1 ∧
  w_calls (process_life 3%nat (set_rng (Rng (λ n, n) 0) blinker_world)).2
    = w_calls (process_life 3%nat
                 (set_rng (Rng (λ n, (n + 3)%nat) 7) blinker_world)).2 ∧
  (∀ nb, (process_life 3%nat (set_rng (Rng (λ n, n) 0) blinker_world)).1 = Ok nb →
     w_heap (process_life 3%nat (set_rng (Rng (λ n, n) 0) blinker_world)).2
       = w_heap (process_life 3%nat
                   (set_rng (Rng (λ n, (n + 3)%nat) 7) blinker_world)).2 ∧
     read_board
       (w_heap (process_life 3%nat (set_rng (Rng (λ n, n) 0) blinker_world)).2) nb
       = read_board
           (w_heap (process_life 3%nat
                      (set_rng (Rng (λ n, (n + 3)%nat) 7) blinker_world)).2) nb) ∧
  (rectangular blinker →
     ∃ nb NB calls,
       (process_life 3%nat (set_rng (Rng (λ n, n) 0) blinker_world)).1 = Ok nb ∧
       read_board
         (w_heap (process_life 3%nat (set_rng (Rng (λ n, n) 0) blinker_world)).2) nb
         = Some NB ∧
       w_calls (process_life 3%nat (set_rng (Rng (λ n, n) 0) blinker_world)).2
         = w_calls blinker_world ++ calls ∧
       assigned nb calls = cells_of (height blinker) (width blinker) ∧
       NoDup (cells_of (height blinker) (width blinker))).
Proof.
  apply (process_life_deterministic blinker_world 3%nat blinker).
  reflexivity.
Defined.

(** On a ragged board the run stops with the same exception whatever the
    random draws, here [IndexError] on the board [[1], []], but the scratch
    board it leaves half-written on the heap still shows the draws. *)
Example process_life_ragged_board :
  let w := World [ObjRow [1]; ObjRow []; ObjBoard [0; 1]%nat] ∅ (Rng (λ n, n) 0) [] [] in
  (process_life 2%nat w).1 = Raise IndexError ∧
  (process_life 2%nat (set_rng (Rng (λ n, (n + 3)%nat) 0) w)).1 = Raise IndexError ∧
  w_heap (process_life 2%nat w).2
  ≠ w_heap (process_life 2%nat (set_rng (Rng (λ n, (n + 3)%nat) 0) w)).2.
Proof. vm_compute. split; [done|]. split; [done|]. intros [= ]. Qed.

(** The scratch board itself does depend on the random draws. *)
Example new_board_depends_on_draws :
  (new_board 2 1 2 3 (World [] ∅ (Rng (λ n, n) 0) [] [])).2
  ≠ (new_board 2 1 2 3 (World [] ∅ (Rng (λ n, (n + 3)%nat) 0) [] [])).2.
Proof. vm_compute. intros [= ]. Qed.

(** C6. [process_life] terminates on every non-empty rectangular board,
    computes one generation and does work proportional to width times
    height: its loops visit each of the height * width positions exactly
    once, in row order, with one [count_neighbors] call and one [assign] call
    per position.  The board it returns holds the next generation: at each
    position, the value that the rules give for the neighbour count and the
    cell of the input board, which is the value the one [assign] call of that
    position stored. *)
Theorem process_life_work (w : world) (b : loc) (B : list (list Z)) :
  read_board (w_heap w) b = Some B → rectangular B →
  ∃ nb w' calls,
    process_life b w = (Ok nb, w') ∧
    read_board (w_heap w') nb = Some (life_step B) ∧
    w_heap w' = next_heap (w_heap w) (height B) (life_step B) ∧
    (∀ x y, (x, y) ∈ cells_of (height B) (width B) →
       ∃ n c, (count_neighbors b x y w).1 = Ok n ∧
              (get b x y w).1 = Ok c ∧
              (get nb x y w').1 = Ok (next_state n (c =? 1)) ∧
              CallAssign nb x y (next_state n (c =? 1)) ∈ calls) ∧
    w_calls w' = w_calls w ++ calls ∧
    calls = life_calls b nb B ∧
    counted b calls = cells_of (height B) (width B) ∧
    assigned nb calls = cells_of (height B) (width B) ∧
    NoDup (cells_of (height B) (width B)) ∧
    (∀ x y, (x, y) ∈ cells_of (height B) (width B)
            ↔ 0 ≤ x < Z.of_nat (width B) ∧ 0 ≤ y < Z.of_nat (height B)) ∧
    length (cells_of (height B) (width B)) = (height B * width B)%nat ∧
    length calls = (11 * (height B * width B))%nat ∧
    used (w_rng w') = (used (w_rng w) + height B * width B)%nat.
Proof.
  destruct w as [h g r c o]. simpl. intros HB HR.
  pose proof HR as (HH & HW & _).
  destruct (life_step_dims B) as [HL HF].
  destruct (dims_rectangular _ _ _ (life_step_dims B) HH HW) as (HR' & _ & _).
  eexists (length h), _, (life_calls b (length h) B).
  split; [by apply process_life_run|]. simpl.
  split; [by apply read_next_board|]. split; [done|].
  split.
  { intros x y Hxy. exists (neighbour_sum B x y), (cell B x y).
    rewrite (count_neighbors_run h g r o c b B x y HB HR).
    rewrite (get_run h g r o c b B x y HB HR).
    rewrite (get_run _ _ _ _ _ _ _ x y (read_next_board h _ _ HL) HR').
    rewrite (cell_life_step B x y HR). simpl.
    do 3 (split; [done|]). by apply life_calls_assign_value. }
  split; [done|]. split; [done|]. split; [apply life_calls_counted|].
  split; [apply life_calls_assigned|]. split; [apply cells_of_NoDup|].
  split; [intros; apply elem_of_cells_of|].
  split; [apply cells_of_length|]. split; [apply life_calls_length|done].
Qed.

Lemma process_life_work_witness :
  ∃ nb w' calls,
    process_life 3%nat blinker_world = (Ok nb, w') ∧
    read_board (w_heap w') nb = Some (life_step blinker) ∧
    w_heap w' = next_heap (w_heap blinker_world) (height blinker) (life_step blinker) ∧
    (∀ x y, (x, y) ∈ cells_of (height blinker) (width blinker) →
       ∃ n c, (count_neighbors 3%nat x y blinker_world).1 = Ok n ∧
              (get 3%nat x y blinker_world).1 = Ok c ∧
              (get nb x y w').1 = Ok (next_state n (c =? 1)) ∧
              CallAssign nb x y (next_state n (c =? 1)) ∈ calls) ∧
    w_calls w' = w_calls blinker_world ++ calls ∧
    calls = life_calls 3%nat nb blinker ∧
    counted 3%nat calls = cells_of (height blinker) (width blinker) ∧
    assigned nb calls = cells_of (height blinker) (width blinker) ∧
    NoDup (cells_of (height blinker) (width blinker)) ∧
    (∀ x y, (x, y) ∈ cells_of (height blinker) (width blinker)
            ↔ 0 ≤ x < Z.of_nat (width blinker) ∧ 0 ≤ y < Z.of_nat (height blinker)) ∧
    length (cells_of (height blinker) (width blinker))
      = (height blinker * width blinker)%nat ∧
    length calls = (11 * (height blinker * width blinker))%nat ∧
    used (w_rng w') = (used (w_rng blinker_world) + height blinker * width blinker)%nat.
Proof.
  apply (process_life_work blinker_world 3%nat blinker).
  - reflexivity.
  - by_decide.
Defined.

(** On the 3 by 3 torus the vertical bar fills the board: each of its cells
    has two live neighbours, each other cell three.  This is the board that
    [process_life] returns, whatever the scratch board held. *)
Example process_life_blinker :
  (process_life 3%nat blinker_world).1 = Ok 4%nat ∧
  read_board (w_heap (process_life 3%nat blinker_world).2) 4%nat
  = Some [[1; 1; 1]; [1; 1; 1]; [1; 1; 1]].
Proof. by vm_compute. Qed.

(** C2. The board wraps as a torus: on a non-empty rectangular board and for
    all integers x and y, [get] returns [board[y mod height][x mod width]],
    [assign] stores the value in exactly that slot of that row object and
    changes nothing else on the heap (so that, the rows being distinct
    objects, the board changes at that one position only), and
    [count_neighbors] at an edge or corner reads the cells of the opposite
    side. *)
Theorem torus_get_assign (w : world) (b : loc) (rows : list loc)
    (B : list (list Z)) (x y v : Z) :
  read_board (w_heap w) b = Some B → board_rows (w_heap w) b = Some rows →
  rectangular B →
  ∃ (l : loc) (row : list Z) (c : Z),
    rows !! Z.to_nat (y mod Z.of_nat (height B)) = Some l ∧
    B !! Z.to_nat (y mod Z.of_nat (height B)) = Some row ∧
    row !! Z.to_nat (x mod Z.of_nat (width B)) = Some c ∧
    cell B x y = c ∧
    (get b x y w).1 = Ok c ∧
    w_heap (get b x y w).2 = w_heap w ∧
    (assign b x y v w).1 = Ok tt ∧
    w_heap (assign b x y v w).2
      = <[l := ObjRow (<[Z.to_nat (x mod Z.of_nat (width B)) := v]> row)]> (w_heap w) ∧
    (NoDup rows →
     read_board (w_heap (assign b x y v w).2) b
       = Some (<[Z.to_nat (y mod Z.of_nat (height B))
                 := <[Z.to_nat (x mod Z.of_nat (width B)) := v]> row]> B)) ∧
    (count_neighbors b x y w).1
      = Ok (py_sum (map (λ d, cell B (x + d.1) (y + d.2)) neighbour_offsets)) ∧
    (∀ x' y', cell B (x' mod Z.of_nat (width B)) (y' mod Z.of_nat (height B))
              = cell B x' y') ∧
    (∀ y', cell B (-1) y' = cell B (Z.of_nat (width B) - 1) y') ∧
    (∀ y', cell B (Z.of_nat (width B)) y' = cell B 0 y') ∧
    (∀ x', cell B x' (-1) = cell B x' (Z.of_nat (height B) - 1)) ∧
    (∀ x', cell B x' (Z.of_nat (height B)) = cell B x' 0).
Proof.
  destruct w as [h g r c o]. simpl. intros HB Hrows HR.
  apply read_board_Some in HB as HB'. destruct HB' as (rows' & [Eb HF]).
  unfold board_rows in Hrows. rewrite Eb in Hrows. simplify_eq.
  destruct (assign_run g o h r c b rows B x y v (conj Eb HF) HR)
    as (l & row & El & Erow & Eassign).
  pose proof (cell_opt_Some B x y HR) as Ecell. unfold cell_opt in Ecell.
  rewrite Erow in Ecell. simpl in Ecell.
  exists l, row, (cell B x y).
  rewrite (get_run h g r o c b B x y HB HR).
  rewrite (count_neighbors_run h g r o c b B x y HB HR).
  rewrite Eassign. simpl.
  do 8 (split; [done|]).
  destruct (Forall2_lookup_l _ _ _ _ _ HF El) as (row' & Erow' & Hl).
  simplify_eq.
  split.
  { intros HND. apply read_board_Some. exists rows. split.
    - rewrite list_lookup_insert_ne; [done|]. intros ->. congruence.
    - apply Forall2_same_length_lookup. split.
      { rewrite length_insert. by eapply Forall2_length. }
      intros i li rowi Eli Erowi.
      destruct (decide (i = Z.to_nat (y mod Z.of_nat (height B)))) as [->|Hne].
      + rewrite list_lookup_insert_eq in Erowi by (by eapply lookup_lt_Some).
        simplify_eq. apply list_lookup_insert_eq. by eapply lookup_lt_Some.
      + rewrite list_lookup_insert_ne in Erowi by done.
        rewrite list_lookup_insert_ne.
        * exact (Forall2_lookup_lr _ _ _ _ _ _ HF Eli Erowi).
        * intros ->. apply Hne. symmetry. by eapply NoDup_lookup. }
  split; [done|]. split; [intros; apply cell_wrap|].
  pose proof HR as (HH & HW & _).
  assert (∀ n, 0 < n → (n - 1) mod n = -1 mod n) as Hm1.
  { intros n Hn. replace (n - 1) with (-1 + 1 * n) by lia. apply Z.mod_add. lia. }
  assert (∀ n, 0 < n → n mod n = 0 mod n) as Hm0.
  { intros n Hn. rewrite Z.mod_same by lia. by rewrite Z.mod_0_l by lia. }
  unfold cell, cell_opt.
  repeat split; intros.
  - by rewrite Hm1 by lia.
  - by rewrite Hm0 by lia.
  - by rewrite Hm1 by lia.
  - by rewrite Hm0 by lia.
Qed.

Lemma torus_get_assign_witness :
  ∃ (l : loc) (row : list Z) (c : Z),
    [0; 1; 2]%nat !! Z.to_nat (4 mod Z.of_nat (height blinker)) = Some l ∧
    blinker !! Z.to_nat (4 mod Z.of_nat (height blinker)) = Some row ∧
    row !! Z.to_nat (-2 mod Z.of_nat (width blinker)) = Some c ∧
    cell blinker (-2) 4 = c ∧
    (get 3%nat (-2) 4 blinker_world).1 = Ok c ∧
    w_heap (get 3%nat (-2) 4 blinker_world).2 = w_heap blinker_world ∧
    (assign 3%nat (-2) 4 7 blinker_world).1 = Ok tt ∧
    w_heap (assign 3%nat (-2) 4 7 blinker_world).2
      = <[l := ObjRow (<[Z.to_nat (-2 mod Z.of_nat (width blinker)) := 7]> row)]>
          (w_heap blinker_world) ∧
    (NoDup [0; 1; 2]%nat →
     read_board (w_heap (assign 3%nat (-2) 4 7 blinker_world).2) 3%nat
       = Some (<[Z.to_nat (4 mod Z.of_nat (height blinker))
                 := <[Z.to_nat (-2 mod Z.of_nat (width blinker)) := 7]> row]> blinker)) ∧
    (count_neighbors 3%nat (-2) 4 blinker_world).1
      = Ok (py_sum (map (λ d, cell blinker (-2 + d.1) (4 + d.2)) neighbour_offsets)) ∧
    (∀ x' y', cell blinker (x' mod Z.of_nat (width blinker))
                (y' mod Z.of_nat (height blinker)) = cell blinker x' y') ∧
    (∀ y', cell blinker (-1) y' = cell blinker (Z.of_nat (width blinker) - 1) y') ∧
    (∀ y', cell blinker (Z.of_nat (width blinker)) y' = cell blinker 0 y') ∧
    (∀ x', cell blinker x' (-1) = cell blinker x' (Z.of_nat (height blinker) - 1)) ∧
    (∀ x', cell blinker x' (Z.of_nat (height blinker)) = cell blinker x' 0).
Proof.
  apply (torus_get_assign blinker_world 3%nat [0; 1; 2]%nat blinker (-2) 4 7).
  - reflexivity.
  - reflexivity.
  - by_decide.
Defined.

(** A board whose rows are one and the same object: the single slot that
    [assign] writes shows at every row of the board. *)
Example assign_shared_rows :
  let w := World [ObjRow [0; 0]; ObjBoard [0; 0]%nat] ∅ (Rng (λ n, n) 0) [] [] in
  read_board (w_heap w) 1%nat = Some [[0; 0]; [0; 0]] ∧
  read_board (w_heap (assign 1%nat 0 0 1 w).2) 1%nat = Some [[1; 0]; [1; 0]].
Proof. by vm_compute. Qed.

(** C3 (as amended). On a non-empty rectangular 0/1 board,
    [count_neighbors(board, x, y)] is the sum of the cells at the eight
    wrapped neighbour offsets and lies between 0 and 8.  When the board is at
    least 3 wide and 3 high, the eight positions are distinct, none of them
    is (x, y) itself, and the result is the number of live cells among the
    eight Moore neighbours of (x, y). *)
Theorem count_neighbors_moore (w : world) (b : loc) (B : list (list Z)) (x y : Z) :
  read_board (w_heap w) b = Some B → rectangular B → binary B →
  ∃ n,
    (count_neighbors b x y w).1 = Ok n ∧
    0 ≤ n ≤ 8 ∧
    n = py_sum (map (λ d, cell B (x + d.1) (y + d.2)) neighbour_offsets) ∧
    ((3 ≤ width B)%nat → (3 ≤ height B)%nat →
       NoDup (moore_positions B x y) ∧
       ((x mod Z.of_nat (width B), y mod Z.of_nat (height B)) ∉ moore_positions B x y) ∧
       moore_neighbours B x y = moore_positions B x y ∧
       length (moore_neighbours B x y) = 8%nat ∧
       n = live_moore_neighbours B x y).
Proof.
  destruct w as [h g r c o]. simpl. intros HB HR HBin.
  exists (neighbour_sum B x y).
  rewrite (count_neighbors_run h g r o c b B x y HB HR). simpl.
  split; [done|]. split; [by apply neighbour_sum_bounds|]. split; [done|].
  intros HW HH.
  pose proof (moore_neighbours_all B x y HW HH) as Eall.
  split; [by apply moore_positions_NoDup|]. split.
  - intros Hin. unfold moore_neighbours in Eall.
    rewrite remove_dups_NoDup in Eall by (by apply moore_positions_NoDup).
    rewrite <- Eall in Hin. apply list_elem_of_filter in Hin as [Hne _]. done.
  - split; [done|]. split; [by rewrite Eall|]. by apply neighbour_sum_moore.
Qed.

Lemma count_neighbors_moore_witness :
  ∃ n,
    (count_neighbors 3%nat 0 0 blinker_world).1 = Ok n ∧
    0 ≤ n ≤ 8 ∧
    n = py_sum (map (λ d, cell blinker (0 + d.1) (0 + d.2)) neighbour_offsets) ∧
    NoDup (moore_positions blinker 0 0) ∧
    length (moore_neighbours blinker 0 0) = 8%nat ∧
    n = live_moore_neighbours blinker 0 0.
Proof.
  destruct (count_neighbors_moore blinker_world 3%nat blinker 0 0)
    as (n & E & Hn & Hs & Hm).
  - reflexivity.
  - by_decide.
  - by_decide.
  - destruct Hm as (Hd & _ & _ & Hl & Hlive); [simpl; lia..|].
    exists n. repeat split; assumption || apply Hn.
Defined.

(** C3 as first stated does not hold on a one-cell board: every one of the
    eight offsets wraps to the cell itself, so a live cell counts itself
    eight times although it has no neighbour other than itself. *)
Lemma count_neighbors_counts_itself :
  let w := World [ObjRow [1]; ObjBoard [0%nat]] ∅ (Rng (λ n, n) 0) [] [] in
  read_board (w_heap w) 1%nat = Some [[1]] ∧
  rectangular [[1]] ∧ binary [[1]] ∧
  (count_neighbors 1%nat 0 0 w).1 = Ok 8 ∧
  moore_neighbours [[1]] 0 0 = [] ∧
  live_moore_neighbours [[1]] 0 0 = 0 ∧
  (count_neighbors 1%nat 0 0 w).1 ≠ Ok (live_moore_neighbours [[1]] 0 0).
Proof.
  simpl. split; [reflexivity|]. split; [by_decide|]. split; [by_decide|].
  split; [by vm_compute|]. split; [by vm_compute|]. split; [by vm_compute|].
  vm_compute. intros [= ].
Qed.

(** On a board two cells wide the left and the right neighbour are the same
    cell, which is counted twice. *)
Example count_neighbors_width_two :
  let w := World [ObjRow [0; 1]; ObjRow [0; 0]; ObjRow [0; 0]; ObjBoard [0; 1; 2]%nat]
                 ∅ (Rng (λ n, n) 0) [] [] in
  (count_neighbors 3%nat 0 0 w).1 = Ok 2 ∧
  live_moore_neighbours [[0; 1]; [0; 0]; [0; 0]] 0 0 = 1.
Proof. by vm_compute. Qed.

End LifeClaims.

(** ** Records for the point cloud *)

Lemma convert_board_to_df_with b :
  Conway.convert_board_to_df b
  = convert_with "PINK" (λ x y, VList [VDec x (-3); VDec y (-3)]) b.
Proof. reflexivity. Qed.

Lemma convert_board_to_df_3d_with b iteration :
  Conway.convert_board_to_df_3d b iteration
  = convert_with "TRANSPARENT"
      (λ x y, VList [VDec x (-3); VDec y (-3); VInt (iteration * 1000)]) b.
Proof. reflexivity. Qed.

Lemma cell_in_range B (x y : nat) row c :
  rectangular B → B !! y = Some row → row !! x = Some c →
  cell B (Z.of_nat x) (Z.of_nat y) = c.
Proof.
  intros HR Erow Ec. unfold cell, cell_opt.
  apply lookup_lt_Some in Erow as Hy. apply lookup_lt_Some in Ec as Hx.
  rewrite (rectangular_row _ _ _ HR Erow) in Hx. unfold height.
  rewrite !Z.mod_small by lia. rewrite !Nat2Z.id, Erow. simpl. by rewrite Ec.
Qed.

Lemma load_run h g r c o name :
  load name (World h g r c o)
  = (match g !! name with Some v => Ok v | None => Raise NameError end,
     World h g r c o).
Proof. unfold load. simpl. by destruct (g !! name). Qed.

Lemma load_color h g r c o other (alive : bool) :
  (if alive then load "PURPLE" else load other) (World h g r c o)
  = (match (if alive then g !! "PURPLE" else g !! other) with
     | Some v => Ok v
     | None => Raise NameError
     end, World h g r c o).
Proof. destruct alive; apply load_run. Qed.

Section convert.
Context (h : list pyobj) (g : gmap string pyval) (r : rng)
        (c : list call) (o : list effect).
Context (other : string) (position : Z → Z → pyval).
Context (b : loc) (B : list (list Z)).
Context (HB : read_board h b = Some B) (HR : rectangular B).

Lemma convert_column_run (x : nat) (ys : list nat) :
  (x < width B)%nat → Forall (λ y, y < height B)%nat ys →
  ∀ rows,
  for_fold (map Z.of_nat ys) rows (λ y rows,
    row <- getitem_board b y ;;
    c <- getitem_row row (Z.of_nat x) ;;
    color <- (if negb (c =? 0) then load "PURPLE" else load other) ;;
    ret (rows ++ [[position (Z.of_nat x) y; color]]))
    (World h g r c o)
  = (match mapM (cell_record g other position B x) ys with
     | Some recs => Ok (rows ++ recs)
     | None => Raise NameError
     end, World h g r c o).
Proof.
  intros Hx. induction ys as [|y ys IH]; intros Hys rows; simpl.
  - by rewrite (right_id_L [] (++)).
  - apply Forall_cons in Hys as [Hy Hys].
    pose proof HB as HB0. apply read_board_Some in HB0 as (lrows & Eb & HF).
    destruct (lookup_lt_is_Some_2 B y) as [row Erow]; [done|].
    destruct (Forall2_lookup_r _ _ _ _ _ HF Erow) as (l & El & Hl).
    pose proof (rectangular_row _ _ _ HR Erow) as Hlen.
    destruct (lookup_lt_is_Some_2 row x) as [v Ev]; [lia|].
    pose proof (cell_in_range B x y row v HR Erow Ev) as Ecell.
    assert (cell_record g other position B x y
            = (color ← (if negb (v =? 0) then g !! "PURPLE" else g !! other);
               Some [position (Z.of_nat x) (Z.of_nat y); color])) as ->
      by (unfold cell_record; by rewrite Ecell).
    destruct ((if negb (v =? 0) then g !! "PURPLE" else g !! other)) as [color|] eqn:Ecol;
      simpl.
    + erewrite bind_Ok.
      2:{ erewrite bind_Ok
            by (eapply getitem_board_ok; [done|lia|by rewrite Nat2Z.id]).
          erewrite bind_Ok
            by (eapply getitem_row_ok; [done|lia|by rewrite Nat2Z.id]).
          erewrite bind_Ok by (rewrite load_color, Ecol; reflexivity).
          reflexivity. }
      rewrite IH by done.
      destruct (mapM _ ys); simpl; [|done]. by rewrite <- (assoc_L (++)).
    + erewrite bind_Raise; [done|].
      erewrite bind_Ok
        by (eapply getitem_board_ok; [done|lia|by rewrite Nat2Z.id]).
      erewrite bind_Ok
        by (eapply getitem_row_ok; [done|lia|by rewrite Nat2Z.id]).
      erewrite bind_Raise; [done|].
      rewrite load_color, Ecol; reflexivity.
Qed.

Lemma convert_columns_run (xs : list nat) :
  Forall (λ x, x < width B)%nat xs →
  ∀ rows,
  for_fold (map Z.of_nat xs) rows (λ x rows,
    ht <- py_len b ;;
    for_fold (py_range 0 ht) rows (λ y rows,
      row <- getitem_board b y ;;
      c <- getitem_row row x ;;
      color <- (if negb (c =? 0) then load "PURPLE" else load other) ;;
      ret (rows ++ [[position x y; color]])))
    (World h g r c o)
  = (match mapM (λ x, mapM (cell_record g other position B x) (seq 0 (height B))) xs with
     | Some rss => Ok (rows ++ concat rss)
     | None => Raise NameError
     end, World h g r c o).
Proof.
  induction xs as [|x xs IH]; intros Hxs rows; simpl.
  - by rewrite (right_id_L [] (++)).
  - apply Forall_cons in Hxs as [Hx Hxs].
    pose proof HB as HB0. apply read_board_Some in HB0 as (lrows & Eb & HF).
    pose proof (Forall2_length _ _ _ HF) as Hlen.
    assert (Forall (λ y, y < height B)%nat (seq 0 (height B))) as Hseq.
    { apply Forall_forall. intros y Hy. apply list_elem_of_In, in_seq in Hy. lia. }
    pose proof (convert_column_run x (seq 0 (height B)) Hx Hseq rows) as Ecol.
    destruct (mapM (cell_record g other position B x) (seq 0 (height B)))
      as [recs|] eqn:Erecs; simpl.
    + erewrite bind_Ok.
      2:{ erewrite bind_Ok by (by apply py_len_board).
          rewrite Hlen. fold (height B). rewrite py_range_0. exact Ecol. }
      rewrite IH by done.
      destruct (mapM _ xs); simpl; [|done]. by rewrite <- (assoc_L (++)).
    + erewrite bind_Raise; [done|].
      erewrite bind_Ok by (by apply py_len_board).
      rewrite Hlen. fold (height B). rewrite py_range_0. exact Ecol.
Qed.

Lemma convert_with_run :
  convert_with other position b (World h g r c o)
  = (match records_of g other position B with
     | Some recs => Ok recs
     | None => Raise NameError
     end, World h g r c o).
Proof.
  pose proof HB as HB0. apply read_board_Some in HB0 as (lrows & Eb & HF).
  destruct (rectangular_head B HR) as (row0 & Erow0 & Hlen0).
  destruct (Forall2_lookup_r _ _ _ _ _ HF Erow0) as (l0 & El0 & Hl0).
  assert (Forall (λ x, x < width B)%nat (seq 0 (width B))) as Hseq.
  { apply Forall_forall. intros x Hx. apply list_elem_of_In, in_seq in Hx. lia. }
  pose proof (convert_columns_run (seq 0 (width B)) Hseq []) as Ecols.
  unfold convert_with, records_of.
  erewrite bind_Ok by (eapply getitem_board_ok; [done|lia|done]).
  erewrite bind_Ok by (by apply py_len_row).
  rewrite Hlen0, py_range_0.
  destruct (mapM _ (seq 0 (width B))) as [rss|]; simpl.
  - by erewrite bind_Ok by exact Ecols.
  - by erewrite bind_Raise by exact Ecols.
Qed.

End convert.

Lemma mapM_fmap_total {A B} (f : A → option B) (k : A → B) (l : list A) :
  (∀ a, a ∈ l → f a = Some (k a)) → mapM f l = Some (k <$> l).
Proof.
  intros Hf. apply mapM_Some. apply Forall2_fmap_r, Forall_Forall2_diag.
  by apply Forall_forall.
Qed.

Lemma records_of_board g B :
  g !! "PURPLE" = Some Conway.PURPLE → g !! "PINK" = Some Conway.PINK →
  records_of g "PINK" (λ x y, VList [VDec x (-3); VDec y (-3)]) B
  = Some (board_records B).
Proof.
  intros Epurple Epink. unfold records_of, board_records.
  rewrite (mapM_fmap_total _
             (λ x : nat, map (λ y : nat,
                [VList [VDec (Z.of_nat x) (-3); VDec (Z.of_nat y) (-3)];
                 if negb (cell B (Z.of_nat x) (Z.of_nat y) =? 0)
                 then Conway.PURPLE else Conway.PINK]) (seq 0 (height B)))).
  - simpl. by rewrite flat_map_concat_map.
  - intros x _. apply mapM_fmap_total. intros y _. unfold cell_record.
    destruct (negb _); [rewrite Epurple|rewrite Epink]; done.
Qed.

(** ** Configuration objects on the heap *)

Lemma json_of_list n h vs :
  Pydeck.json_of (S n) h (VList vs) = VList (map (Pydeck.json_of n h) vs).
Proof. reflexivity. Qed.

Lemma json_of_ref n h l cls attrs :
  h !! l = Some (ObjInstance cls attrs) →
  Pydeck.json_of (S n) h (VRef l)
  = VDict (map (λ kv, (kv.1, Pydeck.json_of n h kv.2)) (map_to_list attrs)).
Proof. intros E. cbn [Pydeck.json_of]. by rewrite E. Qed.

Lemma json_of_agree n h1 h2 v :
  (∀ l, inst h1 l = inst h2 l) → Pydeck.json_of n h1 v = Pydeck.json_of n h2 v.
Proof.
  intros Hagree. revert v. induction n as [|n IH]; intros v; [done|].
  destruct v as [| | | | |vs|kvs|l]; simpl; try done.
  - f_equal. apply map_ext. intros; apply IH.
  - f_equal. apply map_ext. intros; f_equal; apply IH.
  - specialize (Hagree l). unfold inst in Hagree.
    destruct (h1 !! l) as [[]|], (h2 !! l) as [[]|]; simplify_eq; try done.
    f_equal. apply map_ext. intros; f_equal; apply IH.
Qed.

Lemma deck_json_agree h1 h2 attrs :
  (∀ l, inst h1 l = inst h2 l) → Pydeck.deck_json h1 attrs = Pydeck.deck_json h2 attrs.
Proof.
  intros Hagree. unfold Pydeck.deck_json.
  by rewrite !(json_of_agree _ h1 h2) by done.
Qed.

Lemma inst_next_heap h ht NB l : inst (next_heap h ht NB) l = inst h l.
Proof.
  unfold inst, next_heap.
  destruct (decide (l < length h)%nat) as [Hlt|Hge].
  - by rewrite lookup_app_l by done.
  - rewrite lookup_app_r, (lookup_ge_None_2 h) by lia.
    destruct (l - length h)%nat as [|i]; simpl; [done|].
    rewrite list_lookup_fmap. by destruct (NB !! i).
Qed.

Lemma inst_insert h l cls attrs l' :
  (l < length h)%nat →
  inst (<[l := ObjInstance cls attrs]> h) l'
  = if decide (l' = l) then Some (cls, attrs) else inst h l'.
Proof.
  intros Hl. unfold inst. case_decide as Heq.
  - subst. by rewrite list_lookup_insert_eq.
  - by rewrite list_lookup_insert_ne.
Qed.

Lemma inst_insert_agree h1 h2 l cls attrs :
  (l < length h1)%nat → (l < length h2)%nat →
  (∀ l', l' ≠ l → inst h1 l' = inst h2 l') →
  ∀ l', inst (<[l := ObjInstance cls attrs]> h1) l'
        = inst (<[l := ObjInstance cls attrs]> h2) l'.
Proof.
  intros H1 H2 Hagree l'. rewrite !inst_insert by done.
  case_decide; [done|]. by apply Hagree.
Qed.

Section script.
Context (h : list pyobj) (g : gmap string pyval) (r : rng)
        (c : list call) (o : list effect).

Lemma load_Some name v :
  g !! name = Some v → load name (World h g r c o) = (Ok v, World h g r c o).
Proof. intros E. by rewrite load_run, E. Qed.

Lemma setattr_run l cls attrs name v :
  h !! l = Some (ObjInstance cls attrs) →
  setattr l name v (World h g r c o)
  = (Ok tt, World (<[l := ObjInstance cls (<[name := v]> attrs)]> h) g r c o).
Proof. intros E. unfold setattr. simpl. by rewrite E. Qed.

Lemma update_run d cls attrs :
  h !! d = Some (ObjInstance cls attrs) →
  Pydeck.update d (World h g r c o)
  = (Ok tt, World h g r c (o ++ [Refreshed (Pydeck.deck_json h attrs)])).
Proof.
  intros E. unfold Pydeck.update, Pydeck.to_json, bind. simpl. by rewrite E.
Qed.

Lemma show_run d cls attrs :
  h !! d = Some (ObjInstance cls attrs) →
  Pydeck.show d (World h g r c o)
  = (Ok tt, World h g r c (o ++ [Shown (Pydeck.deck_json h attrs)])).
Proof.
  intros E. unfold Pydeck.show, Pydeck.to_json, bind. simpl. by rewrite E.
Qed.

Lemma draw_row_run (cells : list Z) o' :
  for_each cells (λ col, if col =? 1 then print "*" else print "-")
    (World h g r c o')
  = (Ok tt, World h g r c
              (o' ++ map (λ col, Printed (if col =? 1 then "*" else "-")) cells)).
Proof.
  revert o'. induction cells as [|col cells IH]; intros o'; simpl.
  - by rewrite (right_id_L [] (++)).
  - erewrite bind_Ok.
    2:{ instantiate (1 := World h g r c (o' ++ [Printed (if col =? 1 then "*" else "-")])).
        by destruct (col =? 1). }
    rewrite IH. by rewrite <- (assoc_L (++)).
Qed.

Lemma draw_rows_run (rows : list loc) (B : list (list Z)) :
  Forall2 (λ l row, h !! l = Some (ObjRow row)) rows B →
  ∀ o',
  for_each rows (λ row,
    cells <- iter_row row ;;
    for_each cells (λ col, if col =? 1 then print "*" else print "-") ;;;
    print newline) (World h g r c o')
  = (Ok tt, World h g r c (o' ++ drawing B)).
Proof.
  induction 1 as [|l row rows B El _ IH]; intros o'; simpl.
  - by rewrite (right_id_L [] (++)).
  - erewrite bind_Ok.
    2:{ erewrite bind_Ok by (unfold iter_row; simpl; by rewrite El).
        erewrite bind_Ok by apply draw_row_run.
        unfold print, emit, set_out. simpl. reflexivity. }
    rewrite IH. by rewrite <- !(assoc_L (++)).
Qed.

Lemma draw_board_run b B :
  read_board h b = Some B →
  Conway.draw_board b (World h g r c o) = (Ok tt, World h g r c (o ++ drawing B)).
Proof.
  intros HB. apply read_board_Some in HB as (rows & Eb & HF).
  unfold Conway.draw_board.
  erewrite bind_Ok by (unfold iter_board; simpl; by rewrite Eb).
  by apply draw_rows_run.
Qed.

End script.

(** ** One round of each loop *)

Section rounds.
Context (h : list pyobj) (g : gmap string pyval) (r : rng)
        (c : list call) (o : list effect).
Context (b : loc) (B : list (list Z)).
Context (Hboard : g !! "board" = Some (VRef b)).
Context (HB : read_board h b = Some B) (HR : rectangular B).

Lemma text_demo_body_run i :
  Conway.text_demo_body i (World h g r c o)
  = (Ok tt,
     World (next_heap h (height B) (life_step B))
           (<["board" := VRef (length h)]> (<["i" := VInt i]> g))
           (Rng (draws r) (used r + height B * width B)%nat)
           (c ++ life_calls b (length h) B)
           (o ++ text_events i (life_step B))).
Proof.
  destruct (life_step_dims B) as [HL _].
  unfold Conway.text_demo_body.
  do 2 step_prim.
  step_with ltac:(apply load_Some; by rewrite lookup_insert_ne).
  step_with ltac:(reflexivity).
  step_with ltac:(by apply LifeRuns.process_life_run).
  step_prim.
  step_with ltac:(apply load_Some; by rewrite lookup_insert_eq).
  step_with ltac:(reflexivity).
  step_with ltac:(apply draw_board_run; by apply read_next_board).
  step_prim.
  unfold sleep, emit, text_events. simpl.
  by rewrite <- !(assoc_L (++)).
Qed.

Context (l d : loc) (lattrs dattrs : gmap string pyval).
Context (Hlayer : g !! "layer" = Some (VRef l)) (Hr : g !! "r" = Some (VRef d)).
Context (Hpurple : g !! "PURPLE" = Some Conway.PURPLE).
Context (Hpink : g !! "PINK" = Some Conway.PINK).
Context (Hl : h !! l = Some (ObjInstance "Layer" lattrs)).
Context (Hd : h !! d = Some (ObjInstance "Deck" dattrs)).

Lemma animation_body_run i :
  Conway.animation_body i (World h g r c o)
  = (Ok tt,
     World (<[l := ObjInstance "Layer" (<["data" := board_records (life_step B)]> lattrs)]>
              (next_heap h (height B) (life_step B)))
           (<["records" := board_records (life_step B)]>
              (<["board" := VRef (length h)]> (<["i" := VInt i]> g)))
           (Rng (draws r) (used r + height B * width B)%nat)
           (c ++ life_calls b (length h) B)
           (o ++ [Refreshed (Pydeck.deck_json
                             (<[l := ObjInstance "Layer"
                                       (<["data" := board_records (life_step B)]> lattrs)]>
                                (next_heap h (height B) (life_step B))) dattrs);
                  Slept (VDec 1 (-1))])).
Proof.
  destruct (life_step_dims B) as [HL HF].
  pose proof HR as (HH & HW & _).
  destruct (dims_rectangular _ _ _ (life_step_dims B) HH HW) as (HR' & _ & _).
  assert (l ≠ d) as Hld by (intros ->; congruence).
  unfold Conway.animation_body.
  step_prim.
  step_with ltac:(apply load_Some; by rewrite lookup_insert_ne).
  step_with ltac:(reflexivity).
  step_with ltac:(by apply LifeRuns.process_life_run).
  step_prim.
  step_with ltac:(apply load_Some; by rewrite lookup_insert_eq).
  step_with ltac:(reflexivity).
  erewrite bind_Ok.
  2:{ rewrite convert_board_to_df_with.
      erewrite convert_with_run; [|by apply read_next_board|done].
      rewrite records_of_board; [reflexivity| |];
        by rewrite !lookup_insert_ne by done. }
  step_prim.
  step_with ltac:(apply load_Some; by rewrite lookup_insert_eq).
  step_with ltac:(apply load_Some; by rewrite !lookup_insert_ne by done).
  step_with ltac:(reflexivity).
  step_with ltac:(eapply setattr_run; by apply next_heap_old).
  step_with ltac:(apply load_Some; by rewrite !lookup_insert_ne by done).
  step_with ltac:(reflexivity).
  erewrite bind_Ok.
  2:{ eapply update_run. rewrite list_lookup_insert_ne by done.
      by apply next_heap_old. }
  unfold sleep, emit. simpl. by rewrite <- !(assoc_L (++)).
Qed.

End rounds.

(** ** Many rounds *)

Lemma range_from_cons (s : Z) (k : nat) :
  map (λ m : nat, s + Z.of_nat m) (seq 0 (S k))
  = s :: map (λ m : nat, (s + 1) + Z.of_nat m) (seq 0 k).
Proof.
  simpl. f_equal; [lia|]. rewrite <- seq_shift, map_map.
  apply map_ext. intros; lia.
Qed.

Lemma flat_map_seq_cons {A} (f : nat → list A) (k : nat) :
  flat_map f (seq 0 (S k)) = f 0%nat ++ flat_map (λ m, f (S m)) (seq 0 k).
Proof.
  simpl. f_equal. rewrite <- seq_shift. rewrite !flat_map_concat_map, map_map. done.
Qed.

Lemma py_range_take (a : Z) (n k : nat) :
  (k ≤ n)%nat →
  take k (py_range a (a + Z.of_nat n)) = map (λ m : nat, a + Z.of_nat m) (seq 0 k).
Proof.
  intros Hk. unfold py_range.
  replace (a + Z.of_nat n - a) with (Z.of_nat n) by lia. rewrite Nat2Z.id.
  change (map ?f ?l) with (f <$> l). rewrite <- fmap_take, take_seq.
  by rewrite Nat.min_l by done.
Qed.

Lemma life_step_rectangular B : rectangular B → rectangular (life_step B).
Proof.
  intros HR. pose proof HR as (HH & HW & _).
  by destruct (dims_rectangular _ _ _ (life_step_dims B) HH HW) as (HR' & _ & _).
Qed.

Lemma text_loop_run (k : nat) :
  ∀ (s : Z) h g r c o b B,
  g !! "board" = Some (VRef b) → read_board h b = Some B → rectangular B →
  ∃ h' g' r' c' b',
    for_each (map (λ m : nat, s + Z.of_nat m) (seq 0 k)) Conway.text_demo_body
      (World h g r c o)
    = (Ok tt,
       World h' g' r' c'
         (o ++ flat_map (λ m : nat, text_events (s + Z.of_nat m)
                                      (Nat.iter (S m) life_step B)) (seq 0 k))) ∧
    g' !! "board" = Some (VRef b') ∧
    read_board h' b' = Some (Nat.iter k life_step B).
Proof.
  induction k as [|k IH]; intros s h g r c o b B Hboard HB HR.
  - exists h, g, r, c, b. simpl. by rewrite (right_id_L [] (++)).
  - rewrite range_from_cons. cbn [for_each].
    erewrite bind_Ok by (by eapply text_demo_body_run).
    destruct (life_step_dims B) as [HL _].
    edestruct (IH (s + 1)) as (h' & g' & r' & c' & b' & E & Hboard' & HB').
    { apply lookup_insert_eq. }
    { by apply read_next_board. }
    { by apply life_step_rectangular. }
    exists h', g', r', c', b'. rewrite E. split; [|split; [done|]].
    + rewrite flat_map_seq_cons, <- (assoc_L (++)). do 4 f_equal.
      * by rewrite Z.add_0_r.
      * apply flat_map_ext. intros m. rewrite <- Nat.iter_succ_r.
        f_equal. lia.
    + by rewrite HB', <- Nat.iter_succ_r.
Qed.

Lemma animation_loop_run (h0 : list pyobj) (l d : loc) (dattrs : gmap string pyval)
    (k : nat) :
  (l < length h0)%nat →
  ∀ (s : Z) h g r c o b B cur,
  g !! "board" = Some (VRef b) → read_board h b = Some B → rectangular B →
  g !! "layer" = Some (VRef l) → g !! "r" = Some (VRef d) →
  g !! "PURPLE" = Some Conway.PURPLE → g !! "PINK" = Some Conway.PINK →
  h !! l = Some (ObjInstance "Layer" cur) →
  h !! d = Some (ObjInstance "Deck" dattrs) →
  (∀ l', l' ≠ l → inst h l' = inst h0 l') →
  ∃ h' g' r' c' b',
    for_each (map (λ m : nat, s + Z.of_nat m) (seq 0 k)) Conway.animation_body
      (World h g r c o)
    = (Ok tt,
       World h' g' r' c'
         (o ++ flat_map (λ m : nat, refresh_events h0 l cur dattrs
                                      (Nat.iter (S m) life_step B)) (seq 0 k))) ∧
    g' !! "board" = Some (VRef b') ∧
    read_board h' b' = Some (Nat.iter k life_step B).
Proof.
  intros Hl0. induction k as [|k IH];
    intros s h g r c o b B cur Hboard HB HR Hlayer Hr Hpurple Hpink Hl Hd Hagree.
  - exists h, g, r, c, b. simpl. by rewrite (right_id_L [] (++)).
  - rewrite range_from_cons. cbn [for_each].
    erewrite bind_Ok by (by eapply animation_body_run).
    destruct (life_step_dims B) as [HL _].
    assert (l ≠ d) as Hld by (intros ->; congruence).
    apply lookup_lt_Some in Hl as Hllt. apply lookup_lt_Some in Hd as Hdlt.
    set (cur1 := <["data" := board_records (life_step B)]> cur).
    set (h1 := <[l := ObjInstance "Layer" cur1]> (next_heap h (height B) (life_step B))).
    assert (l < length (next_heap h (height B) (life_step B)))%nat as Hl1
      by (rewrite next_heap_length; lia).
    assert (∀ l', l' ≠ l → inst h1 l' = inst h0 l') as Hagree1.
    { intros l' Hne. unfold h1. rewrite inst_insert by done.
      rewrite decide_False by done. rewrite inst_next_heap. by apply Hagree. }
    fold cur1. fold h1.
    match goal with
    | |- context [for_each _ _ (World h1 ?g1 ?r1 ?c1 ?o1)] =>
        destruct (IH (s + 1) h1 g1 r1 c1 o1 (length h) (life_step B) cur1)
          as (h' & g' & r' & c' & b' & E & Hboard' & HB')
    end; try assumption.
    { by rewrite lookup_insert_ne, lookup_insert_eq. }
    { unfold h1. apply read_board_Some.
      exists (seq (S (length h)) (height B)).
      destruct (next_heap_board_at h (height B) (life_step B) HL) as [Eb HF].
      split.
      - rewrite list_lookup_insert_ne; [done|lia].
      - eapply Forall2_impl; [exact HF|]. intros lr row Elr. simpl in Elr.
        rewrite list_lookup_insert_ne; [done|]. intros <-.
        rewrite (next_heap_old h _ _ _ _ Hl) in Elr. congruence. }
    { by apply life_step_rectangular. }
    { by rewrite !lookup_insert_ne by done. }
    { by rewrite !lookup_insert_ne by done. }
    { by rewrite !lookup_insert_ne by done. }
    { by rewrite !lookup_insert_ne by done. }
    { unfold h1. by apply list_lookup_insert_eq. }
    { unfold h1. rewrite list_lookup_insert_ne by done. by apply next_heap_old. }
    exists h', g', r', c', b'. split; [|split; [done|]].
    + rewrite E, flat_map_seq_cons.
      assert (refresh_events h0 l cur dattrs (Nat.iter 1 life_step B)
              = [Refreshed (Pydeck.deck_json h1 dattrs); Slept (VDec 1 (-1))]) as ->.
      { unfold refresh_events. change (Nat.iter 1 life_step B) with (life_step B).
        fold cur1.
        rewrite (deck_json_agree h1 (<[l := ObjInstance "Layer" cur1]> h0) dattrs);
          [done|].
        intros l'. unfold h1. apply inst_insert_agree; [done..|].
        intros l'' Hne. rewrite inst_next_heap. by apply Hagree. }
      assert (flat_map (λ m : nat, refresh_events h0 l cur dattrs
                                     (Nat.iter (S (S m)) life_step B)) (seq 0 k)
              = flat_map (λ m : nat, refresh_events h0 l cur1 dattrs
                                       (Nat.iter (S m) life_step (life_step B)))
                         (seq 0 k)) as ->.
      { apply flat_map_ext. intros m. rewrite <- Nat.iter_succ_r.
        unfold refresh_events, cur1. by rewrite insert_insert_eq. }
      by rewrite <- (assoc_L (++)).
    + by rewrite HB', <- Nat.iter_succ_r.
Qed.

(** * The claims about the notebook cells *)

Module NotebookClaims.
Import Life Pydeck Conway Samples.

(** C8, amended. In the stacked-iterations cell,
    [convert_board_to_df(board, iteration)] raises [NameError] on every
    non-empty rectangular board with at least one dead cell, because the name
    [TRANSPARENT] is not among the names the notebook binds (the cell binds
    [BLACK]); on such boards it succeeds only when all cells are alive.  The
    boards that [new_board] and [process_life] build are rectangular; on a
    board whose rows differ in length a dead cell need not be read at all. *)
Theorem convert_3d_name_error (w : world) (b : loc) (B : list (list Z))
    (iteration : Z) (purple : pyval) :
  read_board (w_heap w) b = Some B → rectangular B →
  dom (w_globals w) ⊆ list_to_set notebook_names →
  w_globals w !! "PURPLE" = Some purple →
  ("TRANSPARENT" ∉ notebook_names) ∧ "BLACK" ∈ notebook_names ∧
  w_globals w !! "TRANSPARENT" = None ∧
  ((∃ row c, row ∈ B ∧ c ∈ row ∧ c = 0) →
     convert_board_to_df_3d b iteration w = (Raise NameError, w)) ∧
  ((∀ row c, row ∈ B → c ∈ row → c ≠ 0) →
     ∃ recs, convert_board_to_df_3d b iteration w = (Ok recs, w)) ∧
  (∀ recs w', convert_board_to_df_3d b iteration w = (Ok recs, w') →
     ∀ row c, row ∈ B → c ∈ row → c ≠ 0).
Proof.
  destruct w as [h g r c o]. intros HB HR Hdom Epurple.
  change (dom g ⊆ list_to_set notebook_names) in Hdom.
  simpl in HB, Epurple. simpl w_globals.
  assert ("TRANSPARENT" ∉ notebook_names) as Hnot by by_decide.
  assert (g !! "TRANSPARENT" = None) as Enone.
  { apply not_elem_of_dom. intros Hin. apply Hdom in Hin.
    by apply elem_of_list_to_set in Hin. }
  split; [done|]. split; [by_decide|]. split; [done|].
  rewrite convert_board_to_df_3d_with.
  rewrite (convert_with_run h g r c o _ _ b B HB HR).
  set (position := λ x y : Z, VList [VDec x (-3); VDec y (-3); VInt (iteration * 1000)]).
  assert (∀ x y : nat,
            cell_record g "TRANSPARENT" position B x y = None
            ↔ cell B (Z.of_nat x) (Z.of_nat y) = 0) as Hrec.
  { intros x y. unfold cell_record. rewrite Epurple, Enone.
    destruct (Z.eqb_spec (cell B (Z.of_nat x) (Z.of_nat y)) 0); simpl; split;
      congruence. }
  assert ((∃ row c, row ∈ B ∧ c ∈ row ∧ c = 0)
          ↔ records_of g "TRANSPARENT" position B = None) as Hdead.
  { unfold records_of. split.
    - intros (row & v & Hrow & Hv & ->).
      apply list_elem_of_lookup in Hrow as [y Erow].
      apply list_elem_of_lookup in Hv as [x Ev].
      apply lookup_lt_Some in Erow as Hy. apply lookup_lt_Some in Ev as Hx.
      rewrite (rectangular_row _ _ _ HR Erow) in Hx.
      pose proof (cell_in_range B x y row 0 HR Erow Ev) as Ecell.
      assert (mapM (λ x, mapM (cell_record g "TRANSPARENT" position B x)
                              (seq 0 (height B))) (seq 0 (width B)) = None) as ->;
        [|done].
      apply mapM_None, Exists_exists. exists x.
      split; [apply list_elem_of_In, in_seq; lia|].
      apply mapM_None, Exists_exists. exists y.
      split; [apply list_elem_of_In, in_seq; unfold height; lia|]. by apply Hrec.
    - destruct (mapM _ (seq 0 (width B))) as [rss|] eqn:Emap; [done|]. intros _.
      apply mapM_None, Exists_exists in Emap as (x & Hx & Emap).
      apply mapM_None, Exists_exists in Emap as (y & Hy & Emap).
      apply list_elem_of_In, in_seq in Hx. apply list_elem_of_In, in_seq in Hy.
      apply Hrec in Emap.
      destruct (lookup_lt_is_Some_2 B y) as [row Erow]; [unfold height in *; lia|].
      pose proof (rectangular_row _ _ _ HR Erow) as Hlen.
      destruct (lookup_lt_is_Some_2 row x) as [v Ev]; [lia|].
      rewrite (cell_in_range B x y row v HR Erow Ev) in Emap. subst v.
      exists row, 0. split; [by eapply list_elem_of_lookup_2|].
      split; [by eapply list_elem_of_lookup_2|done]. }
  split; [|split].
  - intros Hex. apply Hdead in Hex. by rewrite Hex.
  - intros Hall. destruct (records_of g "TRANSPARENT" position B) as [recs|] eqn:E.
    + by exists recs.
    + destruct Hdead as [_ Hd].
      destruct (Hd eq_refl) as (row & v & Hrow & Hv & ->). by destruct (Hall row 0).
  - intros recs w' E row v Hrow Hv ->.
    assert (records_of g "TRANSPARENT" position B = None) as E'
      by (apply Hdead; eauto).
    rewrite E' in E. congruence.
Qed.

Lemma convert_3d_name_error_witness :
  ("TRANSPARENT" ∉ notebook_names) ∧ "BLACK" ∈ notebook_names ∧
  w_globals demo_world !! "TRANSPARENT" = None ∧
  ((∃ row c, row ∈ blinker ∧ c ∈ row ∧ c = 0) →
     convert_board_to_df_3d 3%nat 0 demo_world = (Raise NameError, demo_world)) ∧
  ((∀ row c, row ∈ blinker → c ∈ row → c ≠ 0) →
     ∃ recs, convert_board_to_df_3d 3%nat 0 demo_world = (Ok recs, demo_world)) ∧
  (∀ recs w', convert_board_to_df_3d 3%nat 0 demo_world = (Ok recs, w') →
     ∀ row c, row ∈ blinker → c ∈ row → c ≠ 0).
Proof.
  apply (convert_3d_name_error demo_world 3%nat blinker 0 PURPLE).
  - reflexivity.
  - by_decide.
  - by_decide.
  - reflexivity.
Defined.

(** C8 as first stated does not hold on a board whose rows differ in
    length.  The loops visit the columns of the first row only, so a dead
    cell beyond them is never read: on [[1], [1, 0]] the function returns two
    records although the board has a dead cell and [TRANSPARENT] is not
    bound. *)
Lemma convert_3d_dead_cell_unread :
  let B := [[1]; [1; 0]] in
  let w := World [ObjRow [1]; ObjRow [1; 0]; ObjBoard [0; 1]%nat]
                 (list_to_map [("PURPLE", PURPLE); ("BLACK", BLACK)])
                 (Rng (λ n, n) 0) [] [] in
  read_board (w_heap w) 2%nat = Some B ∧
  (∃ row c, row ∈ B ∧ c ∈ row ∧ c = 0) ∧
  dom (w_globals w) ⊆ list_to_set notebook_names ∧
  w_globals w !! "PURPLE" = Some PURPLE ∧
  w_globals w !! "TRANSPARENT" = None ∧
  (convert_board_to_df_3d 2%nat 0 w).1
  = Ok (VList [VDict [("position", VList [VDec 0 (-3); VDec 0 (-3); VInt 0]);
                      ("color", PURPLE)];
               VDict [("position", VList [VDec 0 (-3); VDec 1 (-3); VInt 0]);
                      ("color", PURPLE)]]) ∧
  (convert_board_to_df_3d 2%nat 0 w).1 ≠ Raise NameError.
Proof.
  cbv zeta. split; [reflexivity|].
  split; [exists [1; 0], 0; repeat split; by_decide|].
  split; [by_decide|]. split; [reflexivity|]. split; [reflexivity|].
  split; [by vm_compute|]. vm_compute. intros [= ].
Qed.

(** On a board with a row shorter than the first the same call stops with
    [IndexError] before it reads the dead cell. *)
Example convert_3d_short_row :
  let w := World [ObjRow [1; 1]; ObjRow [1]; ObjRow [1; 0]; ObjBoard [0; 1; 2]%nat]
                 (list_to_map [("PURPLE", PURPLE); ("BLACK", BLACK)])
                 (Rng (λ n, n) 0) [] [] in
  read_board (w_heap w) 3%nat = Some [[1; 1]; [1]; [1; 0]] ∧
  (convert_board_to_df_3d 3%nat 0 w).1 = Raise IndexError.
Proof. by vm_compute. Qed.

(** The same function returns records on a board without dead cells. *)
Example convert_3d_all_alive :
  let w := World [ObjRow [1; 1]; ObjBoard [0%nat]]
                 (list_to_map [("PURPLE", PURPLE); ("BLACK", BLACK)])
                 (Rng (λ n, n) 0) [] [] in
  (convert_board_to_df_3d 1%nat 2 w).1
  = Ok (VList [VDict [("position", VList [VDec 0 (-3); VDec 0 (-3); VInt 2000]);
                      ("color", PURPLE)];
               VDict [("position", VList [VDec 1 (-3); VDec 0 (-3); VInt 2000]);
                      ("color", PURPLE)]]).
Proof. by vm_compute. Qed.

(** C7. The two animation loops run their rounds one after the other: after
    k rounds (k from 0 to 100, and 100 rounds are the whole loop) the name
    [board] holds the k-fold image of the initial board under
    [process_life]; the text demo has printed, for each round in order, the
    round number and then the drawing of that round's board; and the widget
    loop has sent, for each round in order, one refresh whose layer data are
    the records of that round's board, followed by the pause. *)
Theorem animation_loops_sequential (k : nat) (w : world) (b : loc)
    (B : list (list Z)) :
  (k ≤ 100)%nat →
  w_globals w !! "board" = Some (VRef b) →
  read_board (w_heap w) b = Some B → rectangular B →
  (∀ w1 b1 B1, read_board (w_heap w1) b1 = Some B1 → rectangular B1 →
     ∃ nb w2, process_life b1 w1 = (Ok nb, w2) ∧
              read_board (w_heap w2) nb = Some (life_step B1)) ∧
  (∃ wk bk,
     for_each (take k (py_range 1 101)) text_demo_body w = (Ok tt, wk) ∧
     (k = 100%nat → text_demo_loop w = (Ok tt, wk)) ∧
     w_globals wk !! "board" = Some (VRef bk) ∧
     read_board (w_heap wk) bk = Some (Nat.iter k life_step B) ∧
     w_out wk
     = w_out w ++ flat_map (λ m : nat, text_events (1 + Z.of_nat m)
                                         (Nat.iter (S m) life_step B)) (seq 0 k)) ∧
  (∀ (l d : loc) (lattrs dattrs : gmap string pyval),
     w_globals w !! "layer" = Some (VRef l) → w_globals w !! "r" = Some (VRef d) →
     w_globals w !! "PURPLE" = Some PURPLE → w_globals w !! "PINK" = Some PINK →
     w_heap w !! l = Some (ObjInstance "Layer" lattrs) →
     w_heap w !! d = Some (ObjInstance "Deck" dattrs) →
     ∃ wk bk,
       (store "NUM_ITERATIONS" (VInt NUM_ITERATIONS) ;;;
        for_each (take k (py_range 0 NUM_ITERATIONS)) animation_body) w = (Ok tt, wk) ∧
       (k = 100%nat → animation_loop w = (Ok tt, wk)) ∧
       w_globals wk !! "board" = Some (VRef bk) ∧
       read_board (w_heap wk) bk = Some (Nat.iter k life_step B) ∧
       w_out wk
       = w_out w ++ flat_map (λ m : nat, refresh_events (w_heap w) l lattrs dattrs
                                           (Nat.iter (S m) life_step B)) (seq 0 k)).
Proof.
  destruct w as [h g r c o]. cbn [w_heap w_globals w_out].
  intros Hk Hboard HB HR.
  assert (take 100 (py_range 1 101) = py_range 1 101) as Etext by (by vm_compute).
  assert (take 100 (py_range 0 NUM_ITERATIONS) = py_range 0 NUM_ITERATIONS) as Eanim
    by (by vm_compute).
  split.
  { intros [h1 g1 r1 c1 o1] b1 B1 HB1 HR1. simpl in HB1.
    eexists _, _. split; [by apply LifeRuns.process_life_run|].
    cbn [w_heap]. apply read_next_board. by destruct (life_step_dims B1). }
  split.
  { destruct (text_loop_run k 1 h g r c o b B Hboard HB HR)
      as (h' & g' & r' & c' & b' & E & Hboard' & HB').
    rewrite <- (py_range_take 1 100 k Hk) in E.
    change (1 + Z.of_nat 100) with 101 in E.
    eexists _, b'. split; [exact E|]. split; [|by cbn [w_heap w_globals w_out]].
    intros ->. unfold text_demo_loop. rewrite <- Etext. exact E. }
  intros l d lattrs dattrs Hlayer Hr Hpurple Hpink Hl Hd.
  apply lookup_lt_Some in Hl as Hllt.
  edestruct (animation_loop_run h l d dattrs k Hllt 0 h
               (<["NUM_ITERATIONS" := VInt NUM_ITERATIONS]> g) r c o b B lattrs)
    as (h' & g' & r' & c' & b' & E & Hboard' & HB');
    try (by rewrite lookup_insert_ne by done); try done.
  rewrite <- (py_range_take 0 100 k Hk) in E.
  change (0 + Z.of_nat 100) with NUM_ITERATIONS in E.
  assert ((store "NUM_ITERATIONS" (VInt NUM_ITERATIONS) ;;;
           for_each (take k (py_range 0 NUM_ITERATIONS)) animation_body)
            (World h g r c o)
          = (Ok tt, World h' g' r' c'
                      (o ++ flat_map (λ m : nat, refresh_events h l lattrs dattrs
                                                   (Nat.iter (S m) life_step B))
                                     (seq 0 k)))) as E'.
  { erewrite bind_Ok by (unfold store; reflexivity). simpl_world. exact E. }
  eexists _, b'. split; [exact E'|]. split; [|by cbn [w_heap w_globals w_out]].
  intros ->. unfold animation_loop. rewrite <- Eanim. exact E'.
Qed.

Lemma animation_loops_sequential_witness :
  (∃ wk bk,
     for_each (take 2 (py_range 1 101)) text_demo_body demo_world = (Ok tt, wk) ∧
     w_globals wk !! "board" = Some (VRef bk) ∧
     read_board (w_heap wk) bk = Some (Nat.iter 2 life_step blinker) ∧
     w_out wk
     = w_out demo_world
       ++ flat_map (λ m : nat, text_events (1 + Z.of_nat m)
                                 (Nat.iter (S m) life_step blinker))
                   (seq 0 2)) ∧
  (∃ wk bk,
     (store "NUM_ITERATIONS" (VInt NUM_ITERATIONS) ;;;
      for_each (take 2 (py_range 0 NUM_ITERATIONS)) animation_body) demo_world
     = (Ok tt, wk) ∧
     w_globals wk !! "board" = Some (VRef bk) ∧
     read_board (w_heap wk) bk = Some (Nat.iter 2 life_step blinker) ∧
     w_out wk
     = w_out demo_world
       ++ flat_map (λ m : nat, refresh_events (w_heap demo_world) 4%nat
                                 demo_layer_attrs demo_deck_attrs
                                 (Nat.iter (S m) life_step blinker))
                   (seq 0 2)).
Proof.
  destruct (animation_loops_sequential 2 demo_world 3%nat blinker)
    as (_ & Htext & Hanim).
  - lia.
  - reflexivity.
  - reflexivity.
  - by_decide.
  - split.
    + destruct Htext as (wk & bk & E & _ & Hrest).
      exists wk, bk. split; [exact E|exact Hrest].
    + destruct (Hanim 4%nat 5%nat demo_layer_attrs demo_deck_attrs)
        as (wk & bk & E & _ & Hrest); [reflexivity..|].
      exists wk, bk. split; [exact E|exact Hrest].
Defined.

(** C9. An update is rendered by changing the existing configuration objects
    in place and then calling the refresh: one round of the animation loop
    rebinds the attribute [data] of the layer object that already exists and
    calls [r.update()]; the update cells of the Introduction do the same with
    [elevation_range].  No other attribute of the layer changes, the deck and
    every other instance stay as they were, and no instance is constructed. *)
Theorem update_in_place (w : world) (l d : loc) (lattrs dattrs : gmap string pyval) :
  w_globals w !! "layer" = Some (VRef l) → w_globals w !! "r" = Some (VRef d) →
  w_heap w !! l = Some (ObjInstance "Layer" lattrs) →
  w_heap w !! d = Some (ObjInstance "Deck" dattrs) →
  (∀ (i : Z) (b : loc) (B : list (list Z)),
     w_globals w !! "board" = Some (VRef b) →
     read_board (w_heap w) b = Some B → rectangular B →
     w_globals w !! "PURPLE" = Some PURPLE → w_globals w !! "PINK" = Some PINK →
     ∃ w',
       animation_body i w = (Ok tt, w') ∧
       w_heap w' !! l
       = Some (ObjInstance "Layer" (<["data" := board_records (life_step B)]> lattrs)) ∧
       w_heap w' !! d = Some (ObjInstance "Deck" dattrs) ∧
       (∀ l', l' ≠ l → inst (w_heap w') l' = inst (w_heap w) l') ∧
       w_globals w' !! "layer" = Some (VRef l) ∧
       w_globals w' !! "r" = Some (VRef d) ∧
       w_out w' = w_out w ++ [Refreshed (deck_json (w_heap w') dattrs);
                              Slept (VDec 1 (-1))]) ∧
  (∃ w',
     Intro.update_cell w = (Ok tt, w') ∧
     w_heap w'
     = <[l := ObjInstance "Layer"
                (<["elevation_range" := VList [VInt 0; VInt 1000]]> lattrs)]> (w_heap w) ∧
     w_globals w' = w_globals w ∧
     w_out w' = w_out w ++ [Refreshed (deck_json (w_heap w') dattrs)]) ∧
  (∀ i : Z, ∃ w',
     Intro.update_body i w = (Ok tt, w') ∧
     w_heap w'
     = <[l := ObjInstance "Layer"
                (<["elevation_range" := VList [VInt 0; VInt i]]> lattrs)]> (w_heap w) ∧
     w_globals w' = <["i" := VInt i]> (w_globals w) ∧
     w_out w' = w_out w ++ [Refreshed (deck_json (w_heap w') dattrs);
                            Slept (VDec 1 (-1))]) ∧
  (∀ (name : string) (v : pyval) (other : string),
     other ≠ name → (<[name := v]> lattrs) !! other = lattrs !! other) ∧
  (∀ (h : list pyobj) (o : pyobj) (l' : loc),
     l' ≠ l → (<[l := o]> h) !! l' = h !! l' ∧ length (<[l := o]> h) = length h).
Proof.
  destruct w as [h g r c o]. simpl. intros Hlayer Hr Hl Hd.
  assert (l ≠ d) as Hld by (intros ->; congruence).
  apply lookup_lt_Some in Hl as Hllt.
  split; [|split; [|split; [|split]]].
  - intros i b B Hboard HB HR Hpurple Hpink.
    eexists. split; [by eapply animation_body_run|]. simpl_world.
    assert (l < length (next_heap h (height B) (life_step B)))%nat as Hl1
      by (rewrite next_heap_length; lia).
    split; [by apply list_lookup_insert_eq|].
    split; [rewrite list_lookup_insert_ne by done; by apply next_heap_old|].
    split.
    { intros l' Hne. rewrite inst_insert by done.
      rewrite decide_False by done. apply inst_next_heap. }
    split; [by rewrite !lookup_insert_ne by done|].
    split; [by rewrite !lookup_insert_ne by done|done].
  - eexists. split.
    + unfold Intro.update_cell.
      step_with ltac:(by apply load_Some). step_with ltac:(reflexivity).
      step_with ltac:(by eapply setattr_run).
      step_with ltac:(by apply load_Some). step_with ltac:(reflexivity).
      eapply update_run. by rewrite list_lookup_insert_ne.
    + by simpl_world.
  - intros i. eexists. split.
    + unfold Intro.update_body.
      step_prim.
      step_with ltac:(apply load_Some; by rewrite lookup_insert_ne).
      step_with ltac:(reflexivity).
      step_with ltac:(apply load_Some; by rewrite lookup_insert_eq).
      step_with ltac:(by eapply setattr_run).
      step_with ltac:(apply load_Some; by rewrite lookup_insert_ne).
      step_with ltac:(reflexivity).
      erewrite bind_Ok by (eapply update_run; by rewrite list_lookup_insert_ne).
      unfold sleep, emit. simpl_world. reflexivity.
    + simpl_world. by rewrite <- (assoc_L (++)).
  - intros name v other Hne. by apply lookup_insert_ne.
  - intros h' o' l' Hne. split; [by apply list_lookup_insert_ne|apply length_insert].
Qed.

Lemma update_in_place_witness :
  (∃ w',
     animation_body 0 demo_world = (Ok tt, w') ∧
     w_heap w' !! 4%nat
     = Some (ObjInstance "Layer"
               (<["data" := board_records (life_step blinker)]>
                  demo_layer_attrs)) ∧
     w_heap w' !! 5%nat = Some (ObjInstance "Deck" demo_deck_attrs) ∧
     (∀ l', l' ≠ 4%nat → inst (w_heap w') l' = inst (w_heap demo_world) l') ∧
     w_globals w' !! "layer" = Some (VRef 4%nat) ∧
     w_globals w' !! "r" = Some (VRef 5%nat) ∧
     w_out w' = w_out demo_world ++ [Refreshed (deck_json (w_heap w') demo_deck_attrs);
                                     Slept (VDec 1 (-1))]) ∧
  (∃ w',
     Intro.update_cell demo_world = (Ok tt, w') ∧
     w_heap w'
     = <[4%nat := ObjInstance "Layer"
                    (<["elevation_range" := VList [VInt 0; VInt 1000]]> demo_layer_attrs)]>
         (w_heap demo_world) ∧
     w_globals w' = w_globals demo_world ∧
     w_out w' = w_out demo_world ++ [Refreshed (deck_json (w_heap w') demo_deck_attrs)]).
Proof.
  destruct (update_in_place demo_world 4%nat 5%nat demo_layer_attrs demo_deck_attrs)
    as (Hanim & Hcell & _).
  - reflexivity.
  - reflexivity.
  - reflexivity.
  - reflexivity.
  - split; [|exact Hcell].
    apply (Hanim 0 3%nat blinker);
      [reflexivity|reflexivity|by_decide|reflexivity|reflexivity].
Defined.

(** C10. The JSON that a deck sends to the widget is an object with the keys
    [initialViewState], [layers] and [views]; [layers] is a list with one
    descriptor per layer, and the descriptor of a layer object holds its type
    tag together with one entry for each of its other attributes. *)
Theorem deck_json_shape (w : world) (d : loc) (cls : string)
    (attrs : gmap string pyval) :
  w_heap w !! d = Some (ObjInstance cls attrs) →
  ∃ ivs ls vs,
    to_json d w
    = (Ok (VDict [("initialViewState", ivs); ("layers", ls); ("views", vs)]), w) ∧
    (show d w).2
    = set_out (w_out w ++ [Shown (VDict [("initialViewState", ivs); ("layers", ls);
                                        ("views", vs)])]) w ∧
    (update d w).2
    = set_out (w_out w ++ [Refreshed (VDict [("initialViewState", ivs); ("layers", ls);
                                           ("views", vs)])]) w ∧
    (∀ layers, attrs !! "layers" = Some (VList layers) →
       ∃ descs, ls = VList descs ∧ length descs = length layers ∧
         ∀ (i : nat) (l : loc) lcls lattrs,
           layers !! i = Some (VRef l) →
           w_heap w !! l = Some (ObjInstance lcls lattrs) →
           ∃ props, descs !! i = Some (VDict props) ∧
             (∀ ty, lattrs !! "type" = Some (VStr ty) → ("type", VStr ty) ∈ props) ∧
             (∀ name, name ∈ props.*1 ↔ is_Some (lattrs !! name))).
Proof.
  destruct w as [h g r c o]. intros Hd.
  cbn [w_heap w_out] in *. unfold set_out. cbn [w_heap w_globals w_rng w_calls w_out].
  exists (json_of json_depth h (attr attrs "initial_view_state")),
         (json_of json_depth h (attr attrs "layers")),
         (json_of json_depth h (attr attrs "views")).
  split; [|split; [|split]].
  - unfold to_json. cbn [w_heap]. by rewrite Hd.
  - by rewrite (show_run h g r c o d cls attrs Hd).
  - by rewrite (update_run h g r c o d cls attrs Hd).
  - intros layers Elayers. unfold attr. rewrite Elayers.
    change (default VNone (Some (VList layers))) with (VList layers).
    unfold json_depth. rewrite json_of_list.
    eexists. split; [reflexivity|]. split; [by rewrite length_map|].
    intros i l lcls lattrs Ei El.
    eexists. split.
    { change (map ?f ?l) with (f <$> l). rewrite list_lookup_fmap, Ei.
      cbn [fmap option_fmap option_map]. by rewrite (json_of_ref _ _ _ _ _ El). }
    split.
    + intros ty Ety. apply list_elem_of_In, in_map_iff.
      exists ("type", VStr ty). split; [done|].
      apply list_elem_of_In. by apply elem_of_map_to_list.
    + intros name. change (map ?f ?l) with (f <$> l).
      rewrite <- list_fmap_compose. split.
      * intros Hin. apply list_elem_of_fmap in Hin as ([k v] & -> & Hin).
        apply elem_of_map_to_list in Hin. by exists v.
      * intros [v Ev]. apply list_elem_of_fmap. exists (name, v).
        split; [done|]. by apply elem_of_map_to_list.
Qed.

Lemma deck_json_shape_witness :
  ∃ ivs ls vs,
    to_json 5%nat demo_world
    = (Ok (VDict [("initialViewState", ivs); ("layers", ls); ("views", vs)]),
       demo_world) ∧
    ∃ descs props, ls = VList descs ∧ length descs = 1%nat ∧
      descs !! 0%nat = Some (VDict props) ∧
      ("type", VStr "PointCloudLayer") ∈ props ∧
      (∀ name, name ∈ props.*1 ↔ is_Some (demo_layer_attrs !! name)).
Proof.
  destruct (deck_json_shape demo_world 5%nat "Deck" demo_deck_attrs)
    as (ivs & ls & vs & Ejson & _ & _ & Hlayers).
  - reflexivity.
  - exists ivs, ls, vs. split; [exact Ejson|].
    destruct (Hlayers [VRef 4%nat]) as (descs & -> & Hlen & Hdesc); [reflexivity|].
    destruct (Hdesc 0%nat 4%nat "Layer" demo_layer_attrs)
      as (props & Eprops & Htype & Hnames); [reflexivity..|].
    exists descs, props. split; [reflexivity|]. split; [exact Hlen|].
    split; [exact Eprops|]. split; [apply Htype; reflexivity|exact Hnames].
Defined.

(** The JSON that the last cell of the Introduction shows. *)
Example attributes_cell_json :
  w_out ((Intro.attributes_cell ;;; Intro.show_cell) (World [] ∅ (Rng (λ n, n) 0) [] [])).2
  = [Shown (VDict
      [("initialViewState",
        VDict [("min_zoom", VInt 5); ("max_zoom", VInt 15); ("zoom", VDec 66 (-1));
               ("bearing", VDec (-27396) (-3)); ("longitude", VDec (-1415) (-3));
               ("latitude", VDec 522323 (-4)); ("pitch", VDec 405 (-1))]);
       ("layers",
        VList [VDict
          [("coverage", VInt 1); ("elevation_scale", VInt 50);
           ("elevation_range", VList [VInt 0; VInt 3000]);
           ("extruded", VBool true);
           ("light_settings",
            VDict [("ambient_ratio", VDec 7 (-1));
                   ("lights_position",
                    VList [VDec (-144528) (-6); VDec 49739968 (-6); VInt 8000;
                           VDec (-3807751) (-6); VDec 54104682 (-6); VInt 10000]);
                   ("diffuse_ratio", VDec 6 (-1))]);
           ("type", VStr "HexagonLayer");
           ("data", Intro.UK_ACCIDENTS_DATA)]]);
       ("views", VList [VDict [("controller", VBool true); ("type", VStr "MapView")]])])].
Proof. by vm_compute. Qed.

End NotebookClaims.

(** * Further properties

    Lemmas for the properties X1 to X17, which cover the parts of the two
    notebooks that C1 to C10 leave out. *)

(** ** Fresh boards *)

Section new_board_exact.
Context (g : gmap string pyval) (o : list effect).

Lemma random_choice_exact h r c choices :
  choices ≠ [] →
  random_choice choices (World h g r c o)
  = (Ok (drawn choices (draws r (used r))),
     World h g (Rng (draws r) (S (used r))) c o).
Proof.
  intros Hne. unfold random_choice, drawn. simpl.
  destruct (lookup_lt_is_Some_2 choices (draws r (used r) mod length choices)%nat)
    as [v Ev].
  { apply Nat.mod_upper_bound. by destruct choices. }
  by rewrite Ev.
Qed.

Lemma random_cells_exact h d c choices (xs : list Z) u :
  choices ≠ [] ∨ xs = [] →
  list_comp xs (λ _, random_choice choices) (World h g (Rng d u) c o)
  = (Ok (map (λ i : nat, drawn choices (d (u + i)%nat)) (seq 0 (length xs))),
     World h g (Rng d (u + length xs)%nat) c o).
Proof.
  intros [Hne| ->]; [|simpl; by rewrite Nat.add_0_r].
  revert u. induction xs as [|x xs IH]; intros u.
  - simpl. by rewrite Nat.add_0_r.
  - cbn [list_comp length]. erewrite bind_Ok by (by apply random_choice_exact).
    cbn [draws used]. erewrite bind_Ok by apply IH. unfold ret.
    cbn [seq map]. rewrite <- seq_shift, map_map, Nat.add_0_r.
    replace (u + S (length xs))%nat with (S u + length xs)%nat by lia.
    do 3 f_equal. apply map_ext. intros i. do 2 f_equal. lia.
Qed.

Lemma new_board_rows_exact h d c wd choices (ys : list Z) :
  choices ≠ [] ∨ wd = 0%nat →
  ∀ k NB u, length NB = k →
  for_each ys (λ _,
    cells <- list_comp (py_range 0 (Z.of_nat wd)) (λ _, random_choice choices) ;;
    row <- alloc (ObjRow cells) ;;
    append_board (length h) row)
    (World (next_heap h k NB) g (Rng d u) c o)
  = (Ok tt, World (next_heap h (k + length ys)
                     (NB ++ random_board choices d u wd (length ys))) g
                  (Rng d (u + length ys * wd)%nat) c o).
Proof.
  intros Hne. induction ys as [|y ys IH]; intros k NB u HL.
  - unfold random_board. simpl. by rewrite !Nat.add_0_r, (right_id_L [] (++)).
  - cbn [for_each length].
    erewrite bind_Ok.
    2:{ erewrite bind_Ok.
        2:{ apply random_cells_exact. destruct Hne as [Hne| ->]; [by left|by right]. }
        erewrite bind_Ok by reflexivity.
        unfold append_board. simpl.
        rewrite (lookup_app_l_Some _ _ _ _ (next_heap_board h k NB)).
        unfold set_heap. simpl.
        rewrite (next_heap_append h k NB _ HL). reflexivity. }
    rewrite (IH (S k)) by (rewrite length_app; simpl; lia).
    rewrite py_range_0, length_map, length_seq.
    unfold random_board. cbn [seq map].
    rewrite <- seq_shift, map_map, <- (assoc_L (++)). cbn [app].
    replace (S k + length ys)%nat with (k + S (length ys))%nat by lia.
    replace (u + wd + length ys * wd)%nat with (u + S (length ys) * wd)%nat by lia.
    do 5 f_equal.
    + apply map_ext. intros i. do 2 f_equal. lia.
    + apply map_ext. intros j. apply map_ext. intros i. do 2 f_equal. lia.
Qed.

Lemma new_board_exact h r c (wd ht : nat) live dead :
  pool live dead ≠ [] ∨ wd = 0%nat ∨ ht = 0%nat →
  Life.new_board (Z.of_nat wd) (Z.of_nat ht) live dead (World h g r c o)
  = (Ok (length h),
     World (next_heap h ht (random_board (pool live dead) (draws r) (used r) wd ht)) g
           (Rng (draws r) (used r + ht * wd)%nat) c o).
Proof.
  intros Hne. unfold Life.new_board.
  erewrite bind_Ok by reflexivity. simpl_world.
  destruct r as [d u]. cbn [draws used].
  destruct Hne as [Hne|[Hne| ->]].
  - erewrite bind_Ok.
    2:{ apply (new_board_rows_exact h d c wd (pool live dead)
                 (py_range 0 (Z.of_nat ht)) (or_introl Hne) 0%nat [] u eq_refl). }
    by rewrite py_range_0, length_map, length_seq.
  - erewrite bind_Ok.
    2:{ apply (new_board_rows_exact h d c wd (pool live dead)
                 (py_range 0 (Z.of_nat ht)) (or_intror Hne) 0%nat [] u eq_refl). }
    by rewrite py_range_0, length_map, length_seq.
  - unfold random_board, next_heap. simpl. by rewrite Nat.add_0_r.
Qed.

End new_board_exact.

Lemma py_range_nat (y : Z) : py_range 0 y = map Z.of_nat (seq 0 (Z.to_nat y)).
Proof. unfold py_range. rewrite Z.sub_0_r. apply map_ext. intros; lia. Qed.

Lemma new_board_clip x y live dead :
  Life.new_board x y live dead
  = Life.new_board (Z.of_nat (Z.to_nat x)) (Z.of_nat (Z.to_nat y)) live dead.
Proof. unfold Life.new_board. by rewrite !py_range_nat, !Nat2Z.id. Qed.

Lemma pool_length live dead :
  length (pool live dead) = (Z.to_nat dead + Z.to_nat live)%nat.
Proof. unfold pool, py_repeat. by rewrite length_app, !length_replicate. Qed.

Lemma pool_nonempty live dead : 0 < live ∨ 0 < dead → pool live dead ≠ [].
Proof.
  intros H E. apply (f_equal length) in E. rewrite pool_length in E. simpl in E. lia.
Qed.

Lemma pool_empty live dead : live ≤ 0 → dead ≤ 0 → pool live dead = [].
Proof.
  intros Hl Hd. unfold pool, py_repeat.
  by rewrite (Z2Nat.nonpos live), (Z2Nat.nonpos dead) by done.
Qed.

Lemma drawn_pool live dead n :
  0 < live ∨ 0 < dead →
  drawn (pool live dead) n
  = if decide (n mod (Z.to_nat dead + Z.to_nat live) < Z.to_nat dead)%nat then 0 else 1.
Proof.
  intros H. unfold drawn. rewrite pool_length.
  assert (n mod (Z.to_nat dead + Z.to_nat live)
          < Z.to_nat dead + Z.to_nat live)%nat as Hlt
    by (apply Nat.mod_upper_bound; lia).
  unfold pool, py_repeat. case_decide as Hd.
  - by rewrite lookup_app_l, lookup_replicate_2 by (rewrite ?length_replicate; lia).
  - rewrite lookup_app_r, length_replicate by (rewrite length_replicate; lia).
    by rewrite lookup_replicate_2 by lia.
Qed.

Lemma random_board_dims choices d u wd ht :
  dims (random_board choices d u wd ht) ht wd.
Proof.
  unfold random_board. split; [by rewrite length_map, length_seq|].
  apply Forall_forall. intros row Hrow.
  apply list_elem_of_In, in_map_iff in Hrow as (j & <- & _).
  by rewrite length_map, length_seq.
Qed.

Lemma random_board_cell_at choices d u wd ht (i j : nat) :
  (i < wd)%nat → (j < ht)%nat →
  cell_at (random_board choices d u wd ht) i j
  = Some (drawn choices (d (u + j * wd + i)%nat)).
Proof.
  intros Hi Hj. unfold cell_at, random_board.
  change (map ?f ?l) with (f <$> l).
  rewrite list_lookup_fmap, lookup_seq_lt by done. simpl.
  by rewrite list_lookup_fmap, lookup_seq_lt by done.
Qed.

Lemma random_board_binary live dead d u wd ht :
  0 < live ∨ 0 < dead → binary (random_board (pool live dead) d u wd ht).
Proof.
  intros Hpool. unfold random_board.
  apply Forall_forall. intros row Hrow.
  apply list_elem_of_In, in_map_iff in Hrow as (j & <- & _).
  apply Forall_forall. intros v Hv.
  apply list_elem_of_In, in_map_iff in Hv as (i & <- & _).
  rewrite drawn_pool by done. case_decide; auto.
Qed.

Lemma random_board_rectangular choices d u wd ht :
  (0 < wd)%nat → (0 < ht)%nat → rectangular (random_board choices d u wd ht).
Proof.
  intros Hw Hh.
  by destruct (dims_rectangular _ _ _ (random_board_dims choices d u wd ht) Hh Hw).
Qed.

(** ** [get] and [assign] on a board of any shape *)

Lemma setitem_row_out h g r c o l cells i v :
  h !! l = Some (ObjRow cells) → 0 ≤ i → cells !! Z.to_nat i = None →
  setitem_row l i v (World h g r c o) = (Raise IndexError, World h g r c o).
Proof.
  intros E Hi En. unfold setitem_row. simpl. rewrite E.
  apply lookup_ge_None_1 in En.
  destruct (py_index (length cells) i) as [k|] eqn:Ek; [|done].
  unfold py_index in Ek.
  destruct ((0 <=? i) && (i <? Z.of_nat (length cells))) eqn:E1.
  - apply andb_true_iff in E1 as [_ E1]. apply Z.ltb_lt in E1. lia.
  - destruct ((i <? 0) && (- Z.of_nat (length cells) <=? i)) eqn:E2; [|done].
    apply andb_true_iff in E2 as [E2 _]. apply Z.ltb_lt in E2. lia.
Qed.

Lemma get_result_cases B x y :
  match get_result B x y with
  | Ok c =>
      B ≠ [] ∧ (0 < width B)%nat ∧
      ∃ row, B !! Z.to_nat (y mod Z.of_nat (height B)) = Some row ∧
             row !! Z.to_nat (x mod Z.of_nat (width B)) = Some c
  | Raise e =>
      (e = ZeroDivisionError ∧ (B = [] ∨ width B = 0%nat)) ∨
      (e = IndexError ∧ B ≠ [] ∧ (0 < width B)%nat ∧
       ∃ row, B !! Z.to_nat (y mod Z.of_nat (height B)) = Some row ∧
              (length row ≤ Z.to_nat (x mod Z.of_nat (width B)))%nat)
  end.
Proof.
  unfold get_result.
  destruct (Z.eqb_spec (Z.of_nat (height B)) 0) as [H0|H0].
  { left. split; [done|]. left. destruct B; [done|]. simpl in H0. lia. }
  assert (B ≠ []) as Hne by (intros ->; simpl in H0; lia).
  assert (0 ≤ y mod Z.of_nat (height B) < Z.of_nat (height B)) as Hy
    by (apply Z.mod_pos_bound; lia).
  destruct (lookup_lt_is_Some_2 B (Z.to_nat (y mod Z.of_nat (height B))))
    as [row Erow]; [unfold height in *; lia|].
  rewrite Erow.
  destruct (Z.eqb_spec (Z.of_nat (width B)) 0) as [W0|W0].
  { left. split; [done|]. right. lia. }
  destruct (row !! Z.to_nat (x mod Z.of_nat (width B))) as [v|] eqn:Ev.
  - split; [done|]. split; [lia|]. by exists row.
  - right. split; [done|]. split; [done|]. split; [lia|].
    exists row. split; [done|]. by apply lookup_ge_None_1.
Qed.

Section assign_any.
Context (h : list pyobj) (g : gmap string pyval) (o : list effect).
Context (b : loc) (rows : list loc) (B : list (list Z)).
Context (Hb : board_at h b rows B).

Lemma board_at_read : read_board h b = Some B.
Proof. apply read_board_Some. by exists rows. Qed.

Lemma assign_run_any r c x y v :
  match get_result B x y with
  | Ok _ =>
      ∃ l row,
        rows !! Z.to_nat (y mod Z.of_nat (height B)) = Some l ∧
        B !! Z.to_nat (y mod Z.of_nat (height B)) = Some row ∧
        Life.assign b x y v (World h g r c o)
        = (Ok tt,
           World (<[l := ObjRow (<[Z.to_nat (x mod Z.of_nat (width B)) := v]> row)]> h)
                 g r (c ++ [CallAssign b x y v]) o)
  | Raise e =>
      Life.assign b x y v (World h g r c o)
      = (Raise e, World h g r (c ++ [CallAssign b x y v]) o)
  end.
Proof.
  destruct Hb as [Eb HF].
  pose proof (Forall2_length _ _ _ HF) as Hlen.
  unfold Life.assign, get_result, height.
  erewrite bind_Ok by reflexivity. simpl_world.
  erewrite bind_Ok by (by apply py_len_board). rewrite Hlen.
  destruct (Z.eqb_spec (Z.of_nat (length B)) 0) as [H0|H0].
  { erewrite bind_Raise; [done|]. unfold py_mod. by rewrite H0. }
  assert (0 ≤ y mod Z.of_nat (length B) < Z.of_nat (length B)) as Hy
    by (apply Z.mod_pos_bound; lia).
  destruct (lookup_lt_is_Some_2 B (Z.to_nat (y mod Z.of_nat (length B))))
    as [row Erow]; [lia|].
  destruct (Forall2_lookup_r _ _ _ _ _ HF Erow) as (l & El & Hl).
  destruct (lookup_lt_is_Some_2 B 0%nat) as [row0 Erow0]; [lia|].
  destruct (Forall2_lookup_r _ _ _ _ _ HF Erow0) as (l0 & El0 & Hl0).
  rewrite Erow, (width_head B row0 Erow0).
  erewrite bind_Ok by (apply py_mod_ok; lia).
  erewrite bind_Ok by (eapply getitem_board_ok; [done|lia|done]).
  erewrite bind_Ok by (eapply getitem_board_ok; [done|lia|done]).
  erewrite bind_Ok by (by apply py_len_row).
  destruct (Z.eqb_spec (Z.of_nat (length row0)) 0) as [W0|W0].
  { erewrite bind_Raise; [done|]. unfold py_mod. by rewrite W0. }
  assert (0 ≤ x mod Z.of_nat (length row0)) as Hx
    by (apply Z.mod_pos_bound; lia).
  erewrite bind_Ok by (apply py_mod_ok; lia).
  destruct (row !! Z.to_nat (x mod Z.of_nat (length row0))) as [v0|] eqn:Ev.
  - exists l, row. split; [done|]. split; [done|].
    apply lookup_lt_Some in Ev.
    by erewrite setitem_row_ok by (done || lia).
  - by eapply setitem_row_out.
Qed.

End assign_any.

Lemma board_at_assign h b rows B l row k v :
  board_at h b rows B → h !! l = Some (ObjRow row) →
  board_at (<[l := ObjRow (<[k := v]> row)]> h) b rows
           (rows_after rows B l (<[k := v]> row)).
Proof.
  intros [Eb HF] El. split.
  - rewrite list_lookup_insert_ne; [done|]. intros ->. congruence.
  - apply Forall2_same_length_lookup. split.
    { unfold rows_after. rewrite length_zip_with.
      apply Forall2_length in HF. lia. }
    intros i li rowi Eli Erowi. unfold rows_after in Erowi.
    apply lookup_zip_with_Some in Erowi as (li' & rowi' & -> & Eli' & Erowi').
    simplify_eq. case_decide as Heq.
    + subst. apply list_lookup_insert_eq. by eapply lookup_lt_Some.
    + rewrite list_lookup_insert_ne by done.
      exact (Forall2_lookup_lr _ _ _ _ _ _ HF Eli Erowi').
Qed.

Lemma rows_after_lengths (h : list pyobj) rows B l row new_row :
  Forall2 (λ l row, h !! l = Some (ObjRow row)) rows B →
  h !! l = Some (ObjRow row) → length new_row = length row →
  length <$> rows_after rows B l new_row = length <$> B.
Proof.
  intros HF El Hlen. unfold rows_after.
  induction HF as [|li rowi rows B Eli _ IH]; [done|].
  simpl. f_equal; [|done]. case_decide; [|done]. subst. congruence.
Qed.

Lemma rows_after_lookup rows B l new_row i rowi :
  length rows = length B →
  rows !! i = Some l → B !! i = Some rowi →
  rows_after rows B l new_row !! i = Some new_row.
Proof.
  intros Hlen El Erow. unfold rows_after.
  apply lookup_zip_with_Some. exists l, rowi. by rewrite decide_True.
Qed.

Lemma rows_after_lookup_ne rows B l new_row i li :
  rows !! i = Some li → li ≠ l →
  rows_after rows B l new_row !! i = B !! i.
Proof.
  intros Eli Hne. unfold rows_after. rewrite lookup_zip_with, Eli. simpl.
  destruct (B !! i); [|done]. simpl. by rewrite decide_False.
Qed.

Lemma width_lengths B1 B2 : length <$> B1 = length <$> B2 → width B1 = width B2.
Proof. destruct B1, B2; simpl; congruence. Qed.

Lemma height_lengths B1 B2 : length <$> B1 = length <$> B2 → height B1 = height B2.
Proof. intros E. apply (f_equal length) in E. by rewrite !length_fmap in E. Qed.

(** ** One generation on a board whose rows are long enough *)

Lemma get_result_wide B x y :
  B ≠ [] → (0 < width B)%nat → Forall (λ row, (width B ≤ length row)%nat) B →
  get_result B x y = Ok (cell B x y).
Proof.
  intros Hne HW Hlong. pose proof (get_result_cases B x y) as HC.
  destruct (get_result B x y) as [c|e].
  - destruct HC as (_ & _ & row & Erow & Ec).
    unfold cell, cell_opt. rewrite Erow. simpl. by rewrite Ec.
  - destruct HC as [[_ [?|?]]|(_ & _ & _ & row & Erow & Hlen)]; [done|lia|].
    rewrite Forall_lookup in Hlong. specialize (Hlong _ _ Erow).
    assert (0 ≤ x mod Z.of_nat (width B) < Z.of_nat (width B))
      by (apply Z.mod_pos_bound; lia).
    lia.
Qed.

Section wide.
Context (B : list (list Z)) (b nb : loc).
Context (Hne : B ≠ []) (HW : (0 < width B)%nat).
Context (Hlong : Forall (λ row, (width B ≤ length row)%nat) B).

Lemma gets_result_wide ps :
  gets_result B b ps
  = (Ok (map (λ p, cell B p.1 p.2) ps), map (λ p, CallGet b p.1 p.2) ps).
Proof.
  induction ps as [|p ps IH]; [done|].
  cbn [gets_result map]. rewrite get_result_wide by done. by rewrite IH.
Qed.

Lemma count_result_wide x y :
  count_result B b x y = (Ok (neighbour_sum B x y), count_calls b x y).
Proof.
  unfold count_result. rewrite gets_result_wide.
  unfold neighbour_sum, neighbour_cells, count_calls, neighbour_args, neighbour_offsets.
  cbn [map fst snd]. repeat (f_equal; try lia).
Qed.

Lemma cell_result_wide x y :
  cell_result B b x y
  = (Ok (next_cell B x y), count_calls b x y ++ [CallGet b x y]).
Proof.
  unfold cell_result. rewrite count_result_wide, get_result_wide by done. done.
Qed.

Lemma row_result_wide y xs :
  (row_result B b nb y xs).1.1 = Ok tt ∧
  (row_result B b nb y xs).1.2
  = map (λ x : nat, ((x mod width B)%nat, y, next_cell B (Z.of_nat x) (Z.of_nat y))) xs.
Proof.
  induction xs as [|x xs [IH1 IH2]]; [done|].
  cbn [row_result map]. rewrite cell_result_wide.
  destruct (row_result B b nb y xs) as [[res ws] cs]. cbn [fst snd] in *.
  by rewrite IH1, IH2.
Qed.
End wide.

Lemma board_result_steppable B b nb ys :
  steppable B → Forall (λ y, y < height B)%nat ys →
  (board_result B b nb ys).1.1 = Ok tt ∧
  Forall (λ w : nat * nat * Z, w.2 = next_cell B (Z.of_nat w.1.1) (Z.of_nat w.1.2))
         (board_result B b nb ys).1.2.
Proof.
  intros (Hne & Hlong & Hempty). induction 1 as [|y ys Hy _ [IH1 IH2]]; [done|].
  cbn [board_result].
  assert ((row_result B b nb y (seq 0 (length (default [] (B !! y))))).1.1 = Ok tt ∧
          Forall (λ w : nat * nat * Z,
                    w.2 = next_cell B (Z.of_nat w.1.1) (Z.of_nat w.1.2))
                 (row_result B b nb y (seq 0 (length (default [] (B !! y))))).1.2)
    as [Hrow1 Hrow2].
  { destruct (decide (width B = 0)%nat) as [W0|W0].
    - destruct (lookup_lt_is_Some_2 B y) as [row Erow]; [done|].
      specialize (Hempty W0). rewrite Forall_lookup in Hempty.
      rewrite Erow, (Hempty _ _ Erow). by simpl.
    - destruct (row_result_wide B b nb Hne ltac:(lia) Hlong y
                  (seq 0 (length (default [] (B !! y))))) as [E1 E2].
      split; [done|]. rewrite E2. apply Forall_forall.
      intros w Hw. apply list_elem_of_In, in_map_iff in Hw as (x & <- & _).
      cbn [fst snd]. rewrite Nat2Z.inj_mod.
      rewrite <- (next_cell_wrap B (Z.of_nat x) (Z.of_nat y)).
      by rewrite (Z.mod_small (Z.of_nat y)) by lia. }
  destruct (row_result B b nb y (seq 0 (length (default [] (B !! y)))))
    as [[[[]|e] ws] cs]; [|done].
  destruct (board_result B b nb ys) as [[res ws'] cs']. cbn [fst snd] in *.
  split; [done|]. by apply Forall_app.
Qed.

Lemma last_write_Some ws j y v :
  last_write ws j y = Some v → (j, y, v) ∈ ws.
Proof.
  induction ws as [|[[x y0] v0] ws IH]; [done|].
  cbn [last_write fst snd].
  destruct (last_write ws j y) as [v'|].
  - intros [= ->]. right. by apply IH.
  - case_decide as Heq; [|done]. intros [= ->]. destruct Heq as [-> ->]. by left.
Qed.

Lemma cell_at_life_step B (j y : nat) :
  (j < width B)%nat → (y < height B)%nat →
  cell_at (life_step B) j y = Some (next_cell B (Z.of_nat j) (Z.of_nat y)).
Proof.
  intros Hj Hy. destruct (life_step_lookup B j y Hj Hy) as (row & Erow & Ec).
  unfold cell_at. by rewrite Erow.
Qed.

(** The writes of a generation that runs to the end leave the next
    generation on the scratch board, whatever was on it. *)
Lemma apply_writes_life_step B b nb R :
  steppable B → dims R (height B) (width B) →
  apply_writes (board_result B b nb (seq 0 (height B))).1.2 R = life_step B.
Proof.
  intros HS HD.
  destruct (board_result_steppable B b nb (seq 0 (height B)) HS) as [Hok Hval].
  { apply Forall_forall. intros y Hy. apply list_elem_of_In, in_seq in Hy. lia. }
  destruct (board_result_covers B b nb Hok) as [Hrange Hcover].
  apply (matrix_eq _ _ (height B) (width B));
    [by apply apply_writes_dims|apply life_step_dims|].
  intros j y Hj Hy.
  rewrite (apply_writes_cell_at _ (height B) (width B)) by done.
  destruct (Hcover j y Hj Hy) as [v Hv].
  destruct (last_write_elem _ j y v Hv) as [v' Ev']. rewrite Ev'.
  apply last_write_Some in Ev'. rewrite Forall_forall in Hval.
  specialize (Hval _ Ev'). cbn [fst snd] in Hval. subst v'.
  by rewrite cell_at_life_step.
Qed.

(** ** Where a generation stops *)

Lemma gets_result_Raise B b ps e :
  (gets_result B b ps).1 = Raise e → ∃ p, p ∈ ps ∧ get_result B p.1 p.2 = Raise e.
Proof.
  induction ps as [|p ps IH]; [done|]. cbn [gets_result].
  destruct (get_result B p.1 p.2) as [v|e'] eqn:Ep.
  - destruct (gets_result B b ps) as [[vs|e'] cs]; [done|].
    intros [= ->]. destruct (IH eq_refl) as (q & Hq & Eq).
    exists q. split; [by right|done].
  - intros [= ->]. exists p. split; [by left|done].
Qed.

Lemma cell_result_Raise B b x y e :
  (cell_result B b x y).1 = Raise e → ∃ x' y', get_result B x' y' = Raise e.
Proof.
  unfold cell_result, count_result.
  destruct (gets_result B b (neighbour_args x y)) as [[vs|e'] cs] eqn:Eg.
  - destruct (get_result B x y) as [c|e'] eqn:Ec; [done|].
    intros [= ->]. eauto.
  - intros [= ->].
    destruct (gets_result_Raise B b (neighbour_args x y) e) as (p & _ & Ep);
      [by rewrite Eg|]. eauto.
Qed.

Lemma row_result_Raise B b nb y xs e :
  (row_result B b nb y xs).1.1 = Raise e → ∃ x' y', get_result B x' y' = Raise e.
Proof.
  induction xs as [|x xs IH]; [done|]. cbn [row_result].
  destruct (cell_result B b (Z.of_nat x) (Z.of_nat y)) as [[v|e'] cs] eqn:Ec.
  - destruct (row_result B b nb y xs) as [[res ws] cs']. cbn [fst snd] in *. done.
  - cbn [fst snd]. intros [= ->].
    apply (cell_result_Raise B b (Z.of_nat x) (Z.of_nat y)). by rewrite Ec.
Qed.

Lemma board_result_Raise B b nb ys e :
  (board_result B b nb ys).1.1 = Raise e → ∃ x' y', get_result B x' y' = Raise e.
Proof.
  induction ys as [|y ys IH]; [done|]. cbn [board_result].
  destruct (row_result B b nb y (seq 0 (length (default [] (B !! y)))))
    as [[[[]|e'] ws] cs] eqn:Er.
  - destruct (board_result B b nb ys) as [[res ws'] cs']. cbn [fst snd] in *. done.
  - cbn [fst snd]. intros [= ->].
    apply (row_result_Raise B b nb y (seq 0 (length (default [] (B !! y))))).
    by rewrite Er.
Qed.

(** A generation that runs to the end has found no row shorter than the
    first one, and no cell at all when the first row is empty. *)
Lemma board_result_Ok_steppable B b nb :
  B ≠ [] → (board_result B b nb (seq 0 (height B))).1.1 = Ok tt → steppable B.
Proof.
  intros Hne E.
  destruct (board_result_Ok B b nb (seq 0 (height B)) E) as [_ Hin].
  { apply Forall_forall. intros y Hy. apply list_elem_of_In, in_seq in Hy. lia. }
  assert (∀ y x, (y < height B)%nat → (x < length (default [] (B !! y)))%nat →
                 (0 < width B)%nat ∧
                 ∃ u, get_result B (Z.of_nat x) (Z.of_nat y + 1) = Ok u) as Hcell.
  { intros y x Hy Hx. destruct (Hin y x) as (v & cs & Ec & _).
    { apply list_elem_of_In, in_seq. lia. } { done. }
    apply cell_result_Ok in Ec as (_ & HW & Hu). done. }
  assert (∀ y, (y < height B)%nat →
               (width B ≤ length (default [] (B !! y)))%nat) as Hlong.
  { induction y as [|y IHy]; intros Hy.
    - destruct B as [|row0 B']; [done|]. by simpl.
    - specialize (IHy ltac:(lia)).
      destruct (decide (width B = 0)%nat) as [->|HW]; [lia|].
      destruct (Hcell y (width B - 1)%nat) as (_ & u & Eu); [lia..|].
      pose proof (get_result_cases B (Z.of_nat (width B - 1)) (Z.of_nat y + 1)) as HC.
      rewrite Eu in HC. destruct HC as (_ & _ & row & Erow & Ec).
      rewrite Z.mod_small in Erow by (unfold height in *; lia).
      rewrite Z.mod_small in Ec by lia.
      replace (Z.to_nat (Z.of_nat y + 1)) with (S y) in Erow by lia.
      apply lookup_lt_Some in Ec. rewrite Erow. cbn [default from_option id]. lia. }
  split; [done|]. split.
  - apply Forall_lookup. intros y row Erow.
    specialize (Hlong y (lookup_lt_Some _ _ _ Erow)). by rewrite Erow in Hlong.
  - intros W0. apply Forall_lookup. intros y row Erow.
    destruct row as [|c row]; [done|].
    destruct (Hcell y 0%nat (lookup_lt_Some _ _ _ Erow)) as [HW _];
      [rewrite Erow; simpl; lia|lia].
Qed.

(** ** Moving the board on the torus *)

Lemma shift_board_dims dx dy B : dims (shift_board dx dy B) (height B) (width B).
Proof.
  unfold shift_board. split; [by rewrite length_map, length_seq|].
  apply Forall_forall. intros row Hrow.
  apply list_elem_of_In, in_map_iff in Hrow as (y & <- & _).
  by rewrite length_map, length_seq.
Qed.

Lemma cell_dims_lookup ht wd (f : nat → nat → Z) x y :
  (0 < ht)%nat → (0 < wd)%nat →
  cell (map (λ j : nat, map (λ i : nat, f i j) (seq 0 wd)) (seq 0 ht)) x y
  = f (Z.to_nat (x mod Z.of_nat wd)) (Z.to_nat (y mod Z.of_nat ht)).
Proof.
  intros HH HW. unfold cell, cell_opt, height, width.
  rewrite length_map, length_seq.
  assert (0 ≤ y mod Z.of_nat ht < Z.of_nat ht) as Hy by (apply Z.mod_pos_bound; lia).
  assert (0 ≤ x mod Z.of_nat wd < Z.of_nat wd) as Hx by (apply Z.mod_pos_bound; lia).
  destruct ht as [|ht]; [lia|]. cbn [seq map]. rewrite length_map, length_seq.
  change (?a :: map ?g ?l) with (map g (0%nat :: l)).
  change (0%nat :: seq 1 ht) with (seq 0 (S ht)).
  change (map ?g ?l) with (g <$> l).
  rewrite list_lookup_fmap, lookup_seq_lt by lia. simpl.
  rewrite list_lookup_fmap, lookup_seq_lt by lia. done.
Qed.

Lemma cell_shift_board dx dy B x y :
  rectangular B → cell (shift_board dx dy B) x y = cell B (x + dx) (y + dy).
Proof.
  intros (HH & HW & _). unfold shift_board.
  rewrite (cell_dims_lookup (height B) (width B)
             (λ i j, cell B (Z.of_nat i + dx) (Z.of_nat j + dy))) by done.
  assert (0 ≤ y mod Z.of_nat (height B)) by (apply Z.mod_pos_bound; lia).
  assert (0 ≤ x mod Z.of_nat (width B)) by (apply Z.mod_pos_bound; lia).
  rewrite !Z2Nat.id by lia. apply cell_shift.
Qed.

Lemma shift_board_rectangular dx dy B :
  rectangular B →
  rectangular (shift_board dx dy B) ∧
  height (shift_board dx dy B) = height B ∧ width (shift_board dx dy B) = width B.
Proof.
  intros (HH & HW & _). by apply dims_rectangular; [apply shift_board_dims|..].
Qed.

Lemma next_cell_shift_board dx dy B x y :
  rectangular B → next_cell (shift_board dx dy B) x y = next_cell B (x + dx) (y + dy).
Proof.
  intros HR. unfold next_cell, neighbour_sum, neighbour_cells.
  rewrite cell_shift_board by done. do 2 f_equal.
  apply map_ext. intros d. rewrite cell_shift_board by done. f_equal; lia.
Qed.

Lemma life_step_shift_board dx dy B :
  rectangular B →
  life_step (shift_board dx dy B) = shift_board dx dy (life_step B).
Proof.
  intros HR. destruct (shift_board_rectangular dx dy B HR) as (_ & EH & EW).
  pose proof HR as (HH & HW & _).
  destruct (dims_rectangular _ _ _ (life_step_dims B) HH HW) as (_ & EH' & EW').
  assert (life_step (shift_board dx dy B)
          = map (λ y : nat,
                   map (λ x : nat, next_cell (shift_board dx dy B) (Z.of_nat x) (Z.of_nat y))
                       (seq 0 (width B))) (seq 0 (height B))) as ->.
  { unfold life_step, step_row. by rewrite EH, EW. }
  assert (shift_board dx dy (life_step B)
          = map (λ y : nat,
                   map (λ x : nat, cell (life_step B) (Z.of_nat x + dx) (Z.of_nat y + dy))
                       (seq 0 (width B))) (seq 0 (height B))) as ->.
  { unfold shift_board. by rewrite EH', EW'. }
  apply map_ext. intros y. apply map_ext. intros x.
  by rewrite next_cell_shift_board, cell_life_step.
Qed.

(** ** Boards without a live cell, and boards without a dead one *)

Lemma map_const_replicate {A} (c : A) n s :
  map (λ _ : nat, c) (seq s n) = replicate n c.
Proof. revert s. induction n as [|n IH]; intros s; simpl; [done|]. by rewrite IH. Qed.

Lemma cell_uniform B c x y :
  rectangular B → Forall (Forall (λ v, v = c)) B → cell B x y = c.
Proof.
  intros HR Hall. pose proof (cell_opt_Some B x y HR) as E. unfold cell.
  unfold cell_opt in *.
  destruct (B !! Z.to_nat (y mod Z.of_nat (height B))) as [row|] eqn:Erow; [|done].
  simpl in *. rewrite Forall_lookup in Hall. specialize (Hall _ _ Erow).
  rewrite Forall_lookup in Hall.
  destruct (row !! Z.to_nat (x mod Z.of_nat (width B))) as [v|] eqn:Ev; [|done].
  simpl. by eapply Hall.
Qed.

Lemma life_step_uniform B c :
  rectangular B → c = 0 ∨ c = 1 → Forall (Forall (λ v, v = c)) B →
  life_step B = replicate (height B) (replicate (width B) 0).
Proof.
  intros HR Hc Hall. unfold life_step, step_row.
  rewrite <- (map_const_replicate (replicate (width B) 0) (height B) 0).
  apply map_ext. intros y.
  rewrite <- (map_const_replicate 0 (width B) 0).
  apply map_ext. intros x.
  unfold next_cell, neighbour_sum, neighbour_cells, neighbour_offsets. cbn [map].
  rewrite !(cell_uniform B c) by done.
  destruct Hc as [-> | ->]; reflexivity.
Qed.

(** ** What is drawn and what is recorded *)

Lemma count_printed_app s out1 out2 :
  count_printed s (out1 ++ out2) = (count_printed s out1 + count_printed s out2)%nat.
Proof. unfold count_printed. by rewrite filter_app, length_app. Qed.

Lemma count_printed_row (row : list Z) :
  count_printed "*" (map (λ col, Printed (if col =? 1 then "*" else "-")) row)
  = length (filter (λ c, c = 1) row) ∧
  count_printed newline (map (λ col, Printed (if col =? 1 then "*" else "-")) row)
  = 0%nat.
Proof.
  unfold count_printed. induction row as [|col row [IH1 IH2]]; [done|].
  cbn [map]. rewrite !filter_cons.
  destruct (Z.eqb_spec col 1) as [->|Hne].
  - rewrite decide_True by (by vm_compute). rewrite decide_True by done.
    rewrite decide_False by (by vm_compute). simpl. by rewrite IH1, IH2.
  - rewrite decide_False by (by vm_compute). rewrite decide_False by done.
    rewrite decide_False by (by vm_compute). by rewrite IH1, IH2.
Qed.

Lemma count_printed_drawing B :
  count_printed "*" (drawing B) = live_cells B ∧
  count_printed newline (drawing B) = height B ∧
  length (drawing B) = (length (concat B) + height B)%nat.
Proof.
  unfold live_cells, drawing. induction B as [|row B (IH1 & IH2 & IH3)]; [done|].
  cbn [flat_map concat height length].
  rewrite !count_printed_app, !length_app, filter_app, length_app, length_map.
  destruct (count_printed_row row) as [-> ->].
  rewrite IH1, IH2, IH3. unfold height.
  assert (count_printed "*" [Printed newline] = 0%nat) as -> by (by vm_compute).
  assert (count_printed newline [Printed newline] = 1%nat) as -> by (by vm_compute).
  simpl. split; [lia|]. split; lia.
Qed.

Lemma records_of_with g other purple pink position B :
  g !! "PURPLE" = Some purple → g !! other = Some pink →
  records_of g other position B = Some (records_with purple pink position B).
Proof.
  intros Epurple Epink. unfold records_of, records_with.
  rewrite (mapM_fmap_total _
             (λ x : nat, map (λ y : nat,
                [position (Z.of_nat x) (Z.of_nat y);
                 if negb (cell B (Z.of_nat x) (Z.of_nat y) =? 0)
                 then purple else pink]) (seq 0 (height B)))).
  - simpl. by rewrite flat_map_concat_map.
  - intros x _. apply mapM_fmap_total. intros y _. unfold cell_record.
    destruct (negb _); [rewrite Epurple|rewrite Epink]; done.
Qed.

Lemma lookup_flat_map_const {A C} (k : A → list C) (l : list A) n (x y : nat) a :
  (∀ a, length (k a) = n) → l !! x = Some a → (y < n)%nat →
  flat_map k l !! (x * n + y)%nat = k a !! y.
Proof.
  intros Hk. revert x. induction l as [|a0 l IH]; intros x Ex Hy; [done|].
  cbn [flat_map]. destruct x as [|x].
  - injection Ex as ->. rewrite lookup_app_l; [done|]. rewrite Hk. lia.
  - rewrite lookup_app_r by (rewrite Hk; lia). rewrite Hk.
    replace (S x * n + y - n)%nat with (x * n + y)%nat by lia. by apply IH.
Qed.

(** ** Records of a board of any shape *)

Lemma mapR_Ok {A C} (f : A → result C) (l : list A) vs :
  mapR f l = Ok vs → Forall2 (λ a v, f a = Ok v) l vs.
Proof.
  revert vs. induction l as [|a l IH]; intros vs.
  - intros [= <-]. constructor.
  - cbn [mapR]. destruct (f a) as [v|e] eqn:Ea; [|done].
    destruct (mapR f l) as [vs'|e]; [|done]. intros [= <-].
    constructor; [done|]. by apply IH.
Qed.

Lemma mapR_Raise {A C} (f : A → result C) (l : list A) e :
  mapR f l = Raise e → ∃ a, a ∈ l ∧ f a = Raise e.
Proof.
  induction l as [|a l IH]; [done|]. cbn [mapR].
  destruct (f a) as [v|e'] eqn:Ea.
  - destruct (mapR f l) as [vs'|e']; [done|]. intros [= ->].
    destruct (IH eq_refl) as (a' & Ha' & Ea'). exists a'. split; [by right|done].
  - intros [= ->]. exists a. split; [by left|done].
Qed.

Lemma mapR_total {A C} (f : A → result C) (k : A → C) (l : list A) :
  (∀ a, a ∈ l → f a = Ok (k a)) → mapR f l = Ok (map k l).
Proof.
  induction l as [|a l IH]; intros Hf; [done|]. cbn [mapR map].
  rewrite Hf by (by left). rewrite IH; [done|]. intros a' Ha'. apply Hf. by right.
Qed.

Section convert_any.
Context (h : list pyobj) (g : gmap string pyval) (r : rng)
        (c : list call) (o : list effect).
Context (other : string) (position : Z → Z → pyval).
Context (b : loc) (B : list (list Z)).
Context (HB : read_board h b = Some B).

Lemma convert_column_any (x : nat) (ys : list nat) :
  Forall (λ y, y < height B)%nat ys →
  ∀ rows,
  for_fold (map Z.of_nat ys) rows (λ y rows,
    row <- getitem_board b y ;;
    c <- getitem_row row (Z.of_nat x) ;;
    color <- (if negb (c =? 0) then load "PURPLE" else load other) ;;
    ret (rows ++ [[position (Z.of_nat x) y; color]]))
    (World h g r c o)
  = (match mapR (record_result g other position B x) ys with
     | Ok recs => Ok (rows ++ recs)
     | Raise e => Raise e
     end, World h g r c o).
Proof.
  induction ys as [|y ys IH]; intros Hys rows.
  - simpl. by rewrite (right_id_L [] (++)).
  - apply Forall_cons in Hys as [Hy Hys]. cbn [map for_fold mapR].
    pose proof HB as HB0. apply read_board_Some in HB0 as (lrows & Eb & HF).
    destruct (lookup_lt_is_Some_2 B y) as [row Erow]; [done|].
    destruct (Forall2_lookup_r _ _ _ _ _ HF Erow) as (l & El & Hl).
    unfold record_result at 1. rewrite Erow.
    destruct (row !! x) as [v|] eqn:Ev.
    + apply lookup_lt_Some in Ev as Hx.
      destruct ((if negb (v =? 0) then g !! "PURPLE" else g !! other)) as [color|] eqn:Ecol.
      * erewrite bind_Ok.
        2:{ erewrite bind_Ok
              by (eapply getitem_board_ok; [done|lia|by rewrite Nat2Z.id]).
            erewrite bind_Ok
              by (eapply getitem_row_ok; [done|lia|by rewrite Nat2Z.id]).
            erewrite bind_Ok by (rewrite load_color, Ecol; reflexivity).
            reflexivity. }
        rewrite IH by done.
        destruct (mapR _ ys); [|done]. by rewrite <- (assoc_L (++)).
      * erewrite bind_Raise; [done|].
        erewrite bind_Ok
          by (eapply getitem_board_ok; [done|lia|by rewrite Nat2Z.id]).
        erewrite bind_Ok
          by (eapply getitem_row_ok; [done|lia|by rewrite Nat2Z.id]).
        erewrite bind_Raise; [done|].
        rewrite load_color, Ecol; reflexivity.
    + erewrite bind_Raise; [done|].
      erewrite bind_Ok
        by (eapply getitem_board_ok; [done|lia|by rewrite Nat2Z.id]).
      erewrite bind_Raise; [done|].
      eapply getitem_row_out; [done|lia|by rewrite Nat2Z.id].
Qed.

Lemma convert_columns_any (xs : list nat) :
  ∀ rows,
  for_fold (map Z.of_nat xs) rows (λ x rows,
    ht <- py_len b ;;
    for_fold (py_range 0 ht) rows (λ y rows,
      row <- getitem_board b y ;;
      c <- getitem_row row x ;;
      color <- (if negb (c =? 0) then load "PURPLE" else load other) ;;
      ret (rows ++ [[position x y; color]])))
    (World h g r c o)
  = (match mapR (λ x, mapR (record_result g other position B x) (seq 0 (height B))) xs with
     | Ok rss => Ok (rows ++ concat rss)
     | Raise e => Raise e
     end, World h g r c o).
Proof.
  induction xs as [|x xs IH]; intros rows.
  - simpl. by rewrite (right_id_L [] (++)).
  - cbn [map for_fold mapR].
    pose proof HB as HB0. apply read_board_Some in HB0 as (lrows & Eb & HF).
    pose proof (Forall2_length _ _ _ HF) as Hlen.
    assert (Forall (λ y, y < height B)%nat (seq 0 (height B))) as Hseq.
    { apply Forall_forall. intros y Hy. apply list_elem_of_In, in_seq in Hy. lia. }
    pose proof (convert_column_any x (seq 0 (height B)) Hseq rows) as Ecol.
    destruct (mapR (record_result g other position B x) (seq 0 (height B)))
      as [recs|e] eqn:Erecs.
    + erewrite bind_Ok.
      2:{ erewrite bind_Ok by (by apply py_len_board).
          rewrite Hlen. fold (height B). rewrite py_range_0. exact Ecol. }
      rewrite IH.
      destruct (mapR _ xs); [|done]. cbn [concat]. by rewrite <- (assoc_L (++)).
    + erewrite bind_Raise; [done|].
      erewrite bind_Ok by (by apply py_len_board).
      rewrite Hlen. fold (height B). rewrite py_range_0. exact Ecol.
Qed.

Lemma convert_with_any :
  convert_with other position b (World h g r c o)
  = (convert_result g other position B, World h g r c o).
Proof.
  pose proof HB as HB0. apply read_board_Some in HB0 as (lrows & Eb & HF).
  unfold convert_with, convert_result.
  destruct (decide (length B = 0)%nat) as [H0|H0].
  { destruct B; [|done]. apply Forall2_nil_inv_r in HF as ->.
    erewrite bind_Raise; [done|]. unfold getitem_board. simpl. by rewrite Eb. }
  destruct (lookup_lt_is_Some_2 B 0%nat) as [row0' Erow0]; [lia|].
  destruct (Forall2_lookup_r _ _ _ _ _ HF Erow0) as (l0 & El0 & Hl0).
  pose proof (convert_columns_any (seq 0 (width B)) []) as Ecols.
  erewrite bind_Ok
    by (eapply getitem_board_ok; [done|apply Forall2_length in HF; lia|done]).
  erewrite bind_Ok by (by apply py_len_row).
  rewrite <- (width_head B row0' Erow0), py_range_0.
  destruct (mapR _ (seq 0 (width B))) as [rss|e].
  - erewrite bind_Ok by exact Ecols. by destruct B.
  - erewrite bind_Raise by exact Ecols. by destruct B.
Qed.

End convert_any.

Lemma cell_in_wide B (x y : nat) row v :
  B !! y = Some row → row !! x = Some v → (x < width B)%nat →
  cell B (Z.of_nat x) (Z.of_nat y) = v.
Proof.
  intros Erow Ev Hx. unfold cell, cell_opt.
  apply lookup_lt_Some in Erow as Hy. unfold height.
  rewrite !Z.mod_small by lia. rewrite !Nat2Z.id, Erow. simpl. by rewrite Ev.
Qed.

Lemma convert_result_Ok g other position B recs :
  convert_result g other position B = Ok recs →
  B ≠ [] ∧ Forall (λ row, (width B ≤ length row)%nat) B.
Proof.
  unfold convert_result. destruct B as [|row0 B'] eqn:EB; [done|].
  rewrite <- EB. intros E. split; [by rewrite EB|].
  destruct (mapR _ (seq 0 (width B))) as [rss|e] eqn:Ecols; [|done].
  apply Forall_lookup. intros y row Erow.
  destruct (decide (width B = 0)%nat) as [->|HW]; [lia|].
  apply mapR_Ok in Ecols.
  destruct (Forall2_lookup_l _ _ _ (width B - 1)%nat (width B - 1)%nat Ecols)
    as (rs & _ & Ecol); [apply lookup_seq_lt; lia|].
  apply mapR_Ok in Ecol.
  destruct (Forall2_lookup_l _ _ _ y y Ecol) as (rec & _ & Erec);
    [apply lookup_seq_lt; by eapply lookup_lt_Some|].
  unfold record_result in Erec. rewrite Erow in Erec.
  destruct (row !! (width B - 1)%nat) as [v|] eqn:Ev; [|done].
  apply lookup_lt_Some in Ev. lia.
Qed.

Lemma convert_result_Raise g other position B e :
  convert_result g other position B = Raise e →
  (e = IndexError ∧ (B = [] ∨ Exists (λ row, (length row < width B)%nat) B)) ∨
  (e = NameError ∧ (g !! "PURPLE" = None ∨ g !! other = None)).
Proof.
  unfold convert_result. destruct B as [|row0 B'] eqn:EB; [intros [= <-]; left; auto|].
  rewrite <- EB.
  destruct (mapR _ (seq 0 (width B))) as [rss|e'] eqn:Ecols; [done|]. intros [= ->].
  apply mapR_Raise in Ecols as (x & Hx & Ecol).
  apply mapR_Raise in Ecol as (y & Hy & Erec).
  apply list_elem_of_In, in_seq in Hx. apply list_elem_of_In, in_seq in Hy.
  unfold record_result in Erec.
  destruct (lookup_lt_is_Some_2 B y) as [row Erow]; [unfold height in *; lia|].
  rewrite Erow in Erec.
  destruct (row !! x) as [v|] eqn:Ev.
  - right. destruct (negb (v =? 0)).
    + destruct (g !! "PURPLE"); [done|]. injection Erec as <-. auto.
    + destruct (g !! other); [done|]. injection Erec as <-. auto.
  - left. injection Erec as <-. split; [done|]. right.
    apply Exists_exists. exists row. split; [by eapply list_elem_of_lookup_2|].
    apply lookup_ge_None_1 in Ev. lia.
Qed.

Lemma convert_result_wide g other purple pink position B :
  g !! "PURPLE" = Some purple → g !! other = Some pink →
  B ≠ [] → Forall (λ row, (width B ≤ length row)%nat) B →
  convert_result g other position B = Ok (records_with purple pink position B).
Proof.
  intros Epurple Epink Hne Hlong. unfold convert_result, records_with.
  destruct B as [|row0 B'] eqn:EB; [done|]. rewrite <- EB in *.
  rewrite (mapR_total _
             (λ x : nat, map (λ y : nat,
                [position (Z.of_nat x) (Z.of_nat y);
                 if negb (cell B (Z.of_nat x) (Z.of_nat y) =? 0)
                 then purple else pink]) (seq 0 (height B)))).
  - by rewrite flat_map_concat_map.
  - intros x Hx. apply list_elem_of_In, in_seq in Hx.
    apply mapR_total. intros y Hy. apply list_elem_of_In, in_seq in Hy.
    unfold record_result.
    destruct (lookup_lt_is_Some_2 B y) as [row Erow]; [unfold height in *; lia|].
    rewrite Erow. rewrite Forall_lookup in Hlong. specialize (Hlong _ _ Erow).
    destruct (lookup_lt_is_Some_2 row x) as [v Ev]; [lia|]. rewrite Ev.
    rewrite (cell_in_wide B x y row v Erow Ev) by lia.
    destruct (negb _); [rewrite Epurple|rewrite Epink]; done.
Qed.

Lemma records_with_length purple pink position B recs :
  records_with purple pink position B = VList recs →
  length recs = (width B * height B)%nat.
Proof.
  unfold records_with, to_records. intros [= <-]. rewrite length_map.
  rewrite (length_flat_map_const _ _ (height B)); [by rewrite length_seq|].
  intros x. by rewrite length_map, length_seq.
Qed.

(** ** The first pydeck cell *)

Lemma alloc_run h g r c o obj :
  alloc obj (World h g r c o) = (Ok (length h), World (h ++ [obj]) g r c o).
Proof. reflexivity. Qed.

Lemma pydeck_cell_run h g r c o :
  let B0 := random_board (pool 2 3) (draws r) (used r) 30 30 in
  let h1 := next_heap h 30 B0 in
  let l := length h1 in
  let lattrs := cloud_layer_attrs (board_records B0) in
  let dattrs := cloud_deck_attrs l (S l) in
  let hf := h1 ++ [ObjInstance "Layer" lattrs]
               ++ [ObjInstance "ViewState"
                     (list_to_map [("latitude", VDec 1 (-2)); ("longitude", VDec 1 (-2));
                                   ("zoom", VInt 13); ("bearing", VInt 44);
                                   ("pitch", VInt 45)])]
               ++ [ObjInstance "Deck" dattrs] in
  Conway.pydeck_cell (World h g r c o)
  = (Ok tt,
     World hf
       (<["r" := VRef (S (S l))]>
          (<["view_state" := VRef (S l)]>
             (<["layer" := VRef l]>
                (<["records" := board_records B0]>
                   (<["board" := VRef (length h)]>
                      (<["PURPLE" := Conway.PURPLE]> (<["PINK" := Conway.PINK]> g)))))))
       (Rng (draws r) (used r + 30 * 30)%nat) c
       (o ++ [Shown (Pydeck.deck_json hf dattrs)])).
Proof.
  intros B0 h1 l lattrs dattrs hf.
  assert (read_board h1 (length h) = Some B0) as HB0.
  { apply read_next_board.
    by destruct (random_board_dims (pool 2 3) (draws r) (used r) 30 30). }
  assert (rectangular B0) as HR0 by (apply random_board_rectangular; lia).
  unfold Conway.pydeck_cell.
  do 2 step_prim.
  erewrite bind_Ok.
  2:{ change 30 with (Z.of_nat 30). apply new_board_exact.
      left. by apply pool_nonempty; left. }
  fold B0. fold h1.
  step_prim.
  step_with ltac:(apply load_Some; by rewrite lookup_insert_eq).
  step_with ltac:(reflexivity).
  erewrite bind_Ok.
  2:{ rewrite convert_board_to_df_with.
      erewrite convert_with_run; [|exact HB0|exact HR0].
      rewrite records_of_board; [reflexivity| |];
        by rewrite !lookup_insert_ne, ?lookup_insert_eq by done. }
  step_prim.
  step_with ltac:(apply load_Some; by rewrite lookup_insert_eq).
  erewrite bind_Ok by (unfold Pydeck.Layer, Pydeck.new_object; apply alloc_run).
  fold l. fold (cloud_layer_attrs (board_records B0)). fold lattrs.
  step_prim.
  erewrite bind_Ok by (unfold Pydeck.ViewState, Pydeck.new_object; apply alloc_run).
  rewrite length_app. cbn [length]. fold l. rewrite Nat.add_1_r.
  step_prim.
  step_with ltac:(apply load_Some; by rewrite lookup_insert_ne, lookup_insert_eq).
  step_with ltac:(apply load_Some; by rewrite lookup_insert_eq).
  erewrite bind_Ok by (unfold Pydeck.Deck, Pydeck.new_object; apply alloc_run).
  rewrite !length_app. cbn [length]. fold l. rewrite !Nat.add_1_r.
  fold (cloud_deck_attrs l (S l)). fold dattrs.
  step_prim.
  step_with ltac:(apply load_Some; by rewrite lookup_insert_eq).
  step_with ltac:(reflexivity).
  rewrite <- !(assoc_L (++)). fold hf.
  eapply show_run.
  unfold hf. rewrite !(assoc_L (++)).
  rewrite lookup_app_r by (rewrite !length_app; simpl; fold l; lia).
  rewrite !length_app. cbn [length]. fold l.
  by replace (S (S l) - (l + 1 + 1))%nat with 0%nat by lia.
Qed.

(** ** The cell that stacks the iterations *)

Lemma records_of_unbound g other position B (x y : nat) :
  rectangular B → (x < width B)%nat → (y < height B)%nat →
  g !! other = None → cell B (Z.of_nat x) (Z.of_nat y) = 0 →
  records_of g other position B = None.
Proof.
  intros HR Hx Hy Enone Ecell. unfold records_of.
  assert (mapM (λ x, mapM (cell_record g other position B x) (seq 0 (height B)))
               (seq 0 (width B)) = None) as ->; [|done].
  apply mapM_None, Exists_exists. exists x.
  split; [apply list_elem_of_In, in_seq; lia|].
  apply mapM_None, Exists_exists. exists y.
  split; [apply list_elem_of_In, in_seq; lia|].
  unfold cell_record. rewrite Ecell. simpl. by rewrite Enone.
Qed.

Lemma binary_all_alive B :
  rectangular B → binary B →
  (∀ x y : nat, (x < width B)%nat → (y < height B)%nat →
                cell B (Z.of_nat x) (Z.of_nat y) ≠ 0) →
  Forall (Forall (λ v, v = 1)) B.
Proof.
  intros HR HBin Hall. apply Forall_lookup. intros y row Erow.
  apply Forall_lookup. intros x v Ev.
  pose proof (cell_in_range B x y row v HR Erow Ev) as Ecell.
  apply lookup_lt_Some in Erow as Hy. apply lookup_lt_Some in Ev as Hx.
  rewrite (rectangular_row _ _ _ HR Erow) in Hx.
  specialize (Hall x y Hx Hy). rewrite Ecell in Hall.
  unfold binary in HBin. rewrite Forall_lookup in HBin.
  specialize (HBin _ _ Erow). rewrite Forall_lookup in HBin.
  destruct (HBin _ _ Ev); [done|done].
Qed.

Lemma records_of_Some_alive g other position B recs :
  rectangular B → g !! other = None →
  records_of g other position B = Some recs →
  ∀ x y : nat, (x < width B)%nat → (y < height B)%nat →
               cell B (Z.of_nat x) (Z.of_nat y) ≠ 0.
Proof.
  intros HR Enone E x y Hx Hy Ecell.
  by rewrite (records_of_unbound g other position B x y) in E.
Qed.

(** ** The cell that stacks the iterations, with every name bound *)

Lemma stacked_records_length purple transparent iteration B :
  length (stacked_records purple transparent iteration B) = (width B * height B)%nat.
Proof.
  unfold stacked_records. rewrite length_map.
  rewrite (length_flat_map_const _ _ (height B)); [by rewrite length_seq|].
  intros x. by rewrite length_map, length_seq.
Qed.

Lemma convert_3d_run h g r c o b B iteration purple transparent :
  read_board h b = Some B → rectangular B →
  g !! "PURPLE" = Some purple → g !! "TRANSPARENT" = Some transparent →
  Conway.convert_board_to_df_3d b iteration (World h g r c o)
  = (Ok (VList (stacked_records purple transparent iteration B)), World h g r c o).
Proof.
  intros HB HR Epurple Etrans.
  rewrite convert_board_to_df_3d_with, (convert_with_run h g r c o _ _ b B HB HR).
  by rewrite (records_of_with g "TRANSPARENT" purple transparent) by done.
Qed.

(** ** The update loop of the Introduction *)

Section elevation.
Context (h0 : list pyobj) (r : rng) (c : list call).
Context (l d : loc) (lattrs dattrs : gmap string pyval).
Context (Hl : (l < length h0)%nat) (Hd : h0 !! d = Some (ObjInstance "Deck" dattrs)).
Context (Hld : l ≠ d).

Lemma update_body_run g o cur i :
  g !! "layer" = Some (VRef l) → g !! "r" = Some (VRef d) →
  Intro.update_body i (World (<[l := ObjInstance "Layer" cur]> h0) g r c o)
  = (Ok tt,
     World (<[l := ObjInstance "Layer" (<["elevation_range" := VList [VInt 0; VInt i]]> cur)]> h0)
           (<["i" := VInt i]> g) r c
           (o ++ [Refreshed (Pydeck.deck_json
                    (<[l := ObjInstance "Layer"
                              (<["elevation_range" := VList [VInt 0; VInt i]]> cur)]> h0)
                    dattrs);
                  Slept (VDec 1 (-1))])).
Proof.
  intros Hlayer Hr. unfold Intro.update_body.
  step_prim.
  step_with ltac:(apply load_Some; by rewrite lookup_insert_ne).
  step_with ltac:(reflexivity).
  step_with ltac:(apply load_Some; by rewrite lookup_insert_eq).
  step_with ltac:(eapply setattr_run; by apply list_lookup_insert_eq).
  rewrite list_insert_insert_eq.
  step_with ltac:(apply load_Some; by rewrite lookup_insert_ne).
  step_with ltac:(reflexivity).
  erewrite bind_Ok by (eapply update_run; by rewrite list_lookup_insert_ne).
  unfold sleep, emit. simpl_world. by rewrite <- (assoc_L (++)).
Qed.

Lemma update_rounds_run (rounds : list Z) :
  ∀ g o cur,
  g !! "layer" = Some (VRef l) → g !! "r" = Some (VRef d) →
  (∀ v, <["elevation_range" := v]> cur = <["elevation_range" := v]> lattrs) →
  for_each rounds Intro.update_body (World (<[l := ObjInstance "Layer" cur]> h0) g r c o)
  = (Ok tt,
     World (<[l := ObjInstance "Layer"
                  (match last rounds with
                   | Some i => <["elevation_range" := VList [VInt 0; VInt i]]> lattrs
                   | None => cur
                   end)]> h0)
           (match last rounds with Some i => <["i" := VInt i]> g | None => g end) r c
           (o ++ flat_map (elevation_events h0 l lattrs dattrs) rounds)).
Proof.
  induction rounds as [|i rounds IH]; intros g o cur Hlayer Hr Hcur.
  - simpl. by rewrite (right_id_L [] (++)).
  - cbn [for_each]. erewrite bind_Ok by (by apply update_body_run).
    rewrite IH; [|by rewrite lookup_insert_ne..|].
    2:{ intros v. by rewrite !insert_insert_eq. }
    cbn [flat_map]. unfold elevation_events at 2. rewrite Hcur.
    rewrite <- (assoc_L (++)). cbn [app].
    destruct rounds as [|i' rounds]; [done|].
    rewrite last_cons_cons.
    destruct (last (i' :: rounds)) as [j|] eqn:Elast.
    + by rewrite insert_insert_eq.
    + by apply last_None in Elast.
Qed.

End elevation.

(** ** The cells of the Introduction, one after the other *)

Lemma setup_cell_run h g r c o :
  let l := length h in
  let dattrs : gmap string pyval :=
    list_to_map [("layers", VList [VRef l]); ("initial_view_state", VRef (S l))] in
  let hf := h ++ [ObjInstance "Layer" hexagon_layer_attrs]
              ++ [ObjInstance "ViewState" uk_view_state_attrs]
              ++ [ObjInstance "Deck" dattrs] in
  Intro.setup_cell (World h g r c o)
  = (Ok tt,
     World hf
       (<["r" := VRef (S (S l))]>
          (<["view_state" := VRef (S l)]>
             (<["layer" := VRef l]>
                (<["UK_ACCIDENTS_DATA" := Intro.UK_ACCIDENTS_DATA]> g))))
       r c (o ++ [Shown (Pydeck.deck_json hf dattrs)])).
Proof.
  intros l dattrs hf. unfold Intro.setup_cell.
  step_prim.
  step_with ltac:(apply load_Some; by rewrite lookup_insert_eq).
  erewrite bind_Ok by (unfold Pydeck.Layer, Pydeck.new_object; apply alloc_run).
  fold l. fold hexagon_layer_attrs.
  step_prim.
  erewrite bind_Ok by (unfold Pydeck.ViewState, Pydeck.new_object; apply alloc_run).
  rewrite length_app. cbn [length]. fold l. rewrite Nat.add_1_r.
  fold uk_view_state_attrs.
  step_prim.
  step_with ltac:(apply load_Some; by rewrite lookup_insert_ne, lookup_insert_eq).
  step_with ltac:(apply load_Some; by rewrite lookup_insert_eq).
  erewrite bind_Ok by (unfold Pydeck.Deck, Pydeck.new_object; apply alloc_run).
  rewrite !length_app. cbn [length]. fold l. rewrite !Nat.add_1_r.
  fold dattrs.
  step_prim.
  step_with ltac:(apply load_Some; by rewrite lookup_insert_eq).
  step_with ltac:(reflexivity).
  rewrite <- !(assoc_L (++)). fold hf.
  eapply show_run.
  unfold hf. rewrite !(assoc_L (++)).
  rewrite lookup_app_r by (rewrite !length_app; simpl; fold l; lia).
  rewrite !length_app. cbn [length]. fold l.
  by replace (S (S l) - (l + 1 + 1))%nat with 0%nat by lia.
Qed.

Lemma update_cell_run h g r c o l d lattrs dattrs :
  g !! "layer" = Some (VRef l) → g !! "r" = Some (VRef d) →
  h !! l = Some (ObjInstance "Layer" lattrs) →
  h !! d = Some (ObjInstance "Deck" dattrs) →
  Intro.update_cell (World h g r c o)
  = (Ok tt,
     World (<[l := ObjInstance "Layer"
                  (<["elevation_range" := VList [VInt 0; VInt 1000]]> lattrs)]> h)
           g r c
           (o ++ [Refreshed (Pydeck.deck_json
                    (<[l := ObjInstance "Layer"
                              (<["elevation_range" := VList [VInt 0; VInt 1000]]> lattrs)]> h)
                    dattrs)])).
Proof.
  intros Hlayer Hr Hl Hd. assert (l ≠ d) as Hld by (intros ->; congruence).
  unfold Intro.update_cell.
  step_with ltac:(by apply load_Some). step_with ltac:(reflexivity).
  step_with ltac:(by eapply setattr_run).
  step_with ltac:(by apply load_Some). step_with ltac:(reflexivity).
  eapply update_run. by rewrite list_lookup_insert_ne.
Qed.

Lemma attributes_cell_run h g r c o :
  let l := length h in
  let lattrs := <["light_settings" := VRef (S l)]> hexagon_layer_attrs in
  let dattrs : gmap string pyval :=
    list_to_map [("layers", VList [VRef l]); ("initial_view_state", VRef (S (S l)));
                 ("views", VList [VRef (S (S (S l)))])] in
  let hf := h ++ [ObjInstance "Layer" lattrs]
              ++ [ObjInstance "LightSettings" uk_lights_attrs]
              ++ [ObjInstance "ViewState" uk_view_state_attrs]
              ++ [ObjInstance "View"
                    (list_to_map [("type", VStr "MapView"); ("controller", VBool true)])]
              ++ [ObjInstance "Deck" dattrs] in
  (Intro.attributes_cell ;;; Intro.show_cell) (World h g r c o)
  = (Ok tt,
     World hf
       (<["r" := VRef (S (S (S (S l))))]>
          (<["view" := VRef (S (S (S l)))]>
             (<["view_state" := VRef (S (S l))]>
                (<["lights" := VRef (S l)]>
                   (<["layer" := VRef l]> g)))))
       r c (o ++ [Shown (Pydeck.deck_json hf dattrs)])).
Proof.
  intros l lattrs dattrs hf. unfold Intro.attributes_cell.
  erewrite bind_Ok.
  2:{ erewrite bind_Ok by (unfold Pydeck.Layer, Pydeck.new_object; apply alloc_run).
      fold l. fold hexagon_layer_attrs.
      step_prim.
      erewrite bind_Ok
        by (unfold Pydeck.LightSettings, Pydeck.new_object; apply alloc_run).
      rewrite length_app. cbn [length]. fold l. rewrite Nat.add_1_r.
      fold uk_lights_attrs.
      step_prim.
      step_with ltac:(apply load_Some; by rewrite lookup_insert_ne, lookup_insert_eq).
      step_with ltac:(reflexivity).
      step_with ltac:(apply load_Some; by rewrite lookup_insert_eq).
      erewrite bind_Ok.
      2:{ eapply setattr_run. rewrite lookup_app_l by (rewrite length_app; simpl; lia).
          rewrite lookup_app_r by (fold l; lia). fold l. by rewrite Nat.sub_diag. }
      simpl_world.
      rewrite insert_app_l by (rewrite length_app; simpl; lia).
      rewrite insert_app_r_alt by (fold l; lia). fold l. rewrite Nat.sub_diag.
      cbn [insert list_insert]. fold lattrs.
      erewrite bind_Ok by (unfold Pydeck.ViewState, Pydeck.new_object; apply alloc_run).
      rewrite !length_app. cbn [length]. fold l. rewrite !Nat.add_1_r.
      fold uk_view_state_attrs.
      step_prim.
      erewrite bind_Ok by (unfold Pydeck.View, Pydeck.new_object; apply alloc_run).
      rewrite !length_app. cbn [length]. fold l. rewrite !Nat.add_1_r.
      step_prim.
      step_with ltac:(apply load_Some; by rewrite !lookup_insert_ne, ?lookup_insert_eq by done).
      step_with ltac:(apply load_Some; by rewrite !lookup_insert_ne, ?lookup_insert_eq by done).
      step_with ltac:(apply load_Some; by rewrite lookup_insert_eq).
      erewrite bind_Ok by (unfold Pydeck.Deck, Pydeck.new_object; apply alloc_run).
      rewrite !length_app. cbn [length]. fold l. rewrite !Nat.add_1_r.
      fold dattrs.
      unfold store. simpl_world. reflexivity. }
  unfold Intro.show_cell.
  step_with ltac:(apply load_Some; by rewrite lookup_insert_eq).
  step_with ltac:(reflexivity).
  rewrite <- !(assoc_L (++)). fold hf.
  eapply show_run.
  unfold hf. rewrite !(assoc_L (++)).
  rewrite lookup_app_r by (rewrite !length_app; simpl; fold l; lia).
  rewrite !length_app. cbn [length]. fold l.
  by replace (S (S (S (S l))) - (l + 1 + 1 + 1 + 1))%nat with 0%nat by lia.
Qed.

(** * Further properties of the Game of Life functions *)

Module LifeExtras.
Import Life Samples.

(** X1. [new_board(x, y, num_live_cells, num_dead_cells)] with at least one
    entry to choose from returns a new board object with [y] new, pairwise
    distinct row objects of [x] cells each, and leaves every object that was
    on the heap as it was.  It consumes [x * y] draws, row after row; the
    cell in column [i] of row [j] is dead exactly when its draw, taken
    modulo the number of entries, falls among the [num_dead_cells] first
    ones.  Negative sizes and counts are counted as zero. *)
Theorem new_board_fresh (w : world) (x y num_live_cells num_dead_cells : Z) :
  0 < num_live_cells ∨ 0 < num_dead_cells →
  ∃ nb w' rows R,
    new_board x y num_live_cells num_dead_cells w = (Ok nb, w') ∧
    w_heap w !! nb = None ∧
    w_heap w `prefix_of` w_heap w' ∧
    board_rows (w_heap w') nb = Some rows ∧
    NoDup rows ∧ (nb ∉ rows) ∧ Forall (λ l, w_heap w !! l = None) rows ∧
    read_board (w_heap w') nb = Some R ∧
    dims R (Z.to_nat y) (Z.to_nat x) ∧ binary R ∧
    (∀ i j : nat, (i < Z.to_nat x)%nat → (j < Z.to_nat y)%nat →
       cell_at R i j
       = Some (if decide (draws (w_rng w) (used (w_rng w) + j * Z.to_nat x + i)
                            mod (Z.to_nat num_dead_cells + Z.to_nat num_live_cells)
                          < Z.to_nat num_dead_cells)%nat
               then 0 else 1)) ∧
    w_rng w' = Rng (draws (w_rng w)) (used (w_rng w) + Z.to_nat y * Z.to_nat x) ∧
    w_globals w' = w_globals w ∧ w_calls w' = w_calls w ∧ w_out w' = w_out w.
Proof.
  intros Hpool. destruct w as [h g r c o]. cbn [w_heap w_globals w_rng w_calls w_out].
  set (wd := Z.to_nat x). set (ht := Z.to_nat y).
  set (R := random_board (pool num_live_cells num_dead_cells) (draws r) (used r) wd ht).
  pose proof (random_board_dims (pool num_live_cells num_dead_cells)
                (draws r) (used r) wd ht) as HD.
  fold R in HD.
  assert (∀ i j : nat, (i < wd)%nat → (j < ht)%nat →
            cell_at R i j
            = Some (if decide (draws r (used r + j * wd + i)
                                 mod (Z.to_nat num_dead_cells + Z.to_nat num_live_cells)
                               < Z.to_nat num_dead_cells)%nat
                    then 0 else 1)) as Hcell.
  { intros i j Hi Hj. unfold R. rewrite random_board_cell_at by done.
    by rewrite drawn_pool. }
  exists (length h), (World (next_heap h ht R) g (Rng (draws r) (used r + ht * wd)%nat) c o),
         (seq (S (length h)) ht), R.
  cbn [w_heap w_globals w_rng w_calls w_out].
  split.
  { rewrite new_board_clip. apply new_board_exact. left. by apply pool_nonempty. }
  split; [by apply lookup_ge_None_2|].
  split; [by eexists|].
  split; [unfold board_rows; by rewrite next_heap_board|].
  split; [apply NoDup_seq|].
  split; [rewrite elem_of_seq; lia|].
  split.
  { apply Forall_forall. intros l Hl. apply elem_of_seq in Hl.
    apply lookup_ge_None_2. lia. }
  split; [apply read_next_board; by destruct HD|].
  split; [done|].
  split; [by apply random_board_binary|].
  done.
Qed.

Lemma new_board_fresh_witness :
  ∃ nb w' rows R,
    new_board 3 2 2 3 blinker_world = (Ok nb, w') ∧
    w_heap blinker_world !! nb = None ∧
    w_heap blinker_world `prefix_of` w_heap w' ∧
    board_rows (w_heap w') nb = Some rows ∧
    NoDup rows ∧ (nb ∉ rows) ∧ Forall (λ l, w_heap blinker_world !! l = None) rows ∧
    read_board (w_heap w') nb = Some R ∧
    dims R (Z.to_nat 2) (Z.to_nat 3) ∧ binary R ∧
    (∀ i j : nat, (i < Z.to_nat 3)%nat → (j < Z.to_nat 2)%nat →
       cell_at R i j
       = Some (if decide (draws (w_rng blinker_world)
                                (used (w_rng blinker_world) + j * Z.to_nat 3 + i)
                            mod (Z.to_nat 3 + Z.to_nat 2)
                          < Z.to_nat 3)%nat
               then 0 else 1)) ∧
    w_rng w' = Rng (draws (w_rng blinker_world))
                   (used (w_rng blinker_world) + Z.to_nat 2 * Z.to_nat 3) ∧
    w_globals w' = w_globals blinker_world ∧ w_calls w' = w_calls blinker_world ∧
    w_out w' = w_out blinker_world.
Proof.
  apply (new_board_fresh blinker_world 3 2 2 3). left. lia.
Defined.

(** X2. With nothing to choose from (no live and no dead entries),
    [new_board] raises [IndexError] at its first draw when both sizes are
    positive, having allocated only the empty board object; when a size is
    zero or negative it draws nothing and returns a board of [y] empty rows
    (no row at all for [y <= 0]). *)
Theorem new_board_empty_pool (w : world) (x y num_live_cells num_dead_cells : Z) :
  num_live_cells ≤ 0 → num_dead_cells ≤ 0 →
  (0 < x → 0 < y →
     new_board x y num_live_cells num_dead_cells w
     = (Raise IndexError, set_heap (w_heap w ++ [ObjBoard []]) w)) ∧
  (x ≤ 0 ∨ y ≤ 0 →
     ∃ nb w',
       new_board x y num_live_cells num_dead_cells w = (Ok nb, w') ∧
       read_board (w_heap w') nb = Some (replicate (Z.to_nat y) []) ∧
       w_rng w' = w_rng w).
Proof.
  intros Hl Hd. destruct w as [h g r c o]. split.
  - intros Hx Hy. unfold new_board.
    erewrite bind_Ok by reflexivity. simpl_world.
    rewrite !py_range_nat, (pool_empty _ _ Hl Hd : _ ++ _ = []).
    destruct (Z.to_nat y) as [|n] eqn:En; [lia|].
    destruct (Z.to_nat x) as [|m] eqn:Em; [lia|].
    reflexivity.
  - intros Hxy. rewrite new_board_clip.
    rewrite new_board_exact by (right; lia).
    eexists _, _. split; [reflexivity|]. cbn [w_heap w_rng].
    assert (random_board (pool num_live_cells num_dead_cells) (draws r) (used r)
              (Z.to_nat x) (Z.to_nat y) = replicate (Z.to_nat y) []) as ->.
    { destruct Hxy as [Hx|Hy].
      - rewrite (Z2Nat.nonpos x) by done. unfold random_board. simpl.
        generalize 0%nat. induction (Z.to_nat y) as [|n IH]; intros s; [done|].
        simpl. f_equal. apply IH.
      - by rewrite (Z2Nat.nonpos y) by done. }
    split; [apply read_next_board; by rewrite length_replicate|].
    destruct r as [d u]. cbn [draws used]. f_equal.
    destruct Hxy as [Hx|Hy].
    + rewrite (Z2Nat.nonpos x) by done. lia.
    + rewrite (Z2Nat.nonpos y) by done. lia.
Qed.

Lemma new_board_empty_pool_witness :
  new_board 2 2 0 0 blinker_world
  = (Raise IndexError, set_heap (w_heap blinker_world ++ [ObjBoard []]) blinker_world) ∧
  ∃ nb w',
    new_board 0 2 0 0 blinker_world = (Ok nb, w') ∧
    read_board (w_heap w') nb = Some (replicate (Z.to_nat 2) []) ∧
    w_rng w' = w_rng blinker_world.
Proof.
  split.
  - apply (new_board_empty_pool blinker_world 2 2 0 0); lia.
  - apply (new_board_empty_pool blinker_world 0 2 0 0); lia.
Defined.

(** X3. On a board of any shape, [get] leaves the heap as it is and ends in
    exactly one of three ways: [ZeroDivisionError] when the board has no row
    or its first row has no cell; [IndexError] when the row [y mod height] is
    too short for the column [x mod width], the width being that of the
    first row; the cell at that row and column otherwise.  [assign] raises
    in exactly the same cases and then leaves the heap as it is. *)
Theorem get_assign_any_board (w : world) (b : loc) (B : list (list Z)) (x y v : Z) :
  read_board (w_heap w) b = Some B →
  w_heap (get b x y w).2 = w_heap w ∧
  ((get b x y w).1 = Raise ZeroDivisionError ↔ B = [] ∨ width B = 0%nat) ∧
  ((get b x y w).1 = Raise IndexError ↔
     B ≠ [] ∧ (0 < width B)%nat ∧
     ∃ row, B !! Z.to_nat (y mod Z.of_nat (height B)) = Some row ∧
            (length row ≤ Z.to_nat (x mod Z.of_nat (width B)))%nat) ∧
  (∀ c, (get b x y w).1 = Ok c ↔
     B ≠ [] ∧ (0 < width B)%nat ∧
     ∃ row, B !! Z.to_nat (y mod Z.of_nat (height B)) = Some row ∧
            row !! Z.to_nat (x mod Z.of_nat (width B)) = Some c) ∧
  (∀ e, (get b x y w).1 = Raise e → e = ZeroDivisionError ∨ e = IndexError) ∧
  (∀ e, (assign b x y v w).1 = Raise e ↔ (get b x y w).1 = Raise e) ∧
  (∀ e, (assign b x y v w).1 = Raise e → w_heap (assign b x y v w).2 = w_heap w).
Proof.
  destruct w as [h g r c o]. cbn [w_heap]. intros HB.
  rewrite (get_run_any h g o b B HB). cbn [fst snd w_heap].
  apply read_board_Some in HB as HB'. destruct HB' as (rows & Hb).
  pose proof (assign_run_any h g o b rows B Hb r c x y v) as Ha.
  pose proof (get_result_cases B x y) as HC.
  destruct (get_result B x y) as [c0|e0].
  - destruct HC as (Hne & HW & row & Erow & Ec).
    destruct Ha as (l & row' & El & Erow' & ->). cbn [fst snd].
    split; [done|]. split; [split; [done|intros [?|?]; [done|lia]]|].
    split.
    { split; [done|]. intros (_ & _ & row2 & Erow2 & Hlen). simplify_eq.
      apply lookup_lt_Some in Ec. lia. }
    split.
    { intros c1. split.
      - intros [= <-]. eauto.
      - intros (_ & _ & row2 & Erow2 & Ec2). simplify_eq. done. }
    split; [done|]. split; [intros e; split; discriminate|done].
  - rewrite Ha. cbn [fst snd]. split; [done|].
    destruct HC as [[-> Hz]|(-> & Hne & HW & row & Erow & Hlen)].
    + split; [done|]. split.
      { split; [done|]. intros (Hne & HW & _). destruct Hz; [done|lia]. }
      split.
      { intros c1. split; [done|]. intros (Hne & HW & _). destruct Hz; [done|lia]. }
      split; [intros e [= <-]; by left|]. split; [intros e; split; intros [= <-]; done|done].
    + split; [split; [done|intros [?|?]; [done|lia]]|].
      split; [split; [eauto|done]|].
      split.
      { intros c1. split; [done|]. intros (_ & _ & row2 & Erow2 & Ec2). simplify_eq.
        apply lookup_lt_Some in Ec2. lia. }
      split; [intros e [= <-]; by right|]. split; [intros e; split; intros [= <-]; done|done].
Qed.

Lemma get_assign_any_board_witness :
  w_heap (get 2%nat 1 1 ragged_world).2 = w_heap ragged_world ∧
  (get 2%nat 1 1 ragged_world).1 = Raise IndexError ∧
  (assign 2%nat 1 1 5 ragged_world).1 = Raise IndexError ∧
  w_heap (assign 2%nat 1 1 5 ragged_world).2 = w_heap ragged_world.
Proof.
  destruct (get_assign_any_board ragged_world 2%nat ragged 1 1 5)
    as (Hheap & _ & Hindex & _ & _ & Hassign & Hframe).
  - reflexivity.
  - assert ((get 2%nat 1 1 ragged_world).1 = Raise IndexError) as Hget.
    { apply Hindex. split; [done|]. split; [unfold width; simpl; lia|].
      exists [1]. split; [reflexivity|]. vm_compute. lia. }
    assert ((assign 2%nat 1 1 5 ragged_world).1 = Raise IndexError) as Hset
      by (apply Hassign; exact Hget).
    split; [exact Hheap|]. split; [exact Hget|]. split; [exact Hset|].
    exact (Hframe IndexError Hset).
Defined.

(** X4. What [assign] stores is what [get] reads back.  After a call
    [assign(board, x, y, v)] that returned, [get] returns [v] at (x, y) and
    at every position that is congruent to it modulo the width and the
    height, also when rows of the board are one and the same object; when
    the rows are distinct objects, [get] ends at every other position as it
    did before the call.  A second [assign] at the same position overwrites
    the first: only the last value stays. *)
Theorem assign_then_get (w : world) (b : loc) (rows : list loc)
    (B : list (list Z)) (x y v : Z) :
  board_at (w_heap w) b rows B →
  (assign b x y v w).1 = Ok tt →
  (get b x y (assign b x y v w).2).1 = Ok v ∧
  (∀ x' y', x' mod Z.of_nat (width B) = x mod Z.of_nat (width B) →
            y' mod Z.of_nat (height B) = y mod Z.of_nat (height B) →
            (get b x' y' (assign b x y v w).2).1 = Ok v) ∧
  (NoDup rows →
   ∀ x' y', x' mod Z.of_nat (width B) ≠ x mod Z.of_nat (width B) ∨
            y' mod Z.of_nat (height B) ≠ y mod Z.of_nat (height B) →
            (get b x' y' (assign b x y v w).2).1 = (get b x' y' w).1) ∧
  (∀ v', w_heap (assign b x y v' (assign b x y v w).2).2
         = w_heap (assign b x y v' w).2).
Proof.
  destruct w as [h g r c o]. cbn [w_heap]. intros Hb Hok.
  pose proof (board_at_read h b rows B Hb) as HB.
  pose proof (assign_run_any h g o b rows B Hb r c x y v) as Ha.
  pose proof (get_result_cases B x y) as HC.
  destruct (get_result B x y) as [c0|e0] eqn:Eget;
    [|rewrite Ha in Hok; discriminate].
  destruct Ha as (l & row & El & Erow & Ea).
  destruct HC as (Hne & HW & row' & Erow' & Ec). simplify_eq.
  rewrite Ea. cbn [fst snd w_heap].
  destruct Hb as [Eb HF].
  pose proof (Forall2_lookup_lr _ _ _ _ _ _ HF El Erow) as Hl. simpl in Hl.
  pose proof (Forall2_length _ _ _ HF) as Hlen.
  set (xi := Z.to_nat (x mod Z.of_nat (width B))) in *.
  set (yi := Z.to_nat (y mod Z.of_nat (height B))) in *.
  set (B1 := rows_after rows B l (<[xi := v]> row)).
  pose proof (board_at_assign h b rows B l row xi v (conj Eb HF) Hl) as Hb1.
  fold B1 in Hb1.
  pose proof (board_at_read _ b rows B1 Hb1) as HB1.
  assert (length <$> B1 = length <$> B) as Hlens.
  { unfold B1. eapply rows_after_lengths; [done..|]. by rewrite length_insert. }
  assert (B1 !! yi = Some (<[xi := v]> row)) as Erow1.
  { unfold B1. by eapply rows_after_lookup. }
  assert (0 < height B)%nat as HH by (destruct B; [done|simpl; lia]).
  assert (∀ x' y', x' mod Z.of_nat (width B) = x mod Z.of_nat (width B) →
                   y' mod Z.of_nat (height B) = y mod Z.of_nat (height B) →
                   get_result B1 x' y' = Ok v) as Hsame.
  { intros x' y' Ex Ey. unfold get_result.
    rewrite (height_lengths _ _ Hlens), (width_lengths _ _ Hlens), Ex, Ey.
    fold xi yi. rewrite Erow1.
    destruct (Z.eqb_spec (Z.of_nat (height B)) 0); [lia|].
    destruct (Z.eqb_spec (Z.of_nat (width B)) 0); [lia|].
    rewrite list_lookup_insert_eq; [done|]. by eapply lookup_lt_Some. }
  split.
  { rewrite (get_run_any _ g o b B1 HB1). by apply Hsame. }
  split.
  { intros x' y' Ex Ey. rewrite (get_run_any _ g o b B1 HB1). by apply Hsame. }
  split.
  { intros HND x' y' Hother.
    rewrite (get_run_any _ g o b B1 HB1), (get_run_any _ g o b B HB).
    cbn [fst]. unfold get_result.
    rewrite (height_lengths _ _ Hlens), (width_lengths _ _ Hlens).
    destruct (Z.eqb_spec (Z.of_nat (height B)) 0); [lia|].
    destruct (Z.eqb_spec (Z.of_nat (width B)) 0); [lia|].
    assert (0 ≤ y' mod Z.of_nat (height B) < Z.of_nat (height B)) as Hy'
      by (apply Z.mod_pos_bound; lia).
    assert (0 ≤ y mod Z.of_nat (height B) < Z.of_nat (height B)) as Hy
      by (apply Z.mod_pos_bound; lia).
    assert (0 ≤ x' mod Z.of_nat (width B) < Z.of_nat (width B)) as Hx'
      by (apply Z.mod_pos_bound; lia).
    assert (0 ≤ x mod Z.of_nat (width B) < Z.of_nat (width B)) as Hx
      by (apply Z.mod_pos_bound; lia).
    destruct (decide (Z.to_nat (y' mod Z.of_nat (height B)) = yi)) as [Ey|Ey].
    - rewrite Ey, Erow1, Erow.
      rewrite list_lookup_insert_ne; [done|].
      unfold xi. unfold yi in Ey. destruct Hother as [Hx0|Hy0]; lia.
    - destruct (lookup_lt_is_Some_2 rows (Z.to_nat (y' mod Z.of_nat (height B))))
        as [l' El']; [unfold height in *; lia|].
      unfold B1. rewrite (rows_after_lookup_ne _ _ _ _ _ l' El'); [done|].
      intros ->. apply Ey. by eapply NoDup_lookup. }
  intros v'.
  pose proof (assign_run_any _ g o b rows B1 Hb1 r (c ++ [CallAssign b x y v]) x y v')
    as Ha1.
  rewrite (Hsame x y eq_refl eq_refl) in Ha1.
  destruct Ha1 as (l1 & row1 & El1 & Erow1' & ->).
  rewrite (height_lengths _ _ Hlens) in El1, Erow1'. fold yi in El1, Erow1'.
  rewrite (width_lengths _ _ Hlens). fold xi. simplify_eq.
  pose proof (assign_run_any h g o b rows B (conj Eb HF) r c x y v') as Ha2.
  rewrite Eget in Ha2. destruct Ha2 as (l2 & row2 & El2 & Erow2 & ->).
  fold yi in El2, Erow2. fold xi. simplify_eq. cbn [snd w_heap].
  by rewrite list_insert_insert_eq, list_insert_insert_eq.
Qed.

Lemma assign_then_get_witness :
  (get 3%nat (-2) 4 (assign 3%nat (-2) 4 7 blinker_world).2).1 = Ok 7 ∧
  (∀ x' y', x' mod Z.of_nat (width blinker) = -2 mod Z.of_nat (width blinker) →
            y' mod Z.of_nat (height blinker) = 4 mod Z.of_nat (height blinker) →
            (get 3%nat x' y' (assign 3%nat (-2) 4 7 blinker_world).2).1 = Ok 7) ∧
  (NoDup [0; 1; 2]%nat →
   ∀ x' y', x' mod Z.of_nat (width blinker) ≠ -2 mod Z.of_nat (width blinker) ∨
            y' mod Z.of_nat (height blinker) ≠ 4 mod Z.of_nat (height blinker) →
            (get 3%nat x' y' (assign 3%nat (-2) 4 7 blinker_world).2).1
            = (get 3%nat x' y' blinker_world).1) ∧
  (∀ v', w_heap (assign 3%nat (-2) 4 v' (assign 3%nat (-2) 4 7 blinker_world).2).2
         = w_heap (assign 3%nat (-2) 4 v' blinker_world).2).
Proof.
  apply (assign_then_get blinker_world 3%nat [0; 1; 2]%nat blinker (-2) 4 7).
  - split; [reflexivity|]. repeat constructor.
  - reflexivity.
Defined.

(** X5. [process_life] returns exactly on the boards that have at least one
    row, no row shorter than the first one and, when the first row is
    empty, no cell at all.  Whenever it returns, the result is the next
    generation of the board cut to the width of the first row: one row per
    row of the input, each as long as the first row, all cells 0 or 1 even
    when the input holds other numbers, and the cell at (x, y) decided by the
    rules from [count_neighbors] and [get] at (x, y).  The returned board
    and its rows are new, pairwise distinct objects. *)
Theorem process_life_returns (w : world) (b : loc) (B : list (list Z)) :
  read_board (w_heap w) b = Some B →
  ((∃ nb, (process_life b w).1 = Ok nb) ↔
     B ≠ [] ∧ Forall (λ row, (width B ≤ length row)%nat) B ∧
     (width B = 0%nat → Forall (λ row, row = []) B)) ∧
  (∀ nb, (process_life b w).1 = Ok nb →
     ∃ NB rows,
       read_board (w_heap (process_life b w).2) nb = Some NB ∧
       dims NB (height B) (width B) ∧ binary NB ∧
       w_heap w !! nb = None ∧
       board_rows (w_heap (process_life b w).2) nb = Some rows ∧
       NoDup rows ∧ Forall (λ l, w_heap w !! l = None) rows ∧
       ∀ x y : nat, (x < width B)%nat → (y < height B)%nat →
         ∃ n c, (count_neighbors b (Z.of_nat x) (Z.of_nat y) w).1 = Ok n ∧
                (get b (Z.of_nat x) (Z.of_nat y) w).1 = Ok c ∧
                cell_at NB x y = Some (next_state n (c =? 1))).
Proof.
  destruct w as [h g r c o]. cbn [w_heap]. intros HB.
  destruct (process_life_any h g o b B HB r c) as (R & HD & E). rewrite E.
  destruct B as [|row0 B'] eqn:EB.
  { split; [|intros nb [=]]. split; [intros [nb [=]]|]. by intros [? _]. }
  rewrite <- EB in *. cbn [fst snd w_heap].
  assert (B ≠ []) as Hne by (by rewrite EB).
  assert ((∃ nb : nat,
             match (board_result B b (length h) (seq 0 (height B))).1.1 with
             | Ok _ => Ok (length h)
             | Raise e => Raise e
             end = Ok nb) ↔ steppable B) as Hiff.
  { split.
    - intros [nb Hnb]. apply (board_result_Ok_steppable B b (length h) Hne).
      by destruct (board_result B b (length h) (seq 0 (height B))).1.1 as [[]|].
    - intros HS.
      destruct (board_result_steppable B b (length h) (seq 0 (height B)) HS) as [-> _].
      + apply Forall_forall. intros y Hy. apply list_elem_of_In, in_seq in Hy. lia.
      + by eexists. }
  split; [exact Hiff|].
  intros nb Hnb. assert (steppable B) as HS by (apply Hiff; eauto).
  assert (nb = length h) as ->
    by (destruct (board_result B b (length h) (seq 0 (height B))).1.1; congruence).
  rewrite (apply_writes_life_step B b (length h) R HS HD).
  exists (life_step B), (seq (S (length h)) (height B)).
  split; [apply read_next_board; by destruct (life_step_dims B)|].
  split; [apply life_step_dims|]. split; [apply life_step_binary|].
  split; [by apply lookup_ge_None_2|].
  split; [unfold board_rows; by rewrite next_heap_board|].
  split; [apply NoDup_seq|].
  split.
  { apply Forall_forall. intros l Hl. apply elem_of_seq in Hl.
    apply lookup_ge_None_2. lia. }
  intros x y Hx Hy. destruct HS as (_ & Hlong & _).
  exists (neighbour_sum B (Z.of_nat x) (Z.of_nat y)), (cell B (Z.of_nat x) (Z.of_nat y)).
  rewrite (count_neighbors_run_any h g o b B HB), (get_run_any h g o b B HB).
  cbn [fst]. rewrite count_result_wide, get_result_wide by (done || lia).
  split; [done|]. split; [done|]. by apply cell_at_life_step.
Qed.

Lemma process_life_returns_witness :
  ((∃ nb, (process_life 3%nat blinker_world).1 = Ok nb) ↔
     blinker ≠ [] ∧ Forall (λ row, (width blinker ≤ length row)%nat) blinker ∧
     (width blinker = 0%nat → Forall (λ row, row = []) blinker)) ∧
  (∀ nb, (process_life 3%nat blinker_world).1 = Ok nb →
     ∃ NB rows,
       read_board (w_heap (process_life 3%nat blinker_world).2) nb = Some NB ∧
       dims NB (height blinker) (width blinker) ∧ binary NB ∧
       w_heap blinker_world !! nb = None ∧
       board_rows (w_heap (process_life 3%nat blinker_world).2) nb = Some rows ∧
       NoDup rows ∧ Forall (λ l, w_heap blinker_world !! l = None) rows ∧
       ∀ x y : nat, (x < width blinker)%nat → (y < height blinker)%nat →
         ∃ n c, (count_neighbors 3%nat (Z.of_nat x) (Z.of_nat y) blinker_world).1 = Ok n ∧
                (get 3%nat (Z.of_nat x) (Z.of_nat y) blinker_world).1 = Ok c ∧
                cell_at NB x y = Some (next_state n (c =? 1))).
Proof.
  apply (process_life_returns blinker_world 3%nat blinker). reflexivity.
Defined.

(** X6. When [process_life] does not return, it raises [IndexError] on a
    board without rows, before anything is allocated or drawn;
    [ZeroDivisionError] when the first row is empty and another row is not;
    and [IndexError] when some row is shorter than the first one.  However
    the call ends, every object that was on the heap before it, the input
    board and its rows among them, is unchanged. *)
Theorem process_life_raises (w : world) (b : loc) (B : list (list Z)) :
  read_board (w_heap w) b = Some B →
  (B = [] → process_life b w = (Raise IndexError, w)) ∧
  (B ≠ [] → width B = 0%nat → Exists (λ row, row ≠ []) B →
     (process_life b w).1 = Raise ZeroDivisionError) ∧
  ((0 < width B)%nat → Exists (λ row, (length row < width B)%nat) B →
     (process_life b w).1 = Raise IndexError) ∧
  w_heap w `prefix_of` w_heap (process_life b w).2 ∧
  read_board (w_heap (process_life b w).2) b = Some B.
Proof.
  destruct w as [h g r c o]. cbn [w_heap]. intros HB.
  destruct (process_life_any h g o b B HB r c) as (R & HD & E). rewrite E.
  destruct B as [|row0 B'] eqn:EB.
  { cbn [fst snd w_heap]. split; [done|]. split; [done|]. split; [simpl; lia|].
    split; [done|exact HB]. }
  rewrite <- EB in *. cbn [fst snd w_heap].
  assert (B ≠ []) as Hne by (by rewrite EB).
  assert (∀ e, (0 < width B)%nat ∧ e = IndexError ∨ width B = 0%nat ∧ e = ZeroDivisionError →
               ¬ steppable B →
               match (board_result B b (length h) (seq 0 (height B))).1.1 with
               | Ok _ => Ok (length h)
               | Raise e => Raise e
               end = Raise e) as Hraise.
  { intros e He Hns.
    destruct (board_result B b (length h) (seq 0 (height B))).1.1 as [[]|e'] eqn:Er.
    - destruct Hns. by apply (board_result_Ok_steppable B b (length h)).
    - f_equal. apply board_result_Raise in Er as (x' & y' & Eget).
      pose proof (get_result_cases B x' y') as HC. rewrite Eget in HC.
      destruct HC as [[-> [?|?]]|(-> & _ & ? & _)], He as [[? ->]|[? ->]];
        done || lia. }
  split; [done|]. split.
  { intros _ W0 Hex. apply Hraise; [by right|].
    intros (_ & _ & Hempty). specialize (Hempty W0).
    apply Exists_exists in Hex as (row & Hrow & Hnon).
    rewrite Forall_forall in Hempty. by apply Hnon, Hempty. }
  split.
  { intros HW Hex. apply Hraise; [by left|].
    intros (_ & Hlong & _).
    apply Exists_exists in Hex as (row & Hrow & Hshort).
    rewrite Forall_forall in Hlong. specialize (Hlong _ Hrow). lia. }
  split; [by eexists|]. by apply read_board_ext.
Qed.

Lemma process_life_raises_witness :
  (0 < width ragged)%nat ∧
  Exists (λ row, (length row < width ragged)%nat) ragged ∧
  (process_life 2%nat ragged_world).1 = Raise IndexError ∧
  w_heap ragged_world `prefix_of` w_heap (process_life 2%nat ragged_world).2 ∧
  read_board (w_heap (process_life 2%nat ragged_world).2) 2%nat = Some ragged.
Proof.
  assert ((0 < width ragged)%nat) as HW by (unfold width; simpl; lia).
  assert (Exists (λ row, (length row < width ragged)%nat) ragged) as Hex
    by (right; left; unfold width; simpl; lia).
  destruct (process_life_raises ragged_world 2%nat ragged)
    as (_ & _ & Hindex & Hprefix & Hread).
  - reflexivity.
  - split; [exact HW|]. split; [exact Hex|].
    split; [exact (Hindex HW Hex)|]. split; [exact Hprefix|exact Hread].
Defined.

(** X7. The rules treat every cell alike, the cells at the edges included:
    moving the board on the torus and then computing the next generation
    gives the same as computing the next generation and then moving it.  If
    one board is another moved by (dx, dy), then [process_life] returns for
    both, and its result for the one is its result for the other moved by
    (dx, dy). *)
Theorem process_life_translation (w1 w2 : world) (b1 b2 : loc)
    (B : list (list Z)) (dx dy : Z) :
  read_board (w_heap w1) b1 = Some B →
  read_board (w_heap w2) b2 = Some (shift_board dx dy B) →
  rectangular B →
  (∀ x y, cell (shift_board dx dy B) x y = cell B (x + dx) (y + dy)) ∧
  ∃ nb1 nb2 NB,
    (process_life b1 w1).1 = Ok nb1 ∧
    (process_life b2 w2).1 = Ok nb2 ∧
    read_board (w_heap (process_life b1 w1).2) nb1 = Some NB ∧
    read_board (w_heap (process_life b2 w2).2) nb2 = Some (shift_board dx dy NB).
Proof.
  destruct w1 as [h1 g1 r1 c1 o1], w2 as [h2 g2 r2 c2 o2]. cbn [w_heap].
  intros HB1 HB2 HR.
  destruct (shift_board_rectangular dx dy B HR) as (HR2 & _ & _).
  split; [intros; by apply cell_shift_board|].
  exists (length h1), (length h2), (life_step B).
  rewrite (LifeRuns.process_life_run g1 o1 h1 b1 B HB1 HR).
  rewrite (LifeRuns.process_life_run g2 o2 h2 b2 _ HB2 HR2).
  cbn [fst snd w_heap]. split; [done|]. split; [done|].
  split; [apply read_next_board; by destruct (life_step_dims B)|].
  rewrite <- life_step_shift_board by done.
  apply read_next_board. by destruct (life_step_dims (shift_board dx dy B)).
Qed.

Lemma process_life_translation_witness :
  (∀ x y, cell (shift_board 1 0 blinker) x y = cell blinker (x + 1) (y + 0)) ∧
  ∃ nb1 nb2 NB,
    (process_life 3%nat blinker_world).1 = Ok nb1 ∧
    (process_life 3%nat shifted_blinker_world).1 = Ok nb2 ∧
    read_board (w_heap (process_life 3%nat blinker_world).2) nb1 = Some NB ∧
    read_board (w_heap (process_life 3%nat shifted_blinker_world).2) nb2
      = Some (shift_board 1 0 NB).
Proof.
  apply (process_life_translation blinker_world shifted_blinker_world 3%nat 3%nat
           blinker 1 0).
  - reflexivity.
  - reflexivity.
  - by_decide.
Defined.

(** X8. A board without a live cell stays as it is, and a board without a
    dead cell has no live cell left after one generation: on a rectangular
    board of any size whose cells are all 0, or all 1, [process_life]
    returns a board of the same size whose cells are all 0. *)
Theorem process_life_uniform (w : world) (b : loc) (B : list (list Z)) (c : Z) :
  read_board (w_heap w) b = Some B → rectangular B →
  c = 0 ∨ c = 1 → Forall (Forall (λ v, v = c)) B →
  ∃ nb w',
    process_life b w = (Ok nb, w') ∧
    read_board (w_heap w') nb = Some (replicate (height B) (replicate (width B) 0)).
Proof.
  destruct w as [h g r c0 o]. cbn [w_heap]. intros HB HR Hc Hall.
  eexists _, _. split; [by apply LifeRuns.process_life_run|]. cbn [w_heap].
  rewrite <- (life_step_uniform B c) by done.
  apply read_next_board. by destruct (life_step_dims B).
Qed.

Lemma process_life_uniform_witness :
  ∃ nb w',
    process_life 1%nat (World [ObjRow [1]; ObjBoard [0%nat]] ∅ (Rng (λ n, n) 0) [] [])
    = (Ok nb, w') ∧
    read_board (w_heap w') nb = Some (replicate (height [[1]]) (replicate (width [[1]]) 0)).
Proof.
  apply (process_life_uniform _ 1%nat [[1]] 1).
  - reflexivity.
  - by_decide.
  - by right.
  - by_decide.
Defined.

End LifeExtras.

(** * Further properties of the cells of the Game of Life notebook *)

Module NotebookExtras.
Import Life Pydeck Conway Samples.

(** X9. [draw_board] prints a board of any shape row by row and changes
    nothing else: one mark per cell, an asterisk for a cell equal to 1 and a
    dash for every other value, and a line end after each row.  So the
    number of asterisks is the number of cells equal to 1, the number of
    line ends is the number of rows, and an empty board prints nothing. *)
Theorem draw_board_prints (w : world) (b : loc) (B : list (list Z)) :
  read_board (w_heap w) b = Some B →
  ∃ out,
    draw_board b w = (Ok tt, set_out (w_out w ++ out) w) ∧
    out = flat_map (λ row, map (λ col, Printed (if col =? 1 then "*" else "-")) row
                           ++ [Printed newline]) B ∧
    length out = (length (concat B) + height B)%nat ∧
    count_printed "*" out = live_cells B ∧
    count_printed newline out = height B.
Proof.
  destruct w as [h g r c o]. cbn [w_heap w_out]. intros HB.
  exists (drawing B). split; [by apply draw_board_run|]. split; [done|].
  destruct (count_printed_drawing B) as (E1 & E2 & E3). done.
Qed.

Lemma draw_board_prints_witness :
  ∃ out,
    draw_board 2%nat ragged_world = (Ok tt, set_out (w_out ragged_world ++ out) ragged_world) ∧
    out = flat_map (λ row, map (λ col, Printed (if col =? 1 then "*" else "-")) row
                           ++ [Printed newline]) ragged ∧
    length out = (length (concat ragged) + height ragged)%nat ∧
    count_printed "*" out = live_cells ragged ∧
    count_printed newline out = height ragged.
Proof.
  apply (draw_board_prints ragged_world 2%nat ragged). reflexivity.
Defined.

(** X10. On a non-empty rectangular board, with the two colour names bound,
    [convert_board_to_df(board)] changes nothing and returns one record per
    cell, column after column: the record at index [x * height + y] has the
    position [[x / 1000.0, y / 1000.0]] and the colour bound to [PURPLE] when
    [board[y][x]] is not 0, the colour bound to [PINK] when it is 0. *)
Theorem convert_board_to_df_records (w : world) (b : loc) (B : list (list Z))
    (purple pink : pyval) :
  read_board (w_heap w) b = Some B → rectangular B →
  w_globals w !! "PURPLE" = Some purple → w_globals w !! "PINK" = Some pink →
  ∃ recs,
    convert_board_to_df b w = (Ok (VList recs), w) ∧
    length recs = (width B * height B)%nat ∧
    ∀ x y : nat, (x < width B)%nat → (y < height B)%nat →
      ∃ row c,
        B !! y = Some row ∧ row !! x = Some c ∧
        recs !! (x * height B + y)%nat
        = Some (VDict [("position", VList [VDec (Z.of_nat x) (-3); VDec (Z.of_nat y) (-3)]);
                       ("color", if c =? 0 then pink else purple)]).
Proof.
  destruct w as [h g r c o]. cbn [w_heap w_globals]. intros HB HR Epurple Epink.
  rewrite convert_board_to_df_with, (convert_with_run h g r c o _ _ b B HB HR).
  rewrite (records_of_with g "PINK" purple pink) by done.
  unfold records_with, to_records.
  eexists. split; [reflexivity|]. split.
  { rewrite length_map.
    rewrite (length_flat_map_const _ _ (height B)); [by rewrite length_seq|].
    intros x. by rewrite length_map, length_seq. }
  intros x y Hx Hy.
  destruct (lookup_lt_is_Some_2 B y) as [row Erow]; [done|].
  pose proof (rectangular_row _ _ _ HR Erow) as Hlen.
  destruct (lookup_lt_is_Some_2 row x) as [v Ev]; [lia|].
  exists row, v. split; [done|]. split; [done|].
  change (map ?f ?l) with (f <$> l) at 1. rewrite list_lookup_fmap.
  rewrite (lookup_flat_map_const _ _ (height B) x y x);
    [|intros; by rewrite length_map, length_seq|by apply lookup_seq_lt|done].
  change (map ?f ?l) with (f <$> l). rewrite list_lookup_fmap, lookup_seq_lt by done.
  cbn [fmap option_fmap option_map zip zip_with]. change (0 + y)%nat with y.
  rewrite (cell_in_range B x y row v HR Erow Ev).
  by destruct (v =? 0).
Qed.

Lemma convert_board_to_df_records_witness :
  ∃ recs,
    convert_board_to_df 3%nat demo_world = (Ok (VList recs), demo_world) ∧
    length recs = (width blinker * height blinker)%nat ∧
    ∀ x y : nat, (x < width blinker)%nat → (y < height blinker)%nat →
      ∃ row c,
        blinker !! y = Some row ∧ row !! x = Some c ∧
        recs !! (x * height blinker + y)%nat
        = Some (VDict [("position", VList [VDec (Z.of_nat x) (-3); VDec (Z.of_nat y) (-3)]);
                       ("color", if c =? 0 then PINK else PURPLE)]).
Proof.
  apply (convert_board_to_df_records demo_world 3%nat blinker PURPLE PINK).
  - reflexivity.
  - by_decide.
  - reflexivity.
  - reflexivity.
Defined.

(** X11. The two [convert_board_to_df] functions change nothing, whatever
    the board, and stop only with [IndexError] or [NameError].  They raise
    [IndexError] on a board without rows, and return no record at all when
    the first row is empty, whatever the other rows hold.  They return only
    if no row is shorter than the first one.  With [PURPLE] and [PINK] bound,
    the first function returns exactly on the boards that have a row and no
    row shorter than the first one, with one record for each cell within the
    width of the first row (cells beyond it give no record), and raises
    [IndexError] on every other board. *)
Theorem convert_any_board (w : world) (b : loc) (B : list (list Z)) (iteration : Z) :
  read_board (w_heap w) b = Some B →
  (convert_board_to_df b w).2 = w ∧
  (convert_board_to_df_3d b iteration w).2 = w ∧
  (B = [] →
     (convert_board_to_df b w).1 = Raise IndexError ∧
     (convert_board_to_df_3d b iteration w).1 = Raise IndexError) ∧
  (B ≠ [] → width B = 0%nat →
     (convert_board_to_df b w).1 = Ok (VList []) ∧
     (convert_board_to_df_3d b iteration w).1 = Ok (VList [])) ∧
  (∀ recs, (convert_board_to_df b w).1 = Ok recs ∨
           (convert_board_to_df_3d b iteration w).1 = Ok recs →
     B ≠ [] ∧ Forall (λ row, (width B ≤ length row)%nat) B) ∧
  (∀ e, (convert_board_to_df b w).1 = Raise e ∨
        (convert_board_to_df_3d b iteration w).1 = Raise e →
     e = IndexError ∨ e = NameError) ∧
  (∀ purple pink,
     w_globals w !! "PURPLE" = Some purple → w_globals w !! "PINK" = Some pink →
     (B ≠ [] → Forall (λ row, (width B ≤ length row)%nat) B →
        ∃ recs, (convert_board_to_df b w).1 = Ok (VList recs) ∧
                length recs = (width B * height B)%nat) ∧
     (B = [] ∨ Exists (λ row, (length row < width B)%nat) B →
        (convert_board_to_df b w).1 = Raise IndexError)).
Proof.
  destruct w as [h g r c o]. cbn [w_heap w_globals]. intros HB.
  rewrite convert_board_to_df_with, convert_board_to_df_3d_with.
  rewrite !(convert_with_any h g r c o _ _ b B HB). cbn [fst snd].
  split; [done|]. split; [done|].
  split; [by intros ->|].
  split.
  { intros Hne W0. unfold convert_result. destruct B as [|row0 B']; [done|].
    destruct row0; [|done]. split; reflexivity. }
  split.
  { intros recs [E|E]; by apply convert_result_Ok in E. }
  split.
  { intros e [E|E]; apply convert_result_Raise in E as [[-> _]|[-> _]]; auto. }
  intros purple pink Epurple Epink. split.
  - intros Hne Hlong.
    rewrite (convert_result_wide g "PINK" purple pink) by done.
    unfold records_with, to_records. eexists. split; [reflexivity|].
    apply (records_with_length purple pink
             (λ x y : Z, VList [VDec x (-3); VDec y (-3)]) B). reflexivity.
  - intros Hbad.
    destruct (convert_result g "PINK" (λ x y : Z, VList [VDec x (-3); VDec y (-3)]) B)
      as [recs|e] eqn:E.
    + apply convert_result_Ok in E as [Hne Hlong]. destruct Hbad as [->|Hex]; [done|].
      apply Exists_exists in Hex as (row & Hrow & Hshort).
      rewrite Forall_forall in Hlong. specialize (Hlong _ Hrow). lia.
    + apply convert_result_Raise in E as [[-> _]|[_ [E'|E']]]; [done|congruence..].
Qed.

Lemma convert_any_board_witness :
  (convert_board_to_df 2%nat ragged_world).2 = ragged_world ∧
  (convert_board_to_df_3d 2%nat 0 ragged_world).2 = ragged_world ∧
  (convert_board_to_df 2%nat ragged_world).1 = Raise IndexError.
Proof.
  destruct (convert_any_board ragged_world 2%nat ragged 0)
    as (H1 & H2 & _ & _ & _ & _ & H3).
  - reflexivity.
  - split; [exact H1|]. split; [exact H2|].
    destruct (H3 PURPLE PINK) as [_ Hbad]; [reflexivity..|].
    apply Hbad. right. right. left. unfold width, ragged. simpl. lia.
Defined.

(** X12. Run after the first code cell, which defines [new_board] and
    [process_life] with the functions these call, the text demo cell runs to
    its end, with any random draws and whatever the names [board] and [i] and
    the heap held before (the cell itself imports [clear_output] and [time]
    and defines [draw_board]).  It builds a 20 by 20 board of 0/1 cells, and
    then prints, for each of the rounds 1 to 100 in order, the round number
    followed by the drawing of the board after that many generations, clears
    the output and pauses.  At the end the name [board] holds the hundredth
    generation of the board it started from. *)
Theorem text_demo_runs (w : world) :
  ∃ b0 w0 B0 w' bk,
    new_board 20 20 2 3 w = (Ok b0, w0) ∧
    read_board (w_heap w0) b0 = Some B0 ∧
    dims B0 20 20 ∧ binary B0 ∧
    text_demo w = (Ok tt, w') ∧
    w_globals w' !! "board" = Some (VRef bk) ∧
    read_board (w_heap w') bk = Some (Nat.iter 100 life_step B0) ∧
    w_out w'
    = w_out w ++ flat_map (λ m : nat,
                   Printed ("Iteration " +:+ pretty (1 + Z.of_nat m))
                   :: drawing (Nat.iter (S m) life_step B0)
                   ++ [Cleared; Slept (VDec 5 (-2))]) (seq 0 100).
Proof.
  destruct w as [h g r c o]. cbn [w_heap w_out].
  set (B0 := random_board (pool 2 3) (draws r) (used r) 20 20).
  assert (new_board 20 20 2 3 (World h g r c o)
          = (Ok (length h),
             World (next_heap h 20 B0) g (Rng (draws r) (used r + 20 * 20)%nat) c o)) as E0.
  { change 20 with (Z.of_nat 20). apply new_board_exact. left. by apply pool_nonempty; left. }
  assert (read_board (next_heap h 20 B0) (length h) = Some B0) as HB0.
  { apply read_next_board. by destruct (random_board_dims (pool 2 3) (draws r) (used r) 20 20). }
  assert (rectangular B0) as HR0 by (apply random_board_rectangular; lia).
  destruct (text_loop_run 100 1 (next_heap h 20 B0) (<["board" := VRef (length h)]> g)
              (Rng (draws r) (used r + 20 * 20)%nat) c o (length h) B0)
    as (h' & g' & r' & c' & bk & E & Hboard & HBk);
    [apply lookup_insert_eq|exact HB0|exact HR0|].
  exists (length h), (World (next_heap h 20 B0) g (Rng (draws r) (used r + 20 * 20)%nat) c o),
         B0, (World h' g' r' c'
                (o ++ flat_map (λ m : nat, text_events (1 + Z.of_nat m)
                                             (Nat.iter (S m) life_step B0)) (seq 0 100))), bk.
  split; [exact E0|]. split; [exact HB0|].
  split; [apply random_board_dims|].
  split; [apply random_board_binary; by left|].
  split.
  { unfold text_demo. erewrite bind_Ok by exact E0.
    erewrite bind_Ok by reflexivity. simpl_world. exact E. }
  split; [exact Hboard|]. split; [exact HBk|]. reflexivity.
Qed.

(** X13. In a session in which the first two code cells have run (the
    first defines [process_life] and [new_board], the second imports
    [time]), the first pydeck cell and the animation cell of the Game of
    Life, run one after the other, run to their end, with any random draws
    and whatever the data names and the heap held before: every data name
    the loop reads ([board], [layer], [r], [PURPLE], [PINK]) is bound by the
    pydeck cell, which also defines [convert_board_to_df].  The pydeck cell
    builds a 30 by 30 board of 0/1 cells, gives its records to a new layer as
    [data] and shows a new deck holding that layer; the loop then makes 100
    rounds, replacing the board by its next generation and refreshing the
    widget with the records of that generation.  (The pydeck constructors are
    taken as carriers of their arguments, [show] and [update] as calls that
    send the deck and change no object.) *)
Theorem pydeck_cells_run (w : world) :
  ∃ w1 w2 b0 B0 l d lattrs dattrs bk,
    pydeck_cell w = (Ok tt, w1) ∧
    w_globals w1 !! "board" = Some (VRef b0) ∧
    read_board (w_heap w1) b0 = Some B0 ∧ dims B0 30 30 ∧ binary B0 ∧
    w_globals w1 !! "layer" = Some (VRef l) ∧
    w_globals w1 !! "r" = Some (VRef d) ∧
    w_heap w1 !! l = Some (ObjInstance "Layer" lattrs) ∧
    lattrs !! "data" = Some (board_records B0) ∧
    w_heap w1 !! d = Some (ObjInstance "Deck" dattrs) ∧
    dattrs !! "layers" = Some (VList [VRef l]) ∧
    w_heap w `prefix_of` w_heap w1 ∧
    w_out w1 = w_out w ++ [Shown (deck_json (w_heap w1) dattrs)] ∧
    animation_loop w1 = (Ok tt, w2) ∧
    w_globals w2 !! "board" = Some (VRef bk) ∧
    read_board (w_heap w2) bk = Some (Nat.iter 100 life_step B0) ∧
    w_out w2
    = w_out w1
      ++ flat_map (λ m : nat,
           [Refreshed (deck_json
                       (<[l := ObjInstance "Layer"
                                 (<["data" := board_records (Nat.iter (S m) life_step B0)]>
                                    lattrs)]> (w_heap w1)) dattrs);
            Slept (VDec 1 (-1))]) (seq 0 100).
Proof.
  destruct w as [h g r c o].
  pose proof (pydeck_cell_run h g r c o) as E1. cbv zeta in E1.
  set (B0 := random_board (pool 2 3) (draws r) (used r) 30 30) in *.
  set (h1 := next_heap h 30 B0) in *.
  set (l := length h1) in *.
  set (lattrs := cloud_layer_attrs (board_records B0)) in *.
  set (dattrs := cloud_deck_attrs l (S l)) in *.
  match type of E1 with
  | _ = (_, World ?hf0 ?g0 _ _ _) => set (hf := hf0) in *; set (gf := g0) in *
  end.
  assert (read_board h1 (length h) = Some B0) as HB0.
  { apply read_next_board.
    by destruct (random_board_dims (pool 2 3) (draws r) (used r) 30 30). }
  assert (read_board hf (length h) = Some B0) as HBf by (by apply read_board_ext).
  assert (rectangular B0) as HR0 by (apply random_board_rectangular; lia).
  assert (hf !! l = Some (ObjInstance "Layer" lattrs)) as Hl.
  { unfold hf. rewrite lookup_app_r by (fold l; lia). fold l.
    by rewrite Nat.sub_diag. }
  assert (hf !! S (S l) = Some (ObjInstance "Deck" dattrs)) as Hd.
  { unfold hf. rewrite lookup_app_r by (fold l; lia). fold l.
    by replace (S (S l) - l)%nat with 2%nat by lia. }
  assert (gf !! "board" = Some (VRef (length h))) as Hboard
    by (unfold gf; repeat (rewrite lookup_insert_ne by done); apply lookup_insert_eq).
  assert (gf !! "layer" = Some (VRef l)) as Hlayer
    by (unfold gf; repeat (rewrite lookup_insert_ne by done); apply lookup_insert_eq).
  assert (gf !! "r" = Some (VRef (S (S l)))) as Hr
    by (unfold gf; repeat (rewrite lookup_insert_ne by done); apply lookup_insert_eq).
  assert (gf !! "PURPLE" = Some PURPLE) as Hpurple
    by (unfold gf; repeat (rewrite lookup_insert_ne by done); apply lookup_insert_eq).
  assert (gf !! "PINK" = Some PINK) as Hpink
    by (unfold gf; repeat (rewrite lookup_insert_ne by done); apply lookup_insert_eq).
  edestruct (animation_loop_run hf l (S (S l)) dattrs 100 (lookup_lt_Some _ _ _ Hl) 0 hf
               (<["NUM_ITERATIONS" := VInt NUM_ITERATIONS]> gf)
               (Rng (draws r) (used r + 30 * 30)%nat) c
               (o ++ [Shown (deck_json hf dattrs)]) (length h) B0 lattrs)
    as (h' & g' & r' & c' & bk & E2 & Hboard' & HBk);
    try (by rewrite lookup_insert_ne by done); try done.
  eexists _, _, (length h), B0, l, (S (S l)), lattrs, dattrs, bk.
  split; [exact E1|]. cbn [w_heap w_globals w_out].
  split; [exact Hboard|]. split; [exact HBf|].
  split; [apply random_board_dims|].
  split; [apply random_board_binary; by left|].
  split; [exact Hlayer|]. split; [exact Hr|]. split; [exact Hl|].
  split; [reflexivity|]. split; [exact Hd|]. split; [reflexivity|].
  split; [unfold hf, h1, next_heap; rewrite <- (assoc_L (++)); by eexists|].
  split; [reflexivity|].
  split.
  { unfold animation_loop. erewrite bind_Ok by (unfold store; reflexivity).
    simpl_world. exact E2. }
  cbn [w_heap w_globals w_out].
  split; [exact Hboard'|]. split; [exact HBk|]. reflexivity.
Qed.

(** X14. As long as the name [TRANSPARENT] is not bound, the cell that
    stacks the iterations stops with [NameError], whatever the random draws
    and whatever else is bound.  If the new board has a dead cell, the first
    [convert_board_to_df(board, 0)] raises it; if not, the next generation
    of a board without dead cells has only dead cells, and the call in the
    loop raises it.  So the cell never reaches [layer.data = records]: the
    layer and every other pydeck object stay as they were, the names [layer]
    and [r] keep their values, and nothing is sent to the widget. *)
Theorem stack_cell_name_error (w : world) :
  w_globals w !! "TRANSPARENT" = None →
  ∃ w',
    stack_cell w = (Raise NameError, w') ∧
    w_out w' = w_out w ∧
    (∀ l, inst (w_heap w') l = inst (w_heap w) l) ∧
    w_globals w' !! "layer" = w_globals w !! "layer" ∧
    w_globals w' !! "r" = w_globals w !! "r" ∧
    w_globals w' !! "NUM_ITERATIONS" = Some (VInt 2).
Proof.
  destruct w as [h g r c o]. cbn [w_heap w_globals w_out]. intros Enone.
  set (B0 := random_board (pool 2 3) (draws r) (used r) 20 20).
  set (h1 := next_heap h 20 B0).
  assert (read_board h1 (length h) = Some B0) as HB0.
  { apply read_next_board.
    by destruct (random_board_dims (pool 2 3) (draws r) (used r) 20 20). }
  assert (rectangular B0) as HR0 by (apply random_board_rectangular; lia).
  assert (binary B0) as HBin by (apply random_board_binary; by left).
  unfold stack_cell.
  do 2 step_prim.
  erewrite bind_Ok.
  2:{ change 20 with (Z.of_nat 20). apply new_board_exact.
      left. by apply pool_nonempty; left. }
  fold B0. fold h1.
  step_prim.
  step_with ltac:(apply load_Some; by rewrite lookup_insert_eq).
  step_with ltac:(reflexivity).
  set (g1 := <["board" := VRef (length h)]>
               (<["NUM_ITERATIONS" := VInt 2]> (<["BLACK" := BLACK]> g))).
  assert (g1 !! "TRANSPARENT" = None) as Enone1
    by (unfold g1; by rewrite !lookup_insert_ne by done).
  set (position := λ x y : Z, VList [VDec x (-3); VDec y (-3); VInt (0 * 1000)]).
  pose proof (convert_with_run h1 g1 (Rng (draws r) (used r + 20 * 20)%nat) c o
                "TRANSPARENT" position (length h) B0 HB0 HR0) as Econv.
  destruct (records_of g1 "TRANSPARENT" position B0) as [recs|] eqn:Erecs.
  - (* the board has no dead cell: the loop raises *)
    pose proof (binary_all_alive B0 HR0 HBin
                  (records_of_Some_alive _ _ _ _ _ HR0 Enone1 Erecs)) as Halive.
    erewrite bind_Ok by (rewrite convert_board_to_df_3d_with; exact Econv).
    step_prim.
    step_with ltac:(apply load_Some; unfold g1;
                    by rewrite !lookup_insert_ne, ?lookup_insert_eq by done).
    step_with ltac:(reflexivity).
    change (py_range 1 2) with [1]. cbn [for_each].
    set (g2 := <["records" := recs]> g1).
    set (B1 := life_step B0).
    assert (rectangular B1) as HR1 by (by apply life_step_rectangular).
    assert (read_board (next_heap h1 (height B0) B1) (length h1) = Some B1) as HB1.
    { apply read_next_board. by destruct (life_step_dims B0). }
    assert (cell B1 (Z.of_nat 0) (Z.of_nat 0) = 0) as Edead.
    { apply cell_uniform; [done|]. unfold B1.
      rewrite (life_step_uniform B0 1 HR0 (or_intror eq_refl) Halive).
      apply Forall_replicate, Forall_replicate. done. }
    eexists. split.
    { erewrite bind_Raise; [reflexivity|].
      erewrite bind_Raise; [reflexivity|].
      unfold stack_body.
      step_prim.
      step_with ltac:(apply load_Some; unfold g2, g1;
                      by rewrite !lookup_insert_ne, ?lookup_insert_eq by done).
      step_with ltac:(reflexivity).
      step_with ltac:(by apply LifeRuns.process_life_run).
      step_prim.
      step_with ltac:(apply load_Some; unfold g2;
                      by rewrite !lookup_insert_ne, ?lookup_insert_eq by done).
      step_with ltac:(apply load_Some; by rewrite lookup_insert_eq).
      step_with ltac:(reflexivity).
      step_with ltac:(apply load_Some; by rewrite lookup_insert_ne, lookup_insert_eq).
      step_with ltac:(reflexivity).
      erewrite bind_Raise; [reflexivity|].
      rewrite convert_board_to_df_3d_with.
      erewrite convert_with_run; [|exact HB1|exact HR1].
      rewrite (records_of_unbound _ "TRANSPARENT" _ B1 0 0 HR1);
        [reflexivity|by destruct HR1 as (_ & ? & _)|by destruct HR1|
         unfold g2, g1; by rewrite !lookup_insert_ne by done|exact Edead]. }
    cbn [w_heap w_globals w_out].
    split; [done|]. split; [intros l; unfold h1; by rewrite !inst_next_heap|].
    unfold g2, g1.
    split; [by rewrite !lookup_insert_ne by done|].
    split; [by rewrite !lookup_insert_ne by done|].
    by rewrite !lookup_insert_ne, ?lookup_insert_eq by done.
  - (* the board has a dead cell: the first call raises *)
    eexists. split.
    { erewrite bind_Raise; [reflexivity|].
      rewrite convert_board_to_df_3d_with. exact Econv. }
    cbn [w_heap w_globals w_out].
    split; [done|]. split; [intros l; unfold h1; by rewrite inst_next_heap|].
    unfold g1.
    split; [by rewrite !lookup_insert_ne by done|].
    split; [by rewrite !lookup_insert_ne by done|].
    by rewrite !lookup_insert_ne, ?lookup_insert_eq by done.
Qed.

Lemma stack_cell_name_error_witness :
  ∃ w',
    stack_cell demo_world = (Raise NameError, w') ∧
    w_out w' = w_out demo_world ∧
    (∀ l, inst (w_heap w') l = inst (w_heap demo_world) l) ∧
    w_globals w' !! "layer" = w_globals demo_world !! "layer" ∧
    w_globals w' !! "r" = w_globals demo_world !! "r" ∧
    w_globals w' !! "NUM_ITERATIONS" = Some (VInt 2).
Proof.
  apply (stack_cell_name_error demo_world). reflexivity.
Defined.

(** X15. Once [TRANSPARENT] is bound (and [PURPLE], and [layer] to a layer
    object), the cell that stacks the iterations runs to its end.  Its loop
    makes one round, so the records are those of the new 20 by 20 board with
    the third coordinate 0, followed by those of its next generation with the
    third coordinate 1000: 800 records.  The statement [layer.data = records]
    comes before the new layer is constructed, so it stores these records in
    the layer object that existed before; only then are [layer] and [r] bound
    to a new layer with the same records and to a new deck, which is shown.
    (The pydeck constructors are taken as carriers of their arguments, [show]
    as a call that sends the deck and changes no object.) *)
Theorem stack_cell_runs (w : world) (l : loc) (lattrs : gmap string pyval)
    (purple transparent : pyval) :
  w_globals w !! "TRANSPARENT" = Some transparent →
  w_globals w !! "PURPLE" = Some purple →
  w_globals w !! "layer" = Some (VRef l) →
  w_heap w !! l = Some (ObjInstance "Layer" lattrs) →
  ∃ w' b0 w0 B0 (l' d' : loc) (lattrs' dattrs' : gmap string pyval),
    new_board 20 20 2 3 w = (Ok b0, w0) ∧
    read_board (w_heap w0) b0 = Some B0 ∧ dims B0 20 20 ∧ binary B0 ∧
    py_range 1 2 = [1] ∧
    stack_cell w = (Ok tt, w') ∧
    w_globals w' !! "records"
    = Some (VList (stacked_records purple transparent 0 B0
                   ++ stacked_records purple transparent 1 (life_step B0))) ∧
    length (stacked_records purple transparent 0 B0
            ++ stacked_records purple transparent 1 (life_step B0)) = 800%nat ∧
    w_heap w' !! l
    = Some (ObjInstance "Layer"
              (<["data" := VList (stacked_records purple transparent 0 B0
                                  ++ stacked_records purple transparent 1 (life_step B0))]>
                 lattrs)) ∧
    w_globals w' !! "layer" = Some (VRef l') ∧ w_globals w' !! "r" = Some (VRef d') ∧
    w_heap w !! l' = None ∧ w_heap w !! d' = None ∧
    w_heap w' !! l' = Some (ObjInstance "Layer" lattrs') ∧
    lattrs' !! "data"
    = Some (VList (stacked_records purple transparent 0 B0
                   ++ stacked_records purple transparent 1 (life_step B0))) ∧
    lattrs' !! "get_radius" = Some (VInt 5) ∧
    w_heap w' !! d' = Some (ObjInstance "Deck" dattrs') ∧
    dattrs' !! "layers" = Some (VList [VRef l']) ∧
    w_out w' = w_out w ++ [Shown (deck_json (w_heap w') dattrs')].
Proof.
  destruct w as [h g r c o]. cbn [w_heap w_globals w_out].
  intros Etrans Epurple Hlayer Hl.
  set (B0 := random_board (pool 2 3) (draws r) (used r) 20 20).
  set (h1 := next_heap h 20 B0).
  assert (new_board 20 20 2 3 (World h g r c o)
          = (Ok (length h),
             World h1 g (Rng (draws r) (used r + 20 * 20)%nat) c o)) as E0.
  { change 20 with (Z.of_nat 20). apply new_board_exact.
    left. by apply pool_nonempty; left. }
  assert (read_board h1 (length h) = Some B0) as HB0.
  { apply read_next_board.
    by destruct (random_board_dims (pool 2 3) (draws r) (used r) 20 20). }
  pose proof (random_board_dims (pool 2 3) (draws r) (used r) 20 20) as HD0.
  fold B0 in HD0.
  assert (rectangular B0) as HR0 by (apply random_board_rectangular; lia).
  destruct (dims_rectangular _ _ _ HD0) as (_ & EH0 & EW0); [lia..|].
  set (B1 := life_step B0).
  assert (rectangular B1) as HR1 by (by apply life_step_rectangular).
  set (h2 := next_heap h1 (height B0) B1).
  assert (read_board h2 (length h1) = Some B1) as HB1.
  { apply read_next_board. by destruct (life_step_dims B0). }
  set (recs := stacked_records purple transparent 0 B0
               ++ stacked_records purple transparent 1 B1).
  assert (h2 !! l = Some (ObjInstance "Layer" lattrs)) as Hl2.
  { unfold h2. apply next_heap_old. unfold h1. by apply next_heap_old. }
  apply lookup_lt_Some in Hl as Hllt.
  assert (length h2 = (length h + 42)%nat) as Hlen2.
  { unfold h2, h1. rewrite !next_heap_length.
    destruct (life_step_dims B0) as [HL1 _]. fold B1 in HL1. destruct HD0 as [HL0 _].
    rewrite HL1, EH0, HL0. lia. }
  set (h3 := <[l := ObjInstance "Layer" (<["data" := VList recs]> lattrs)]> h2).
  assert (length h3 = (length h + 42)%nat) as Hlen3
    by (unfold h3; by rewrite length_insert).
  set (lattrs' := list_to_map [("type", VStr "PointCloudLayer"); ("data", VList recs);
                               ("get_position", VStr "position");
                               ("get_color", VStr "color"); ("get_radius", VInt 5)]
                  : gmap string pyval).
  set (dattrs' := cloud_deck_attrs (length h + 42) (S (length h + 42))).
  set (hf := h3 ++ [ObjInstance "Layer" lattrs']
                ++ [ObjInstance "ViewState"
                      (list_to_map [("latitude", VDec 1 (-2)); ("longitude", VDec 1 (-2));
                                    ("zoom", VInt 13); ("bearing", VInt 44);
                                    ("pitch", VInt 45)])]
                ++ [ObjInstance "Deck" dattrs']).
  eexists _, (length h), _, B0, (length h + 42)%nat, (S (S (length h + 42))),
          lattrs', dattrs'.
  split; [exact E0|]. cbn [w_heap].
  split; [exact HB0|]. split; [exact HD0|].
  split; [apply random_board_binary; by left|].
  split; [reflexivity|].
  split.
  { unfold stack_cell.
    do 2 step_prim.
    erewrite bind_Ok.
    2:{ change 20 with (Z.of_nat 20). apply new_board_exact.
        left. by apply pool_nonempty; left. }
    fold B0. fold h1.
    step_prim.
    step_with ltac:(apply load_Some; by rewrite lookup_insert_eq).
    step_with ltac:(reflexivity).
    erewrite bind_Ok.
    2:{ apply (convert_3d_run _ _ _ _ _ _ B0 0 purple transparent);
          [exact HB0|exact HR0|by rewrite !lookup_insert_ne by done..]. }
    step_prim.
    step_with ltac:(apply load_Some;
                    by rewrite !lookup_insert_ne, ?lookup_insert_eq by done).
    step_with ltac:(reflexivity).
    change (py_range 1 2) with [1]. cbn [for_each].
    erewrite bind_Ok.
    2:{ erewrite bind_Ok; [reflexivity|].
        unfold stack_body.
        step_prim.
        step_with ltac:(apply load_Some;
                        by rewrite !lookup_insert_ne, ?lookup_insert_eq by done).
        step_with ltac:(reflexivity).
        step_with ltac:(by apply LifeRuns.process_life_run).
        fold B1. fold h2.
        step_prim.
        step_with ltac:(apply load_Some;
                        by rewrite !lookup_insert_ne, ?lookup_insert_eq by done).
        step_with ltac:(apply load_Some; by rewrite lookup_insert_eq).
        step_with ltac:(reflexivity).
        step_with ltac:(apply load_Some; by rewrite lookup_insert_ne, lookup_insert_eq).
        step_with ltac:(reflexivity).
        erewrite bind_Ok.
        2:{ apply (convert_3d_run _ _ _ _ _ _ B1 1 purple transparent);
              [exact HB1|exact HR1|by rewrite !lookup_insert_ne by done..]. }
        fold recs. unfold store. simpl_world. reflexivity. }
    unfold ret.
    step_with ltac:(apply load_Some; by rewrite lookup_insert_eq).
    step_with ltac:(apply load_Some; by rewrite !lookup_insert_ne by done).
    step_with ltac:(reflexivity).
    step_with ltac:(by eapply setattr_run).
    fold h3.
    step_with ltac:(apply load_Some; by rewrite lookup_insert_eq).
    erewrite bind_Ok by (unfold Layer, new_object; apply alloc_run).
    fold recs. fold h3. rewrite Hlen3. fold lattrs'.
    step_prim.
    erewrite bind_Ok by (unfold ViewState, new_object; apply alloc_run).
    fold recs. fold h3. fold lattrs'.
    rewrite length_app, Hlen3. cbn [length]. rewrite Nat.add_1_r.
    step_prim.
    step_with ltac:(apply load_Some; by rewrite lookup_insert_ne, lookup_insert_eq).
    step_with ltac:(apply load_Some; by rewrite lookup_insert_eq).
    erewrite bind_Ok by (unfold Deck, new_object; apply alloc_run).
    fold recs. fold h3. fold lattrs'.
    rewrite !length_app, Hlen3. cbn [length]. rewrite !Nat.add_1_r.
    fold (cloud_deck_attrs (length h + 42) (S (length h + 42))). fold dattrs'.
    step_prim.
    step_with ltac:(apply load_Some; by rewrite lookup_insert_eq).
    step_with ltac:(reflexivity).
    fold recs. fold h3. fold lattrs'. fold dattrs'.
    rewrite <- !(assoc_L (++)). fold hf.
    eapply show_run.
    unfold hf. rewrite !(assoc_L (++)).
    rewrite lookup_app_r by (rewrite !length_app, Hlen3; simpl; lia).
    rewrite !length_app, Hlen3. cbn [length].
    by replace (S (S (length h + 42)) - (length h + 42 + 1 + 1))%nat with 0%nat by lia. }
  cbn [w_heap w_globals w_out]. fold hf.
  split; [by rewrite !lookup_insert_ne, ?lookup_insert_eq by done|].
  split.
  { unfold recs. rewrite length_app, !stacked_records_length.
    destruct (dims_rectangular _ _ _ (life_step_dims B0)) as (_ & -> & ->); [lia..|].
    rewrite EH0, EW0. reflexivity. }
  split.
  { unfold hf. rewrite lookup_app_l by lia. unfold h3.
    apply list_lookup_insert_eq. lia. }
  split; [by rewrite !lookup_insert_ne, ?lookup_insert_eq by done|].
  split; [by rewrite lookup_insert_eq|].
  split; [apply lookup_ge_None_2; lia|]. split; [apply lookup_ge_None_2; lia|].
  split.
  { unfold hf. rewrite lookup_app_r by lia. by rewrite Hlen3, Nat.sub_diag. }
  split; [reflexivity|]. split; [reflexivity|].
  split.
  { unfold hf. rewrite lookup_app_r by lia. rewrite Hlen3.
    by replace (S (S (length h + 42)) - (length h + 42))%nat with 2%nat by lia. }
  split; [reflexivity|]. reflexivity.
Qed.

Lemma stack_cell_runs_witness :
  ∃ w' b0 w0 B0 (l' d' : loc) (lattrs' dattrs' : gmap string pyval),
    new_board 20 20 2 3 stack_world = (Ok b0, w0) ∧
    read_board (w_heap w0) b0 = Some B0 ∧ dims B0 20 20 ∧ binary B0 ∧
    py_range 1 2 = [1] ∧
    stack_cell stack_world = (Ok tt, w') ∧
    w_globals w' !! "records"
    = Some (VList (stacked_records PURPLE (VList [VInt 0; VInt 0; VInt 0; VInt 0]) 0 B0
                   ++ stacked_records PURPLE (VList [VInt 0; VInt 0; VInt 0; VInt 0]) 1
                        (life_step B0))) ∧
    length (stacked_records PURPLE (VList [VInt 0; VInt 0; VInt 0; VInt 0]) 0 B0
            ++ stacked_records PURPLE (VList [VInt 0; VInt 0; VInt 0; VInt 0]) 1
                 (life_step B0)) = 800%nat ∧
    w_heap w' !! 4%nat
    = Some (ObjInstance "Layer"
              (<["data" := VList (stacked_records PURPLE
                                    (VList [VInt 0; VInt 0; VInt 0; VInt 0]) 0 B0
                                  ++ stacked_records PURPLE
                                       (VList [VInt 0; VInt 0; VInt 0; VInt 0]) 1
                                       (life_step B0))]>
                 demo_layer_attrs)) ∧
    w_globals w' !! "layer" = Some (VRef l') ∧ w_globals w' !! "r" = Some (VRef d') ∧
    w_heap stack_world !! l' = None ∧ w_heap stack_world !! d' = None ∧
    w_heap w' !! l' = Some (ObjInstance "Layer" lattrs') ∧
    lattrs' !! "data"
    = Some (VList (stacked_records PURPLE (VList [VInt 0; VInt 0; VInt 0; VInt 0]) 0 B0
                   ++ stacked_records PURPLE (VList [VInt 0; VInt 0; VInt 0; VInt 0]) 1
                        (life_step B0))) ∧
    lattrs' !! "get_radius" = Some (VInt 5) ∧
    w_heap w' !! d' = Some (ObjInstance "Deck" dattrs') ∧
    dattrs' !! "layers" = Some (VList [VRef l']) ∧
    w_out w' = w_out stack_world ++ [Shown (deck_json (w_heap w') dattrs')].
Proof.
  apply (stack_cell_runs stack_world 4%nat demo_layer_attrs PURPLE
           (VList [VInt 0; VInt 0; VInt 0; VInt 0])); reflexivity.
Defined.

End NotebookExtras.

(** * Further properties of the cells of the Introduction *)

Module IntroExtras.
Import Pydeck Intro Samples.

(** X16. The update loop of the Introduction makes ten rounds, with
    [i] = 0, 1000, ..., 9000 in this order (10000 is not reached).  Each
    round sets [elevation_range] of the one existing layer object to
    [[0, i]], so that the refresh of that round shows this range, and then
    pauses.  After the loop the layer has the range [[0, 9000]] and its other
    attributes as before, [i] is 9000, and no other object has changed.
    ([r.update()] is taken as the refresh call that sends the deck and
    changes no object.) *)
Theorem update_loop_rounds (w : world) (l d : loc) (lattrs dattrs : gmap string pyval) :
  w_globals w !! "layer" = Some (VRef l) → w_globals w !! "r" = Some (VRef d) →
  w_heap w !! l = Some (ObjInstance "Layer" lattrs) →
  w_heap w !! d = Some (ObjInstance "Deck" dattrs) →
  py_range_step 0 10000 1000
  = [0; 1000; 2000; 3000; 4000; 5000; 6000; 7000; 8000; 9000] ∧
  ∃ w',
    update_loop w = (Ok tt, w') ∧
    w_heap w'
    = <[l := ObjInstance "Layer"
               (<["elevation_range" := VList [VInt 0; VInt 9000]]> lattrs)]> (w_heap w) ∧
    w_globals w' = <["i" := VInt 9000]> (w_globals w) ∧
    w_out w'
    = w_out w
      ++ flat_map (λ i,
           [Refreshed (deck_json
                       (<[l := ObjInstance "Layer"
                                 (<["elevation_range" := VList [VInt 0; VInt i]]> lattrs)]>
                          (w_heap w)) dattrs);
            Slept (VDec 1 (-1))])
           [0; 1000; 2000; 3000; 4000; 5000; 6000; 7000; 8000; 9000].
Proof.
  destruct w as [h g r c o]. cbn [w_heap w_globals w_out].
  intros Hlayer Hr Hl Hd.
  assert (py_range_step 0 10000 1000
          = [0; 1000; 2000; 3000; 4000; 5000; 6000; 7000; 8000; 9000]) as Erange
    by reflexivity.
  split; [exact Erange|].
  assert (l ≠ d) as Hld by (intros ->; congruence).
  pose proof (update_rounds_run h r c l d lattrs dattrs
                (lookup_lt_Some _ _ _ Hl) Hd Hld
                [0; 1000; 2000; 3000; 4000; 5000; 6000; 7000; 8000; 9000]
                g o lattrs Hlayer Hr (λ v, eq_refl)) as E.
  rewrite (list_insert_id h l _ Hl) in E.
  eexists. split; [unfold update_loop; rewrite Erange; exact E|].
  cbn [w_heap w_globals w_out]. split; [reflexivity|]. split; reflexivity.
Qed.

Lemma update_loop_rounds_witness :
  py_range_step 0 10000 1000
  = [0; 1000; 2000; 3000; 4000; 5000; 6000; 7000; 8000; 9000] ∧
  ∃ w',
    update_loop demo_world = (Ok tt, w') ∧
    w_heap w'
    = <[4%nat := ObjInstance "Layer"
               (<["elevation_range" := VList [VInt 0; VInt 9000]]> demo_layer_attrs)]>
        (w_heap demo_world) ∧
    w_globals w' = <["i" := VInt 9000]> (w_globals demo_world) ∧
    w_out w'
    = w_out demo_world
      ++ flat_map (λ i,
           [Refreshed (deck_json
                       (<[4%nat := ObjInstance "Layer"
                                 (<["elevation_range" := VList [VInt 0; VInt i]]>
                                    demo_layer_attrs)]>
                          (w_heap demo_world)) demo_deck_attrs);
            Slept (VDec 1 (-1))])
           [0; 1000; 2000; 3000; 4000; 5000; 6000; 7000; 8000; 9000].
Proof.
  apply (update_loop_rounds demo_world 4%nat 5%nat demo_layer_attrs demo_deck_attrs);
    reflexivity.
Defined.

(** X17. Run one after the other from any state, the cells of the
    Introduction run to their end.  The first cell builds a layer and a deck
    and shows the deck; the update cells change [elevation_range] of that one
    layer object, to [[0, 1000]] and then ten times in the loop, and leave
    it at [[0, 9000]].  The last cells bind [layer] and [r] to new objects
    and show the new deck: the new layer has the range [[0, 3000]] again and
    holds the lights object itself as [light_settings], while the first
    layer and the first deck stay as the updates left them.  (The pydeck
    constructors are taken as carriers of their arguments, [show] and
    [update] as calls that send the deck and change no object.) *)
Theorem intro_cells_run (w : world) :
  ∃ w1 w2 w3 (l d l' d' lights : loc) (lattrs dattrs lattrs' dattrs' : gmap string pyval),
    setup_cell w = (Ok tt, w1) ∧
    w_heap w `prefix_of` w_heap w1 ∧
    w_globals w1 !! "layer" = Some (VRef l) ∧ w_globals w1 !! "r" = Some (VRef d) ∧
    w_heap w1 !! l = Some (ObjInstance "Layer" lattrs) ∧
    w_heap w1 !! d = Some (ObjInstance "Deck" dattrs) ∧
    lattrs !! "elevation_range" = Some (VList [VInt 0; VInt 3000]) ∧
    dattrs !! "layers" = Some (VList [VRef l]) ∧
    w_out w1 = w_out w ++ [Shown (deck_json (w_heap w1) dattrs)] ∧
    (update_cell ;;; update_loop) w1 = (Ok tt, w2) ∧
    w_heap w2
    = <[l := ObjInstance "Layer"
               (<["elevation_range" := VList [VInt 0; VInt 9000]]> lattrs)]> (w_heap w1) ∧
    length (w_out w2) = (length (w_out w1) + 21)%nat ∧
    (attributes_cell ;;; show_cell) w2 = (Ok tt, w3) ∧
    w_heap w2 `prefix_of` w_heap w3 ∧
    w_globals w3 !! "layer" = Some (VRef l') ∧ w_globals w3 !! "r" = Some (VRef d') ∧
    w_globals w3 !! "lights" = Some (VRef lights) ∧
    w_heap w2 !! l' = None ∧ w_heap w2 !! d' = None ∧ w_heap w2 !! lights = None ∧
    w_heap w3 !! l' = Some (ObjInstance "Layer" lattrs') ∧
    w_heap w3 !! d' = Some (ObjInstance "Deck" dattrs') ∧
    lattrs' !! "elevation_range" = Some (VList [VInt 0; VInt 3000]) ∧
    lattrs' !! "light_settings" = Some (VRef lights) ∧
    dattrs' !! "layers" = Some (VList [VRef l']) ∧
    w_out w3 = w_out w2 ++ [Shown (deck_json (w_heap w3) dattrs')].
Proof.
  destruct w as [h g r c o].
  pose proof (setup_cell_run h g r c o) as E1. cbv zeta in E1.
  set (l := length h) in *.
  match type of E1 with
  | _ = (_, World ?hf0 ?g0 _ _ (_ ++ [Shown (deck_json _ ?d0)])) =>
      set (h1 := hf0) in *; set (g1 := g0) in *; set (dattrs := d0) in *
  end.
  assert (h1 !! l = Some (ObjInstance "Layer" hexagon_layer_attrs)) as Hl.
  { unfold h1. rewrite lookup_app_r by (fold l; lia). fold l. by rewrite Nat.sub_diag. }
  assert (h1 !! S (S l) = Some (ObjInstance "Deck" dattrs)) as Hd.
  { unfold h1. rewrite lookup_app_r by (fold l; lia). fold l.
    by replace (S (S l) - l)%nat with 2%nat by lia. }
  assert (g1 !! "layer" = Some (VRef l)) as Hlayer
    by (unfold g1; repeat (rewrite lookup_insert_ne by done); apply lookup_insert_eq).
  assert (g1 !! "r" = Some (VRef (S (S l)))) as Hr
    by (unfold g1; repeat (rewrite lookup_insert_ne by done); apply lookup_insert_eq).
  pose proof (update_cell_run h1 g1 r c (o ++ [Shown (deck_json h1 dattrs)])
                l (S (S l)) hexagon_layer_attrs dattrs Hlayer Hr Hl Hd) as E2.
  set (o2 := (o ++ [Shown (deck_json h1 dattrs)])
             ++ [Refreshed (deck_json
                   (<[l := ObjInstance "Layer"
                             (<["elevation_range" := VList [VInt 0; VInt 1000]]>
                                hexagon_layer_attrs)]> h1) dattrs)]) in *.
  pose proof (update_rounds_run h1 r c l (S (S l)) hexagon_layer_attrs dattrs
                (lookup_lt_Some _ _ _ Hl) Hd ltac:(lia)
                [0; 1000; 2000; 3000; 4000; 5000; 6000; 7000; 8000; 9000]
                g1 o2 (<["elevation_range" := VList [VInt 0; VInt 1000]]> hexagon_layer_attrs)
                Hlayer Hr (λ v, insert_insert_eq _ _ _ _)) as E3.
  cbn [last] in E3.
  set (h2 := <[l := ObjInstance "Layer"
                      (<["elevation_range" := VList [VInt 0; VInt 9000]]>
                         hexagon_layer_attrs)]> h1) in *.
  match type of E3 with
  | _ = (_, World _ ?g0 _ _ ?o0) => set (g2 := g0) in *; set (o3 := o0) in *
  end.
  pose proof (attributes_cell_run h2 g2 r c o3) as E4. cbv zeta in E4.
  assert (length h2 = S (S (S l))) as Hlen2.
  { unfold h2, h1. rewrite length_insert, !length_app. simpl. fold l. lia. }
  rewrite Hlen2 in E4.
  match type of E4 with
  | _ = (_, World ?hf0 ?g0 _ _ (_ ++ [Shown (deck_json _ ?d0)])) =>
      set (h3 := hf0) in *; set (g3 := g0) in *; set (dattrs' := d0) in *
  end.
  exists (World h1 g1 r c (o ++ [Shown (deck_json h1 dattrs)])),
         (World h2 g2 r c o3),
         (World h3 g3 r c (o3 ++ [Shown (deck_json h3 dattrs')])),
         l, (S (S l)), (S (S (S l))), (S (S (S (S (S (S (S l))))))), (S (S (S (S l)))),
         hexagon_layer_attrs, dattrs,
         (<["light_settings" := VRef (S (S (S (S l))))]> hexagon_layer_attrs), dattrs'.
  cbn [w_heap w_globals w_out].
  split; [exact E1|]. split; [by eexists|].
  split; [exact Hlayer|]. split; [exact Hr|]. split; [exact Hl|]. split; [exact Hd|].
  split; [reflexivity|]. split; [reflexivity|]. split; [reflexivity|].
  split.
  { erewrite bind_Ok by exact E2. exact E3. }
  split; [reflexivity|].
  split.
  { unfold o3, o2. rewrite !length_app. simpl. lia. }
  split; [exact E4|]. split; [by eexists|].
  split; [unfold g3; repeat (rewrite lookup_insert_ne by done); apply lookup_insert_eq|].
  split; [unfold g3; repeat (rewrite lookup_insert_ne by done); apply lookup_insert_eq|].
  split; [unfold g3; repeat (rewrite lookup_insert_ne by done); apply lookup_insert_eq|].
  split; [apply lookup_ge_None_2; lia|].
  split; [apply lookup_ge_None_2; lia|].
  split; [apply lookup_ge_None_2; lia|].
  split.
  { unfold h3. rewrite lookup_app_r by lia. by rewrite Hlen2, Nat.sub_diag. }
  split.
  { unfold h3. rewrite lookup_app_r by lia. rewrite Hlen2.
    by replace (S (S (S (S (S (S (S l)))))) - S (S (S l)))%nat with 4%nat by lia. }
  split; [reflexivity|]. split; [apply lookup_insert_eq|].
  split; [reflexivity|]. reflexivity.
Qed.

End IntroExtras.
